(** * Verification of the spectral analyzer of tem_waveform_analysis

    A shallow embedding of [waveform_analyzer.py] (class [WaveformAnalyzer])
    together with the properties its specification states about it, of the
    waveforms of [waveform_generator.py] (class [WaveformGenerator]) and of
    the tables of waveform types of [main.py].

    Numbers.  The program computes with IEEE doubles; the embedding computes
    with exact real numbers ([R]).  Every definition below is the real-number
    reading of the corresponding Python/NumPy/SciPy expression: [+], [*], [/],
    [sqrt], [cos] and [sin] are the exact operations, comparisons are the
    exact order.  Rounding, infinities and NaN are outside the model; a
    division by zero (only reachable through [t_max = 0]) has no faithful
    reading, and no statement depends on its value.  The waveforms divide
    by [width] and by [time_delay]; the statements about their values
    assume that the divisor is not zero.

    Errors.  Python exceptions are values of [exn], threaded by the error
    monad [result].

    Library calls.  [np.linspace], [fftfreq], [fft], [np.abs], [np.max],
    [np.searchsorted], [np.argmax], [np.argsort], [np.where] and
    [scipy.signal.find_peaks] are embedded from their documented behaviour;
    [find_peaks] follows the loop of SciPy's [_local_maxima_1d]. *)

From Stdlib Require Import String Reals Lra Lia List ZArith Bool.
From Stdlib Require Import Sorting.Sorted Sorting.Permutation.
Import ListNotations.
Open Scope R_scope.

Set Implicit Arguments.

(** ** Exceptions and the error monad *)

Inductive exn : Type := IndexError | ValueError.

Inductive result (A : Type) : Type :=
| Ok (a : A)
| Raise (e : exn).

Arguments Ok {A} a.
Arguments Raise {A} e.

Definition bind {A B : Type} (c : result A) (k : A -> result B) : result B :=
  match c with
  | Ok a => k a
  | Raise e => Raise e
  end.

Notation "x <- c ;; k" := (bind c (fun x => k))
  (at level 61, c at next level, right associativity).

(** ** Decisions on real numbers, as booleans *)

Definition Rltb (x y : R) : bool := if Rlt_dec x y then true else false.
Definition Rleb (x y : R) : bool := if Rle_dec x y then true else false.
Definition Reqb (x y : R) : bool := if Req_dec_T x y then true else false.

(** ** Python sequences *)

Module Py.

(** [l[i]] for a non-negative index. *)
Definition index {A : Type} (l : list A) (i : nat) : result A :=
  match nth_error l i with
  | Some x => Ok x
  | None => Raise IndexError
  end.

(** [l[start:stop]] for non-negative bounds. *)
Definition slice {A : Type} (l : list A) (start stop : nat) : list A :=
  skipn start (firstn stop l).

(** [l[:stop]] for an integer bound; a negative bound counts from the
    end. *)
Definition slice_to {A : Type} (l : list A) (stop : Z) : list A :=
  if (stop <? 0)%Z
  then firstn (length l - Z.to_nat (- stop)) l
  else firstn (Z.to_nat stop) l.

(** [l[-1] = x] on a non-empty array. *)
Fixpoint set_last {A : Type} (l : list A) (x : A) : list A :=
  match l with
  | [] => []
  | [_] => [x]
  | y :: l' => y :: set_last l' x
  end.

(** [l[-1]]. *)
Definition index_last {A : Type} (l : list A) : result A :=
  index l (length l - 1).

(** [a[idx]] with an index array (fancy indexing); [d] stands for an
    element out of range, which no caller below produces. *)
Definition take {A : Type} (d : A) (a : list A) (idx : list nat) : list A :=
  map (fun i => nth i a d) idx.

End Py.

(** ** NumPy *)

Module Np.

(** [np.linspace(start, stop, num)] with the default [endpoint=True]. *)
Definition linspace (start stop : R) (num : Z) : result (list R) :=
  if (num <? 0)%Z then Raise ValueError
  else
    let div := (num - 1)%Z in
    let delta := stop - start in
    let y := seq 0 (Z.to_nat num) in
    let y := if (0 <? div)%Z
             then map (fun i => INR i * (delta / IZR div) + start) y
             else map (fun i => INR i * delta + start) y in
    Ok (if (1 <? num)%Z then Py.set_last y stop else y).

(** [np.sum] and [np.mean]. *)
Definition sum (l : list R) : R := fold_left Rplus l 0.
Definition mean (l : list R) : R := sum l / INR (length l).

(** [np.max] and [np.min]; an empty array has no extremum. *)
Definition max (l : list R) : result R :=
  match l with
  | [] => Raise ValueError
  | x :: l' => Ok (fold_left Rmax l' x)
  end.

Definition min (l : list R) : result R :=
  match l with
  | [] => Raise ValueError
  | x :: l' => Ok (fold_left Rmin l' x)
  end.

(** [np.std] with the default [ddof=0]: the square root of the mean of
    the squared deviations from the mean. *)
Definition std (l : list R) : R :=
  let m := mean l in
  sqrt (mean (map (fun x => (x - m) * (x - m)) l)).

(** [np.abs] on a complex number given by its real and imaginary part. *)
Definition abs (c : R * R) : R := sqrt (fst c * fst c + snd c * snd c).

(** [np.searchsorted(a, v)] with the default [side='left'] on an
    ascending array: the first index whose element is not below [v]. *)
Fixpoint searchsorted (a : list R) (v : R) : nat :=
  match a with
  | [] => 0
  | x :: a' => if Rltb x v then S (searchsorted a' v) else 0
  end.

(** [np.argmax]: the index of the first occurrence of the maximum. *)
Fixpoint argmax_from (best_i : nat) (best : R) (i : nat) (l : list R) : nat :=
  match l with
  | [] => best_i
  | x :: l' =>
      if Rltb best x then argmax_from i x (S i) l'
      else argmax_from best_i best (S i) l'
  end.

Definition argmax (l : list R) : result nat :=
  match l with
  | [] => Raise ValueError
  | x :: l' => Ok (argmax_from 0 x 1 l')
  end.

(** [np.where(mask)[0]]: the indices of the true entries, ascending. *)
Fixpoint where_from (i : nat) (mask : list bool) : list nat :=
  match mask with
  | [] => []
  | b :: mask' =>
      if b then i :: where_from (S i) mask' else where_from (S i) mask'
  end.

Definition where_ (mask : list bool) : list nat := where_from 0 mask.

(** [np.any]. *)
Definition any (mask : list bool) : bool := existsb (fun b => b) mask.

(** [np.argsort]: the indices that sort the array ascending.  Ties are
    kept in index order; no statement below depends on the order of
    ties. *)
Fixpoint insert_idx (a : list R) (i : nat) (sorted : list nat) : list nat :=
  match sorted with
  | [] => [i]
  | j :: rest =>
      if Rltb (nth i a 0) (nth j a 0) then i :: j :: rest
      else j :: insert_idx a i rest
  end.

Definition argsort (a : list R) : list nat :=
  fold_left (fun acc i => insert_idx a i acc) (seq 0 (length a)) [].

End Np.

(** ** SciPy *)

Module Scipy.

(** The sum [w_0 f(th_0) + w_1 f(th_1) + ...] with
    [th_j = 2 pi k j / N], starting at sample index [j]. *)
Fixpoint dft_sum (f : R -> R) (N k : nat) (w : list R) (j : nat) : R :=
  match w with
  | [] => 0
  | x :: w' => x * f (2 * PI * INR (k * j) / INR N) + dft_sum f N k w' (S j)
  end.

(** Bin [k] of the discrete Fourier transform of [w]:
    [sum_j w_j exp(-2 pi i k j / N)], as (real part, imaginary part). *)
Definition dft_bin (w : list R) (k : nat) : R * R :=
  (dft_sum cos (length w) k w 0, - dft_sum sin (length w) k w 0).

(** [scipy.fft.fft(wave)]: as many bins as samples; an empty input is
    rejected. *)
Definition fft (wave : list R) : result (list (R * R)) :=
  match wave with
  | [] => Raise ValueError
  | _ => Ok (map (dft_bin wave) (seq 0 (length wave)))
  end.

(** [scipy.fft.fftfreq(n, d)]: [0, 1, ..., N-1, -(n//2), ..., -1] times
    [1/(n d)] with [N = (n-1)//2 + 1]. *)
Definition fftfreq (n : Z) (d : R) : list R :=
  let val := 1 / (IZR n * d) in
  let N := ((n - 1) / 2 + 1)%Z in
  let results :=
    map Z.of_nat (seq 0 (Z.to_nat N))
    ++ map (fun i => (Z.of_nat i - n / 2)%Z) (seq 0 (Z.to_nat (n / 2))) in
  map (fun k => IZR k * val) results.

(** The loop of [_local_maxima_1d].  [scan_ahead] is the inner loop
    [while i_ahead < i_max and x[i_ahead] == x[i]: i_ahead += 1]. *)
Fixpoint scan_ahead (fuel : nat) (x : list R) (v : R) (i_ahead i_max : nat) : nat :=
  match fuel with
  | O => i_ahead
  | S fuel' =>
      if (i_ahead <? i_max)%nat && Reqb (nth i_ahead x 0) v
      then scan_ahead fuel' x v (S i_ahead) i_max
      else i_ahead
  end.

(** The outer loop [while i < i_max], returning the midpoints. *)
Fixpoint maxima_loop (fuel : nat) (x : list R) (i i_max : nat) : list nat :=
  match fuel with
  | O => []
  | S fuel' =>
      if (i <? i_max)%nat then
        if Rltb (nth (i - 1) x 0) (nth i x 0) then
          let i_ahead := scan_ahead (length x) x (nth i x 0) (i + 1) i_max in
          if Rltb (nth i_ahead x 0) (nth i x 0) then
            ((i + (i_ahead - 1)) / 2)%nat
              :: maxima_loop fuel' x (i_ahead + 1) i_max
          else maxima_loop fuel' x (i + 1) i_max
        else maxima_loop fuel' x (i + 1) i_max
      else []
  end.

Definition local_maxima_1d (x : list R) : list nat :=
  maxima_loop (length x) x 1 (length x - 1).

(** [find_peaks(x, height=height)[0]]: the local maxima whose value is at
    least [height]. *)
Definition find_peaks (x : list R) (height : R) : list nat :=
  filter (fun p => Rleb height (nth p x 0)) (local_maxima_1d x).

End Scipy.

(** ** The class [WaveformAnalyzer] *)

Module WaveformAnalyzer.

Local Open Scope string_scope.

(** [self.config]: the two keys the class reads. *)
Record Config : Type := { t_max : R; n_samples : Z }.

(** The optional [config] argument: a dict holding any of the two keys. *)
Record ConfigArg : Type :=
  { arg_t_max : option R; arg_n_samples : option Z }.

Definition default_config : Config :=
  {| t_max := 1; n_samples := 100000 |}.

(** [dict.update]. *)
Definition update (c : Config) (u : ConfigArg) : Config :=
  {| t_max := match arg_t_max u with Some x => x | None => t_max c end;
     n_samples := match arg_n_samples u with Some n => n | None => n_samples c end |}.

(** The attributes of an instance. *)
Record Analyzer : Type :=
  { config : Config;
    t : list R;
    dt : R;
    n_freq : Z;
    freq : list R;
    freq_positive : list R }.

Definition _init_time_freq_params (cfg : Config) : result Analyzer :=
  t <- Np.linspace 0 (t_max cfg) (n_samples cfg) ;;
  t1 <- Py.index t 1 ;;
  t0 <- Py.index t 0 ;;
  let dt := t1 - t0 in
  let n_freq := (n_samples cfg / 2)%Z in
  let freq := Py.slice_to (Scipy.fftfreq (n_samples cfg) dt) n_freq in
  let freq_positive := filter (fun f => Rltb 0 f) freq in
  Ok {| config := cfg; t := t; dt := dt; n_freq := n_freq;
        freq := freq; freq_positive := freq_positive |}.

(** [self.config] after the optional update of the defaults. *)
Definition effective_config (config : option ConfigArg) : Config :=
  match config with
  | Some u => update default_config u
  | None => default_config
  end.

Definition __init__ (config : option ConfigArg) : result Analyzer :=
  _init_time_freq_params (effective_config config).

Section Methods.

Variable self : Analyzer.

(** [np.abs(spectrum[: self.n_freq]) / self.config["n_samples"]]. *)
Definition raw_magnitude (spectrum : list (R * R)) : list R :=
  map (fun c => Np.abs c / IZR (n_samples (config self)))
      (Py.slice_to spectrum (n_freq self)).

Definition compute_spectrum (wave : list R) (normalize : bool)
  : result (list R) :=
  spectrum <- Scipy.fft wave ;;
  let magnitude := raw_magnitude spectrum in
  if normalize then
    mx <- Np.max magnitude ;;
    if Rltb 0 mx then Ok (map (fun x => x / mx) magnitude)
    else Ok magnitude
  else Ok magnitude.

(** The lines shared by [find_dominant_frequency] and
    [find_multiple_peaks]: [min_idx], [freq_range] and
    [spectrum_range]. *)
Definition min_idx (min_freq : R) : nat :=
  Nat.max 1 (Np.searchsorted (freq_positive self) min_freq).

Definition max_idx (max_freq : option R) : nat :=
  match max_freq with
  | None => length (freq_positive self)
  | Some m => Np.searchsorted (freq_positive self) m
  end.

Definition freq_range (min_freq : R) (max_freq : option R) : list R :=
  Py.slice (freq_positive self) (min_idx min_freq) (max_idx max_freq).

Definition spectrum_range (spectrum : list R) (min_freq : R)
  (max_freq : option R) : list R :=
  Py.slice spectrum (min_idx min_freq)
    (min_idx min_freq + length (freq_range min_freq max_freq)).

Definition find_dominant_frequency (wave : list R) (min_freq : R)
  (max_freq : option R) : result (R * R) :=
  spectrum <- compute_spectrum wave false ;;
  let freq_range := freq_range min_freq max_freq in
  let spectrum_range := spectrum_range spectrum min_freq max_freq in
  if (length freq_range =? 0)%nat then Ok (0, 0)
  else
    peak_idx <- Np.argmax spectrum_range ;;
    dominant_freq <- Py.index freq_range peak_idx ;;
    peak_value <- Py.index spectrum_range peak_idx ;;
    Ok (dominant_freq, peak_value).

(** [peaks[sorted_indices]]: the detected peaks, ranked. *)
Definition ranked_peaks (spectrum_range : list R) (n_peaks : Z)
  (height : R) : list nat :=
  let peaks := Scipy.find_peaks spectrum_range height in
  let sorted_indices :=
    Py.slice_to (rev (Np.argsort (Py.take 0 spectrum_range peaks))) n_peaks in
  Py.take 0%nat peaks sorted_indices.

Definition find_multiple_peaks (wave : list R) (n_peaks : Z)
  (min_freq : R) (max_freq : option R) (height : R)
  : result (list R * list R) :=
  spectrum <- compute_spectrum wave true ;;
  let freq_range := freq_range min_freq max_freq in
  let spectrum_range := spectrum_range spectrum min_freq max_freq in
  if (length freq_range =? 0)%nat then Ok ([], [])
  else
    let idx := ranked_peaks spectrum_range n_peaks height in
    Ok (Py.take 0 freq_range idx, Py.take 0 spectrum_range idx).

Definition compute_bandwidth (wave : list R) (threshold : R)
  : result (R * R * R) :=
  spectrum <- compute_spectrum wave true ;;
  let mask :=
    map (fun x => Rleb threshold x)
        (Py.slice spectrum 1 (length (freq_positive self) + 1)) in
  if negb (Np.any mask) then Ok (0, 0, 0)
  else
    let indices := Np.where_ mask in
    i_low <- Py.index indices 0 ;;
    low_freq <- Py.index (freq_positive self) i_low ;;
    i_high <- Py.index_last indices ;;
    high_freq <- Py.index (freq_positive self) i_high ;;
    let bandwidth := high_freq - low_freq in
    Ok (low_freq, high_freq, bandwidth).

Definition compute_energy (wave : list R) : R :=
  Np.sum (map (fun x => x ^ 2) wave) * dt self.

(** The returned dict, in insertion order.  [np.mean] and [np.std] do
    not raise; [np.min] is the first call that rejects an empty
    array. *)
Definition compute_statistics (wave : list R)
  : result (list (string * R)) :=
  let mean := Np.mean wave in
  let std := Np.std wave in
  mn <- Np.min wave ;;
  mx <- Np.max wave ;;
  Ok [ ("mean", mean);
       ("std", std);
       ("min", mn);
       ("max", mx);
       ("peak_to_peak", mx - mn);
       ("rms", sqrt (Np.mean (map (fun x => x ^ 2) wave)));
       ("energy", compute_energy wave) ].

End Methods.

(** A method call on an instance: the instance after the call and the
    value or exception of the call.  No method assigns an attribute. *)
Inductive method : Type :=
| ComputeSpectrum (wave : list R) (normalize : bool)
| FindDominantFrequency (wave : list R) (min_freq : R) (max_freq : option R)
| FindMultiplePeaks (wave : list R) (n_peaks : Z) (min_freq : R)
    (max_freq : option R) (height : R)
| ComputeBandwidth (wave : list R) (threshold : R)
| ComputeEnergy (wave : list R)
| ComputeStatistics (wave : list R).

Inductive value : Type :=
| VArray (a : list R)
| VPair (p : R * R)
| VArrays (p : list R * list R)
| VTriple (p : R * R * R)
| VFloat (x : R)
| VDict (d : list (string * R)).

Definition call (self : Analyzer) (m : method) : Analyzer * result value :=
  (self,
   match m with
   | ComputeSpectrum w n => r <- compute_spectrum self w n ;; Ok (VArray r)
   | FindDominantFrequency w lo hi =>
       r <- find_dominant_frequency self w lo hi ;; Ok (VPair r)
   | FindMultiplePeaks w n lo hi h =>
       r <- find_multiple_peaks self w n lo hi h ;; Ok (VArrays r)
   | ComputeBandwidth w th => r <- compute_bandwidth self w th ;; Ok (VTriple r)
   | ComputeEnergy w => Ok (VFloat (compute_energy self w))
   | ComputeStatistics w => r <- compute_statistics self w ;; Ok (VDict r)
   end).

End WaveformAnalyzer.

(** ** The class [WaveformGenerator] *)

Module WaveformGenerator.

(** [self.config]: the two keys the class reads. *)
Record Config : Type := { time_delay : R; pulse_ratio : R }.

(** The optional [config] argument. *)
Record ConfigArg : Type :=
  { arg_time_delay : option R; arg_pulse_ratio : option R }.

Definition default_config : Config :=
  {| time_delay := 1 / 100000; pulse_ratio := 1 / 2 |}.

Definition update (c : Config) (u : ConfigArg) : Config :=
  {| time_delay := match arg_time_delay u with Some x => x | None => time_delay c end;
     pulse_ratio := match arg_pulse_ratio u with Some x => x | None => pulse_ratio c end |}.

(** The attributes of an instance. *)
Record Generator : Type := { config : Config; has_simpeg : bool }.

(** [_check_simpeg] asks the interpreter whether SimPEG can be imported;
    the answer is the argument [simpeg_installed]. *)
Definition __init__ (config : option ConfigArg) (simpeg_installed : bool)
  : Generator :=
  {| config := match config with
               | Some u => update default_config u
               | None => default_config
               end;
     has_simpeg := simpeg_installed |}.

(** [np.zeros_like(t)] for an array [t] of floats. *)
Definition zeros_like (t : list R) : list R := map (fun _ => 0) t.

(** [wave[mask] = f(t[mask])] for a mask computed from [t] sample by
    sample: the masked samples are overwritten, the others kept. *)
Fixpoint assign (t wave : list R) (mask : R -> bool) (f : R -> R) : list R :=
  match t, wave with
  | x :: t', w :: wave' => (if mask x then f x else w) :: assign t' wave' mask f
  | _, _ => []
  end.

(** [(lo <= t) & (t <= hi)], [(lo <= t) & (t < hi)] and
    [(lo < t) & (t <= hi)]. *)
Definition closed (lo hi : R) (x : R) : bool := Rleb lo x && Rleb x hi.
Definition half_open (lo hi : R) (x : R) : bool := Rleb lo x && Rltb x hi.
Definition left_open (lo hi : R) (x : R) : bool := Rltb lo x && Rleb x hi.

Section Methods.

Variable self : Generator.

Definition half_sine_wave (t : list R) (width : R) : list R :=
  let wave := zeros_like t in
  assign t wave (closed 0 width) (fun x => sin (PI * x / width)).

Definition differential_pulse (t : list R) (width : R) : list R :=
  let wave := zeros_like t in
  let time_delay := time_delay (config self) in
  let pulse_time := width * pulse_ratio (config self) in
  let t1 := 0 in
  let t2 := t1 + time_delay in
  let t3 := t2 + pulse_time in
  let t4 := t3 + 2 * time_delay in
  let t5 := t4 + pulse_time in
  let t6 := t5 + time_delay in
  let wave := assign t wave (half_open t1 t2) (fun x => (x - t1) / time_delay) in
  let wave := assign t wave (half_open t2 t3) (fun _ => 1) in
  let wave := assign t wave (half_open t3 t4)
                (fun x => 1 - (x - t3) / time_delay) in
  let wave := assign t wave (half_open t4 t5) (fun _ => -1) in
  let wave := assign t wave (half_open t5 t6)
                (fun x => -1 * (t6 - x) / time_delay) in
  wave.

Definition square_wave (t : list R) (width : R) : list R :=
  let wave := zeros_like t in
  assign t wave (closed 0 width) (fun _ => 1).

Definition triangle_wave (t : list R) (width : R) : list R :=
  let wave := zeros_like t in
  let wave := assign t wave (closed 0 (width / 2)) (fun x => 2 * x / width) in
  let wave := assign t wave (left_open (width / 2) width)
                (fun x => 2 - 2 * x / width) in
  wave.

Definition gaussian_pulse (t : list R) (width : R) : list R :=
  let center := width / 2 in
  let sigma := width / 6 in
  map (fun x => exp (- ((x - center) ^ 2) / (2 * sigma ^ 2))) t.

Definition custom_waveform (t : list R) (width : R)
  (func : list R -> R -> list R) : list R :=
  func t width.

End Methods.

End WaveformGenerator.

(** ** [main.py]: the tables of waveform types *)

Module Main.

Local Open Scope string_scope.

(** The bound methods of the generator that the tables hold. *)
Inductive wave_method : Type :=
| half_sine_wave
| differential_pulse
| square_wave
| triangle_wave
| gaussian_pulse
| simpeg_trapezoid
| simpeg_differential_pulse
| simpeg_step_off.

(** [dict.get(key)] on a dict given by its items in insertion order;
    [None] for a missing key. *)
Fixpoint dict_get {V : Type} (d : list (string * V)) (key : string) : option V :=
  match d with
  | [] => None
  | (k, v) :: d' => if String.eqb k key then Some v else dict_get d' key
  end.

(** [dict.update(other)] for keys that the dict does not hold yet. *)
Definition dict_update {V : Type} (d other : list (string * V))
  : list (string * V) :=
  d ++ other.

(** [get_wave_func(manager, wave_type)]; of the manager only
    [manager.generator.has_simpeg] is read. *)
Definition get_wave_func (has_simpeg : bool) (wave_type : string)
  : option wave_method :=
  let wave_funcs :=
    [ ("half_sine", half_sine_wave);
      ("differential", differential_pulse);
      ("square", square_wave);
      ("triangle", triangle_wave);
      ("gaussian", gaussian_pulse) ] in
  let wave_funcs :=
    if has_simpeg then
      dict_update wave_funcs
        [ ("trapezoid", simpeg_trapezoid);
          ("simpeg_diff", simpeg_differential_pulse);
          ("step_off", simpeg_step_off) ]
    else wave_funcs in
  dict_get wave_funcs wave_type.

Definition get_wave_name (wave_type : string) : option string :=
  let wave_names :=
    [ ("half_sine", "Half-Sine Wave");
      ("differential", "Differential Pulse");
      ("square", "Square Wave");
      ("triangle", "Triangle Wave");
      ("gaussian", "Gaussian Pulse");
      ("trapezoid", "SimPEG Trapezoid");
      ("simpeg_diff", "SimPEG Differential Pulse");
      ("step_off", "SimPEG Step-Off") ] in
  dict_get wave_names wave_type.

(** The [choices] of [--wave_type] in [parse_args]. *)
Definition wave_type_choices : list string :=
  [ "half_sine"; "differential"; "square"; "triangle";
    "gaussian"; "trapezoid"; "simpeg_diff"; "step_off" ].

(** The loop of the [compare] mode of [main] that collects the
    functions and the names of the waveform types it can resolve. *)
Fixpoint collect (has_simpeg : bool) (wave_types : list string)
  (wave_funcs : list wave_method) (wave_names : list (option string))
  : list wave_method * list (option string) :=
  match wave_types with
  | [] => (wave_funcs, wave_names)
  | wave_type :: rest =>
      let wave_func := get_wave_func has_simpeg wave_type in
      let wave_name := get_wave_name wave_type in
      match wave_func with
      | Some f => collect has_simpeg rest (wave_funcs ++ [f]) (wave_names ++ [wave_name])
      | None => collect has_simpeg rest wave_funcs wave_names
      end
  end.

(** The list [wave_types] of the [compare] mode. *)
Definition compare_wave_types (has_simpeg : bool) : list string :=
  let wave_types :=
    [ "half_sine"; "differential"; "square"; "triangle"; "gaussian" ] in
  if has_simpeg
  then wave_types ++ [ "trapezoid"; "simpeg_diff"; "step_off" ]
  else wave_types.

End Main.

(** * Vocabulary of the specification *)

Section Vocabulary.

Import WaveformAnalyzer.

(** The frequency bins [k * val] for [count] values of [k] from [from];
    [freq] is [bins (1 / (n dt)) 0 (n // 2)]. *)
Definition bins (val : R) (from count : nat) : list R :=
  map (fun k => INR k * val) (seq from count).

(** A configuration the specification calls valid. *)
Definition valid_config (cfg : Config) : Prop :=
  0 < t_max cfg /\ (2 <= n_samples cfg)%Z.

(** Orders on a sequence, by position. *)
Definition ascending (l : list R) : Prop :=
  forall i j, (i <= j)%nat -> (j < length l)%nat -> nth i l 0 <= nth j l 0.

Definition descending (l : list R) : Prop :=
  forall i j, (i <= j)%nat -> (j < length l)%nat -> nth j l 0 <= nth i l 0.

Definition strictly_descending (l : list R) : Prop :=
  forall i j, (i < j)%nat -> (j < length l)%nat -> nth j l 0 < nth i l 0.

(** The invariant of the sampling grid. *)
Definition grid_invariant (a : Analyzer) : Prop :=
  let n := n_samples (config a) in
  dt a = t_max (config a) / IZR (n - 1)
  /\ length (freq a) = Z.to_nat (n / 2)
  /\ (forall k, (k < length (freq a))%nat ->
                nth k (freq a) 0 = INR k / (IZR n * dt a))
  /\ ascending (freq a)
  /\ freq_positive a = filter (fun f => Rltb 0 f) (freq a)
  /\ freq_positive a = tl (freq a)
  /\ (length (freq_positive a) = length (freq a) - 1)%nat.

(** The instance after a sequence of method calls. *)
Definition after_calls (a : Analyzer) (ms : list method) : Analyzer :=
  fold_left (fun self m => fst (call self m)) ms a.

(** The wave [c * wave]. *)
Definition scale (c : R) (wave : list R) : list R := map (Rmult c) wave.

(** Some sample of the wave is not zero. *)
Definition nonzero_wave (wave : list R) : Prop :=
  exists x, In x wave /\ x <> 0.

(** [i] is the first, [j] the last position of [l] whose value reaches
    [threshold]. *)
Definition first_reaching (threshold : R) (l : list R) (i : nat) : Prop :=
  (i < length l)%nat /\ threshold <= nth i l 0
  /\ forall i', (i' < i)%nat -> nth i' l 0 < threshold.

Definition last_reaching (threshold : R) (l : list R) (j : nat) : Prop :=
  (j < length l)%nat /\ threshold <= nth j l 0
  /\ forall j', (j < j')%nat -> (j' < length l)%nat -> nth j' l 0 < threshold.

(** [p] is an interior position whose value is strictly above both
    neighbours. *)
Definition strict_local_maximum (x : list R) (p : nat) : Prop :=
  (0 < p)%nat /\ (p + 1 < length x)%nat
  /\ nth (p - 1) x 0 < nth p x 0 /\ nth (p + 1) x 0 < nth p x 0.

(** [p] is an interior position whose value is not below either
    neighbour. *)
Definition local_maximum (x : list R) (p : nat) : Prop :=
  (0 < p)%nat /\ (p + 1 < length x)%nat
  /\ nth (p - 1) x 0 <= nth p x 0 /\ nth (p + 1) x 0 <= nth p x 0.

(** [p] is the middle, rounded down, of a run [left..right] of equal
    values lying strictly inside [x] and strictly above the values just
    before and just after the run. *)
Definition plateau_peak (x : list R) (p : nat) : Prop :=
  exists left right,
    (1 <= left)%nat /\ (left <= right)%nat /\ (right + 1 < length x)%nat
    /\ p = ((left + right) / 2)%nat
    /\ (forall i, (left <= i)%nat -> (i <= right)%nat -> nth i x 0 = nth left x 0)
    /\ nth (left - 1) x 0 < nth left x 0
    /\ nth (right + 1) x 0 < nth left x 0.

(** Sums and averages as the specification words them. *)
Fixpoint total (l : list R) : R :=
  match l with
  | [] => 0
  | x :: l' => x + total l'
  end.

Definition arithmetic_mean (l : list R) : R := total l / INR (length l).

Definition population_std (l : list R) : R :=
  sqrt (arithmetic_mean
          (map (fun x => (x - arithmetic_mean l) ^ 2) l)).

Definition root_mean_square (l : list R) : R :=
  sqrt (arithmetic_mean (map (fun x => x ^ 2) l)).

Definition least (m : R) (l : list R) : Prop :=
  In m l /\ forall x, In x l -> m <= x.

Definition greatest (m : R) (l : list R) : Prop :=
  In m l /\ forall x, In x l -> x <= m.

(** [stats[key]] on the returned dict. *)
Fixpoint lookup (key : string) (d : list (string * R)) : option R :=
  match d with
  | [] => None
  | (k, v) :: d' => if String.eqb key k then Some v else lookup key d'
  end.

End Vocabulary.

(** ** Vocabulary of the waveforms *)

(** The wave has one sample per time, and [P] relates every time to its
    sample. *)
Definition samplewise (P : R -> R -> Prop) (t wave : list R) : Prop :=
  length wave = length t
  /\ forall i, (i < length t)%nat -> P (nth i t 0) (nth i wave 0).

(** * Concrete inputs *)

Module Inputs.

Import WaveformAnalyzer.

(** The configuration [{"t_max": -1, "n_samples": 8}]. *)
Definition negative_duration : option ConfigArg :=
  Some {| arg_t_max := Some (-1); arg_n_samples := Some 8%Z |}.

(** The configuration [{"t_max": 15/16, "n_samples": 16}]: [dt = 1/16] and
    the bins are 0, 1, ..., 7 Hz. *)
Definition sixteen_samples : option ConfigArg :=
  Some {| arg_t_max := Some (15 / 16); arg_n_samples := Some 16%Z |}.

(** The configuration [{"t_max": 3/4, "n_samples": 4}]: [dt = 1/4] and the
    bins are 0 and 1 Hz. *)
Definition four_samples : option ConfigArg :=
  Some {| arg_t_max := Some (3 / 4); arg_n_samples := Some 4%Z |}.

(** Sixteen samples, zero except at the positions 0, 4, 8 and 12. *)
Definition sparse16 (a b c d : R) : list R :=
  [a; 0; 0; 0; b; 0; 0; 0; c; 0; 0; 0; d; 0; 0; 0].

(** A wave whose transform lives in the bins 2 and 6 (of 0..7). *)
Definition two_tone : list R := sparse16 1 (-1) 1 (-1).

(** A wave whose normalized spectrum is [1, 1, 1/3, 1, 1, 1, 1/3, 1]. *)
Definition plateau : list R := sparse16 1 (-1) 1 2.

(** Four samples alternating between 1 and -1: all of the transform is in
    the bin 2 of 0..3. *)
Definition alternating : list R := [1; -1; 1; -1].

(** [cos] and [sin] at [p] quarter turns. *)
Definition cosq (p : nat) : R :=
  match (p mod 4)%nat with
  | 0%nat => 1
  | 1%nat => 0
  | 2%nat => -1
  | _ => 0
  end.

Definition sinq (p : nat) : R :=
  match (p mod 4)%nat with
  | 0%nat => 0
  | 1%nat => 1
  | 2%nat => 0
  | _ => -1
  end.

End Inputs.

(** * Properties *)

(** ** Boolean decisions *)

Lemma Rltb_true (x y : R) : x < y -> Rltb x y = true.
Proof. intros H. unfold Rltb. destruct (Rlt_dec x y); [reflexivity | contradiction]. Qed.

Lemma Rltb_false (x y : R) : y <= x -> Rltb x y = false.
Proof. intros H. unfold Rltb. destruct (Rlt_dec x y); [lra | reflexivity]. Qed.

Lemma Rltb_spec (x y : R) : Rltb x y = true <-> x < y.
Proof.
  unfold Rltb. destruct (Rlt_dec x y); split; intros; try assumption;
    try reflexivity; try discriminate; contradiction.
Qed.

Lemma Rleb_true (x y : R) : x <= y -> Rleb x y = true.
Proof. intros H. unfold Rleb. destruct (Rle_dec x y); [reflexivity | contradiction]. Qed.

Lemma Rleb_false (x y : R) : y < x -> Rleb x y = false.
Proof. intros H. unfold Rleb. destruct (Rle_dec x y); [lra | reflexivity]. Qed.

Lemma Rleb_spec (x y : R) : Rleb x y = true <-> x <= y.
Proof.
  unfold Rleb. destruct (Rle_dec x y); split; intros; try assumption;
    try reflexivity; try discriminate; contradiction.
Qed.

Lemma Reqb_true (x y : R) : x = y -> Reqb x y = true.
Proof. intros H. unfold Reqb. destruct (Req_dec_T x y); [reflexivity | contradiction]. Qed.

Lemma Reqb_false (x y : R) : x <> y -> Reqb x y = false.
Proof. intros H. unfold Reqb. destruct (Req_dec_T x y); [contradiction | reflexivity]. Qed.

Lemma Reqb_spec (x y : R) : Reqb x y = true <-> x = y.
Proof.
  unfold Reqb. destruct (Req_dec_T x y); split; intros; try assumption;
    try reflexivity; try discriminate; contradiction.
Qed.

(** Decide every comparison of the goal whose outcome [lra] settles. *)
Ltac rdecide :=
  repeat match goal with
    | |- context [Rltb ?a ?b] =>
        first [ rewrite (@Rltb_true a b) by lra | rewrite (@Rltb_false a b) by lra ]
    | |- context [Rleb ?a ?b] =>
        first [ rewrite (@Rleb_true a b) by lra | rewrite (@Rleb_false a b) by lra ]
    | |- context [Reqb ?a ?b] =>
        first [ rewrite (@Reqb_true a b) by lra | rewrite (@Reqb_false a b) by lra ]
    end.

(** ** Sequences *)

Lemma set_last_length {A : Type} (l : list A) (x : A) :
  length (Py.set_last l x) = length l.
Proof.
  induction l as [|y l IH]; [reflexivity|].
  destruct l as [|z l]; [reflexivity|].
  change (Py.set_last (y :: z :: l) x) with (y :: Py.set_last (z :: l) x).
  simpl length in *. now rewrite IH.
Qed.

Lemma set_last_nth_error {A : Type} (l : list A) (x : A) (i : nat) :
  (S i < length l)%nat -> nth_error (Py.set_last l x) i = nth_error l i.
Proof.
  revert i. induction l as [|y l IH]; intros i Hi; [reflexivity|].
  destruct l as [|z l]; [simpl in Hi; lia|].
  change (Py.set_last (y :: z :: l) x) with (y :: Py.set_last (z :: l) x).
  destruct i as [|i]; [reflexivity|].
  simpl nth_error. apply IH. simpl in *. lia.
Qed.

Lemma set_last_last {A : Type} (l : list A) (x : A) :
  l <> [] -> nth_error (Py.set_last l x) (length l - 1) = Some x.
Proof.
  induction l as [|y l IH]; intros Hne; [contradiction|].
  destruct l as [|z l]; [reflexivity|].
  change (Py.set_last (y :: z :: l) x) with (y :: Py.set_last (z :: l) x).
  replace (length (y :: z :: l) - 1)%nat with (S (length (z :: l) - 1))
    by (simpl; lia).
  simpl nth_error. apply IH. discriminate.
Qed.

Lemma slice_length {A : Type} (l : list A) (a b : nat) :
  length (Py.slice l a b) = (Nat.min b (length l) - a)%nat.
Proof. unfold Py.slice. now rewrite length_skipn, length_firstn. Qed.

Lemma slice_nth {A : Type} (d : A) (l : list A) (a b i : nat) :
  (a + i < b)%nat -> nth i (Py.slice l a b) d = nth (a + i) l d.
Proof.
  intros H. unfold Py.slice. rewrite nth_skipn.
  revert l H. generalize (a + i)%nat as m. clear.
  intros m. revert b. induction m as [|m IH]; intros b l H.
  - destruct b; [lia|]. destruct l; reflexivity.
  - destruct b; [lia|]. destruct l; [reflexivity|]. simpl. apply IH. lia.
Qed.

Lemma nth_map_in {A B : Type} (f : A -> B) (l : list A) (i : nat) (dA : A) (dB : B) :
  (i < length l)%nat -> nth i (map f l) dB = f (nth i l dA).
Proof.
  revert i. induction l as [|x l IH]; intros i Hi; [simpl in Hi; lia|].
  destruct i as [|i]; [reflexivity|]. simpl. apply IH. simpl in Hi. lia.
Qed.

Lemma firstn_seq (n start len : nat) :
  firstn n (seq start len) = seq start (Nat.min n len).
Proof.
  revert start len. induction n as [|n IH]; intros start len; [reflexivity|].
  destruct len as [|len]; [reflexivity|]. simpl. now rewrite IH.
Qed.

Lemma index_nth {A : Type} (d : A) (l : list A) (i : nat) :
  (i < length l)%nat -> Py.index l i = Ok (nth i l d).
Proof.
  intros H. unfold Py.index.
  rewrite (nth_error_nth' l d H). reflexivity.
Qed.

Lemma index_out {A : Type} (l : list A) (i : nat) :
  (length l <= i)%nat -> Py.index l i = Raise IndexError.
Proof.
  intros H. unfold Py.index.
  destruct (nth_error l i) eqn:E; [|reflexivity].
  assert (nth_error l i <> None) as Hn by congruence.
  apply nth_error_Some in Hn. lia.
Qed.

(** ** The sampling grid *)

Section Grid.

Import WaveformAnalyzer.

Lemma bins_length (val : R) (from count : nat) :
  length (bins val from count) = count.
Proof. unfold bins. now rewrite length_map, length_seq. Qed.

Lemma bins_nth (val : R) (from count i : nat) :
  (i < count)%nat -> nth i (bins val from count) 0 = INR (from + i) * val.
Proof.
  intros H. unfold bins.
  rewrite (nth_map_in _ _ 0%nat) by (now rewrite length_seq).
  now rewrite seq_nth.
Qed.

Lemma linspace_two (stop : R) (num : Z) :
  (2 <= num)%Z ->
  exists l, Np.linspace 0 stop num = Ok l
            /\ length l = Z.to_nat num
            /\ nth_error l 0 = Some 0
            /\ nth_error l 1 = Some (stop / IZR (num - 1)).
Proof.
  intros Hn. unfold Np.linspace.
  replace (num <? 0)%Z with false by (symmetry; apply Z.ltb_ge; lia).
  replace (0 <? num - 1)%Z with true by (symmetry; apply Z.ltb_lt; lia).
  replace (1 <? num)%Z with true by (symmetry; apply Z.ltb_lt; lia).
  eexists. split; [reflexivity|].
  set (y := map _ _).
  assert (length y = Z.to_nat num) as Hlen
      by (subst y; now rewrite length_map, length_seq).
  assert (2 <= Z.to_nat num)%nat as Hn' by lia.
  split; [now rewrite set_last_length|]. split.
  - rewrite set_last_nth_error by lia.
    subst y. destruct (Z.to_nat num) as [|m]; [lia|].
    simpl. f_equal. lra.
  - destruct (Z.eq_dec num 2) as [->|Hne].
    + subst y. simpl. f_equal. lra.
    + rewrite set_last_nth_error by lia.
      subst y. destruct (Z.to_nat num) as [|[|m]]; try lia.
      simpl. f_equal. lra.
Qed.

Lemma fftfreq_head (n : Z) (d : R) :
  (2 <= n)%Z ->
  Py.slice_to (Scipy.fftfreq n d) (n / 2)
  = bins (1 / (IZR n * d)) 0 (Z.to_nat (n / 2)).
Proof.
  intros Hn. unfold Py.slice_to, Scipy.fftfreq, bins.
  assert (1 <= n / 2)%Z as Hh by (apply Z.div_le_lower_bound; lia).
  assert (n / 2 <= (n - 1) / 2 + 1)%Z as Hle.
  { pose proof (Z.div_mod n 2 ltac:(lia)) as E1.
    pose proof (Z.div_mod (n - 1) 2 ltac:(lia)) as E2.
    pose proof (Z.mod_pos_bound n 2 ltac:(lia)).
    pose proof (Z.mod_pos_bound (n - 1) 2 ltac:(lia)). lia. }
  replace (n / 2 <? 0)%Z with false by (symmetry; apply Z.ltb_ge; lia).
  rewrite firstn_map, firstn_app.
  rewrite length_map, length_seq.
  replace (Z.to_nat (n / 2) - Z.to_nat ((n - 1) / 2 + 1))%nat with 0%nat by lia.
  rewrite firstn_O, app_nil_r, firstn_map, firstn_seq.
  replace (Nat.min (Z.to_nat (n / 2)) (Z.to_nat ((n - 1) / 2 + 1)))
    with (Z.to_nat (n / 2)) by lia.
  rewrite map_map. apply map_ext. intros k. now rewrite <- INR_IZR_INZ.
Qed.

(** Construction succeeds as soon as there are two samples, with the
    attributes in closed form. *)
Lemma init_closed_form (cfg : Config) :
  (2 <= n_samples cfg)%Z ->
  exists a, _init_time_freq_params cfg = Ok a
    /\ config a = cfg
    /\ length (t a) = Z.to_nat (n_samples cfg)
    /\ dt a = t_max cfg / IZR (n_samples cfg - 1)
    /\ n_freq a = (n_samples cfg / 2)%Z
    /\ freq a = bins (1 / (IZR (n_samples cfg) * dt a)) 0
                  (Z.to_nat (n_samples cfg / 2))
    /\ freq_positive a = filter (fun f => Rltb 0 f) (freq a).
Proof.
  intros Hn. unfold _init_time_freq_params.
  destruct (linspace_two (t_max cfg) Hn) as (l & -> & Hlen & H0 & H1).
  cbn [bind]. unfold Py.index. rewrite H1, H0. cbn [bind].
  eexists. split; [reflexivity|]. cbn.
  rewrite fftfreq_head by assumption.
  repeat split; try assumption. lra.
Qed.

(** Fewer than two samples: [self.t[1]] does not exist (or
    [np.linspace] rejects a negative count). *)
Lemma init_too_few (cfg : Config) :
  (n_samples cfg < 2)%Z ->
  exists e, _init_time_freq_params cfg = Raise e.
Proof.
  intros Hn. unfold _init_time_freq_params, Np.linspace.
  destruct (n_samples cfg <? 0)%Z eqn:Hneg; [now exists ValueError|].
  apply Z.ltb_ge in Hneg.
  replace (0 <? n_samples cfg - 1)%Z with false by (symmetry; apply Z.ltb_ge; lia).
  replace (1 <? n_samples cfg)%Z with false by (symmetry; apply Z.ltb_ge; lia).
  cbn [bind]. exists IndexError.
  rewrite index_out; [reflexivity|].
  rewrite length_map, length_seq. lia.
Qed.

Lemma filter_positive_bins (val : R) (from count : nat) :
  0 < val -> (1 <= from)%nat ->
  filter (fun f => Rltb 0 f) (bins val from count) = bins val from count.
Proof.
  intros Hv. revert from. unfold bins.
  induction count as [|c IH]; intros from Hf; [reflexivity|].
  simpl. rewrite Rltb_true.
  - f_equal. apply IH. lia.
  - apply Rmult_lt_0_compat; [|assumption]. apply lt_0_INR. lia.
Qed.

Lemma filter_positive_from_zero (val : R) (count : nat) :
  0 < val ->
  filter (fun f => Rltb 0 f) (bins val 0 count) = bins val 1 (count - 1).
Proof.
  intros Hv. destruct count as [|c]; [reflexivity|].
  unfold bins at 1. simpl seq. simpl map. simpl filter.
  rewrite Rltb_false by lra.
  replace (S c - 1)%nat with c by lia.
  now apply filter_positive_bins.
Qed.

Lemma filter_nonpositive_bins (val : R) (from count : nat) :
  val <= 0 ->
  filter (fun f => Rltb 0 f) (bins val from count) = [].
Proof.
  intros Hv. revert from. unfold bins.
  induction count as [|c IH]; intros from; [reflexivity|].
  simpl. rewrite Rltb_false; [apply IH|].
  pose proof (pos_INR from). nra.
Qed.

Lemma bins_ascending (val : R) (from count i j : nat) :
  0 < val -> (i <= j)%nat -> (j < count)%nat ->
  nth i (bins val from count) 0 <= nth j (bins val from count) 0.
Proof.
  intros Hv Hij Hj. rewrite !bins_nth by lia.
  apply Rmult_le_compat_r; [lra|]. apply le_INR. lia.
Qed.

Lemma bins_positive (val : R) (from count i : nat) :
  0 < val -> (1 <= from)%nat -> (i < count)%nat ->
  0 < nth i (bins val from count) 0.
Proof.
  intros Hv Hf Hi. rewrite bins_nth by lia.
  apply Rmult_lt_0_compat; [|assumption]. apply lt_0_INR. lia.
Qed.

End Grid.

(** ** Construction: claims C8 and C6 *)

Section Construction.

Import WaveformAnalyzer Inputs.

Lemma after_calls_same (a : Analyzer) (ms : list method) :
  after_calls a ms = a.
Proof.
  unfold after_calls. induction ms as [|m ms IH]; [reflexivity|].
  simpl. exact IH.
Qed.

Lemma valid_config_val (cfg : Config) :
  valid_config cfg ->
  0 < 1 / (IZR (n_samples cfg) * (t_max cfg / IZR (n_samples cfg - 1))).
Proof.
  intros [Ht Hn].
  assert (0 < IZR (n_samples cfg)) by (apply IZR_lt; lia).
  assert (0 < IZR (n_samples cfg - 1)) by (apply IZR_lt; lia).
  apply Rdiv_lt_0_compat; [lra|].
  apply Rmult_lt_0_compat; [assumption|].
  now apply Rdiv_lt_0_compat.
Qed.

Lemma half_at_least_one (n : Z) : (2 <= n)%Z -> (1 <= Z.to_nat (n / 2))%nat.
Proof.
  intros Hn. assert (1 <= n / 2)%Z by (apply Z.div_le_lower_bound; lia). lia.
Qed.

(** What a valid construction builds, in the form the other proofs use. *)
Lemma init_valid (arg : option ConfigArg) (a : Analyzer) :
  valid_config (effective_config arg) ->
  __init__ arg = Ok a ->
  exists val m,
    0 < val /\ (1 <= m)%nat
    /\ m = Z.to_nat (n_samples (config a) / 2)
    /\ config a = effective_config arg
    /\ n_freq a = (n_samples (config a) / 2)%Z
    /\ dt a = t_max (config a) / IZR (n_samples (config a) - 1)
    /\ val = 1 / (IZR (n_samples (config a)) * dt a)
    /\ freq a = bins val 0 m
    /\ freq_positive a = bins val 1 (m - 1).
Proof.
  intros Hv Hinit. unfold __init__ in Hinit.
  destruct (init_closed_form (effective_config arg) (proj2 Hv))
    as (a' & Ha' & Hc & _ & Hdt & Hnf & Hf & Hfp).
  rewrite Ha' in Hinit. injection Hinit as <-.
  pose proof (valid_config_val Hv) as Hval.
  rewrite <- Hc in Hdt, Hnf, Hf, Hval.
  exists (1 / (IZR (n_samples (config a')) * dt a')),
         (Z.to_nat (n_samples (config a') / 2)).
  rewrite Hdt at 1. split; [exact Hval|].
  split; [apply half_at_least_one; rewrite Hc; exact (proj2 Hv)|].
  repeat split; try assumption.
  rewrite Hfp, Hf. apply filter_positive_from_zero.
  rewrite Hdt. exact Hval.
Qed.

Lemma grid_tail (arg : option ConfigArg) (a : Analyzer) :
  valid_config (effective_config arg) ->
  __init__ arg = Ok a ->
  freq_positive a = tl (freq a)
  /\ length (freq a) = Z.to_nat (n_samples (config a) / 2)
  /\ S (length (freq_positive a)) = length (freq a).
Proof.
  intros Hv Hinit.
  destruct (init_valid arg Hv Hinit)
    as (val & m & _ & Hm & Em & _ & _ & _ & _ & Hf & Hfp).
  rewrite Hf, Hfp, !bins_length. split; [|split; [exact Em | lia]].
  destruct m as [|c]; [lia|].
  replace (S c - 1)%nat with c by lia. reflexivity.
Qed.

(** C8: a valid construction ([t_max > 0], [n_samples >= 2]) succeeds and
    builds a grid where [dt = t_max / (n_samples - 1)], [freq] has
    [n_samples // 2] entries [freq[k] = k / (n_samples * dt)] in ascending
    order, [freq_positive] keeps exactly the entries of [freq] above zero,
    which are all but the first one, so that
    [len(freq_positive) = len(freq) - 1]; every sequence of method calls
    leaves the instance, hence this invariant, as it is. *)
Theorem grid_invariant_holds (arg : option ConfigArg) :
  valid_config (effective_config arg) ->
  exists a, __init__ arg = Ok a
    /\ config a = effective_config arg
    /\ grid_invariant a
    /\ forall ms, grid_invariant (after_calls a ms).
Proof.
  intros Hv.
  destruct (init_closed_form (effective_config arg) (proj2 Hv))
    as (a & Ha & Hc & Hrest).
  exists a. split; [exact Ha|]. split; [exact Hc|].
  assert (grid_invariant a) as Hinv.
  { destruct (init_valid arg Hv Ha)
      as (val & m & Hval & Hm & Em & _ & _ & Hdt & Eval & Hf & Hfp).
    unfold grid_invariant. cbv zeta.
    split; [exact Hdt|].
    split; [rewrite Hf, bins_length; exact Em|].
    split.
    { intros k Hk. rewrite Hf in *. rewrite bins_length in Hk.
      rewrite bins_nth by assumption. rewrite Eval. simpl.
      unfold Rdiv. ring. }
    split.
    { intros i j Hij Hj. rewrite Hf in *. rewrite bins_length in Hj.
      now apply bins_ascending. }
    split.
    { rewrite Hfp, Hf. symmetry. now apply filter_positive_from_zero. }
    split.
    { rewrite Hfp, Hf. destruct m as [|c]; [lia|].
      replace (S c - 1)%nat with c by lia. reflexivity. }
    rewrite Hfp, Hf, !bins_length. reflexivity. }
  split; [exact Hinv|].
  intros ms. now rewrite after_calls_same.
Qed.

Lemma grid_invariant_holds_witness :
  valid_config (effective_config None)
  /\ exists a, __init__ None = Ok a
       /\ config a = effective_config None
       /\ grid_invariant a
       /\ forall ms, grid_invariant (after_calls a ms).
Proof.
  assert (valid_config (effective_config None)) as Hv
      by (split; simpl; [lra | lia]).
  split; [exact Hv|].
  exact (grid_invariant_holds None Hv).
Defined.

(** C6 as stated fails: with [t_max = -1] and eight samples the
    construction returns an instance instead of failing; its grid has a
    negative [dt] and no positive frequency. *)
Lemma construction_accepts_negative_duration :
  (t_max (effective_config negative_duration) <= 0
   \/ (n_samples (effective_config negative_duration) < 2)%Z)
  /\ (exists a, __init__ negative_duration = Ok a
                /\ dt a = - 1 / 7
                /\ freq_positive a = [])
  /\ ~ (exists e, __init__ negative_duration = Raise e).
Proof.
  split; [left; simpl; lra|].
  destruct (init_closed_form (effective_config negative_duration))
    as (a & Ha & Hc & _ & Hdt & _ & Hf & Hfp); [simpl; lia|].
  simpl in Hdt.
  assert (dt a = - 1 / 7) as Hdt' by (rewrite Hdt; lra).
  split.
  - exists a. split; [exact Ha|]. split; [exact Hdt'|].
    rewrite Hfp, Hf. apply filter_nonpositive_bins.
    rewrite Hdt'. simpl.
    replace (1 / (8 * (-1 / 7))) with (- (7 / 8)) by field. lra.
  - intros [e He]. unfold __init__ in He. rewrite Ha in He. discriminate.
Qed.

(** C6, amended: the construction fails exactly when there are fewer than
    two samples (an [IndexError] at [self.t[1]], or a [ValueError] of
    [np.linspace] for a negative count) and then returns no instance;
    [t_max] is not validated, so with at least two samples an instance is
    returned whatever [t_max] is. *)
Theorem construction_fails_iff_too_few_samples (arg : option ConfigArg) :
  ((n_samples (effective_config arg) < 2)%Z ->
   exists e, __init__ arg = Raise e
             /\ (e = IndexError \/ e = ValueError)
             /\ (e = ValueError <-> (n_samples (effective_config arg) < 0)%Z))
  /\ ((2 <= n_samples (effective_config arg))%Z ->
      exists a, __init__ arg = Ok a /\ config a = effective_config arg).
Proof.
  split; intros Hn.
  - unfold __init__, _init_time_freq_params, Np.linspace.
    destruct (n_samples (effective_config arg) <? 0)%Z eqn:Hneg.
    + apply Z.ltb_lt in Hneg. exists ValueError.
      split; [reflexivity|]. split; [now right|]. tauto.
    + apply Z.ltb_ge in Hneg.
      replace (0 <? n_samples (effective_config arg) - 1)%Z with false
        by (symmetry; apply Z.ltb_ge; lia).
      replace (1 <? n_samples (effective_config arg))%Z with false
        by (symmetry; apply Z.ltb_ge; lia).
      cbn [bind]. exists IndexError.
      rewrite index_out by (rewrite length_map, length_seq; lia).
      split; [reflexivity|]. split; [now left|].
      split; [discriminate | lia].
  - destruct (init_closed_form (effective_config arg) Hn) as (a & Ha & Hc & _).
    exists a. now split.
Qed.

End Construction.

(** ** The magnitude spectrum: claims C2 and C7 *)

Section Spectrum.

Import WaveformAnalyzer.

Lemma fft_nonempty (wave : list R) :
  wave <> [] ->
  Scipy.fft wave = Ok (map (Scipy.dft_bin wave) (seq 0 (length wave))).
Proof. destruct wave; [contradiction | reflexivity]. Qed.

Lemma slice_to_nonneg {A : Type} (l : list A) (n : Z) :
  (0 <= n)%Z -> Py.slice_to l n = firstn (Z.to_nat n) l.
Proof.
  intros Hn. unfold Py.slice_to.
  now replace (n <? 0)%Z with false by (symmetry; apply Z.ltb_ge; lia).
Qed.

Lemma abs_nonneg (c : R * R) : 0 <= Np.abs c.
Proof. apply sqrt_pos. Qed.

Lemma raw_magnitude_length (a : Analyzer) (spectrum : list (R * R)) :
  (0 <= n_freq a)%Z ->
  length (raw_magnitude a spectrum)
  = Nat.min (Z.to_nat (n_freq a)) (length spectrum).
Proof.
  intros Hn. unfold raw_magnitude.
  now rewrite length_map, slice_to_nonneg, length_firstn.
Qed.

Lemma raw_magnitude_nonneg (a : Analyzer) (spectrum : list (R * R)) :
  (0 < n_samples (config a))%Z ->
  Forall (fun x => 0 <= x) (raw_magnitude a spectrum).
Proof.
  intros Hn. unfold raw_magnitude. apply Forall_map, Forall_forall.
  intros c _. apply Rmult_le_pos; [apply abs_nonneg|].
  apply Rlt_le, Rinv_0_lt_compat, IZR_lt. assumption.
Qed.

(** [np.max]: an upper bound that is attained. *)
Lemma fold_max_ge_init (l : list R) (x : R) : x <= fold_left Rmax l x.
Proof.
  revert x. induction l as [|y l IH]; intros x; [simpl; lra|].
  simpl. eapply Rle_trans; [apply Rmax_l | apply IH].
Qed.

Lemma fold_max_upper (l : list R) (x y : R) :
  In y l -> y <= fold_left Rmax l x.
Proof.
  revert x. induction l as [|z l IH]; intros x Hin; [contradiction|].
  simpl. destruct Hin as [->|Hin].
  - eapply Rle_trans; [apply Rmax_r | apply fold_max_ge_init].
  - now apply IH.
Qed.

Lemma fold_max_in (l : list R) (x : R) : In (fold_left Rmax l x) (x :: l).
Proof.
  revert x. induction l as [|y l IH]; intros x; [now left|].
  simpl fold_left. destruct (IH (Rmax x y)) as [E|Hin].
  - unfold Rmax in E at 1. destruct (Rle_dec x y).
    + right; left. exact E.
    + left. exact E.
  - right; right. exact Hin.
Qed.

Lemma max_greatest (l : list R) (mx : R) :
  Np.max l = Ok mx -> greatest mx l.
Proof.
  destruct l as [|x l]; [discriminate|]. simpl. intros [= <-]. split.
  - apply fold_max_in.
  - intros y [<-|Hy]; [apply fold_max_ge_init | now apply fold_max_upper].
Qed.

Lemma greatest_max (l : list R) (mx : R) :
  greatest mx l -> Np.max l = Ok mx.
Proof.
  intros [Hin Hub]. destruct l as [|x l]; [contradiction|].
  simpl. f_equal. apply Rle_antisym.
  - apply Hub. apply fold_max_in.
  - destruct Hin as [<-|Hin]; [apply fold_max_ge_init | now apply fold_max_upper].
Qed.

Lemma max_nonempty (l : list R) :
  l <> [] -> exists mx, Np.max l = Ok mx.
Proof. destruct l; [contradiction | intros _; eexists; reflexivity]. Qed.

(** Dividing by a positive maximum sends the maximum to one. *)
Lemma greatest_normalized (l : list R) (mx : R) :
  greatest mx l -> 0 < mx ->
  greatest 1 (map (fun x => x / mx) l).
Proof.
  intros [Hin Hub] Hpos. split.
  - apply in_map_iff. exists mx. split; [field; lra | assumption].
  - intros y Hy. apply in_map_iff in Hy. destruct Hy as (x & <- & Hx).
    apply Hub in Hx. apply Rmult_le_reg_r with mx; [assumption|].
    unfold Rdiv. rewrite Rmult_assoc, Rinv_l by lra. lra.
Qed.

(** [compute_spectrum] on a non-empty wave: no check of the length, the
    raw magnitudes of the transform of the wave as given. *)
Lemma compute_spectrum_raw (a : Analyzer) (wave : list R) :
  wave <> [] ->
  compute_spectrum a wave false
  = Ok (raw_magnitude a (map (Scipy.dft_bin wave) (seq 0 (length wave)))).
Proof.
  intros Hne. unfold compute_spectrum. now rewrite fft_nonempty.
Qed.

Lemma compute_spectrum_empty (a : Analyzer) (normalize : bool) :
  compute_spectrum a [] normalize = Raise ValueError.
Proof. reflexivity. Qed.

Lemma raw_length_nonempty (a : Analyzer) (wave : list R) :
  wave <> [] -> (1 <= n_freq a)%Z ->
  raw_magnitude a (map (Scipy.dft_bin wave) (seq 0 (length wave))) <> [].
Proof.
  intros Hne Hn E. apply (f_equal (@length R)) in E.
  rewrite raw_magnitude_length, length_map, length_seq in E by lia.
  destruct wave; [contradiction|]. simpl in E. lia.
Qed.

Lemma compute_spectrum_normalized (a : Analyzer) (wave : list R) :
  wave <> [] -> (1 <= n_freq a)%Z ->
  exists raw mx,
    compute_spectrum a wave false = Ok raw
    /\ Np.max raw = Ok mx
    /\ compute_spectrum a wave true
       = Ok (if Rltb 0 mx then map (fun x => x / mx) raw else raw).
Proof.
  intros Hne Hn.
  destruct (max_nonempty (raw_length_nonempty a Hne Hn)) as [mx Hmx].
  eexists; exists mx. split; [now apply compute_spectrum_raw|].
  split; [exact Hmx|].
  unfold compute_spectrum. rewrite fft_nonempty by assumption.
  cbn [bind]. rewrite Hmx. cbn [bind].
  destruct (Rltb 0 mx); reflexivity.
Qed.

Lemma init_ok (arg : option ConfigArg) (a : Analyzer) :
  __init__ arg = Ok a ->
  (2 <= n_samples (config a))%Z
  /\ config a = effective_config arg
  /\ n_freq a = (n_samples (config a) / 2)%Z
  /\ (1 <= n_freq a)%Z.
Proof.
  intros Hinit. unfold __init__ in Hinit.
  destruct (Z_lt_le_dec (n_samples (effective_config arg)) 2) as [Hlt|Hge].
  - destruct (init_too_few _ Hlt) as [e He]. congruence.
  - destruct (init_closed_form _ Hge) as (a' & Ha' & Hc & _ & _ & Hnf & _).
    rewrite Ha' in Hinit. injection Hinit as <-.
    rewrite Hc. repeat split; try assumption.
    rewrite Hnf. apply Z.div_le_lower_bound; lia.
Qed.

Lemma slice_to_map {A B : Type} (f : A -> B) (l : list A) (n : Z) :
  Py.slice_to (map f l) n = map f (Py.slice_to l n).
Proof.
  unfold Py.slice_to. rewrite length_map.
  destruct (n <? 0)%Z; apply firstn_map.
Qed.

Lemma dft_sum_scale (f : R -> R) (N k : nat) (c : R) (w : list R) (j : nat) :
  Scipy.dft_sum f N k (scale c w) j = c * Scipy.dft_sum f N k w j.
Proof.
  revert j. induction w as [|x w IH]; intros j; simpl; [ring|].
  unfold scale in IH. rewrite IH. ring.
Qed.

Lemma abs_scale (c re im : R) :
  0 <= c -> Np.abs (c * re, - (c * im)) = c * Np.abs (re, - im).
Proof.
  intros Hc. unfold Np.abs. cbn [fst snd].
  replace (c * re * (c * re) + - (c * im) * - (c * im))
    with ((c * c) * (re * re + - im * - im)) by ring.
  rewrite sqrt_mult; [| nra | nra].
  now rewrite sqrt_square.
Qed.

Lemma raw_magnitude_scale (a : Analyzer) (c : R) (wave : list R) :
  0 <= c ->
  raw_magnitude a (map (Scipy.dft_bin (scale c wave))
                       (seq 0 (length (scale c wave))))
  = scale c (raw_magnitude a (map (Scipy.dft_bin wave) (seq 0 (length wave)))).
Proof.
  intros Hc. unfold raw_magnitude.
  rewrite !slice_to_map. unfold scale at 3. rewrite !map_map.
  replace (length (scale c wave)) with (length wave)
    by (unfold scale; now rewrite length_map).
  apply map_ext. intros k. unfold Scipy.dft_bin.
  replace (length (scale c wave)) with (length wave)
    by (unfold scale; now rewrite length_map).
  rewrite !dft_sum_scale, abs_scale by assumption.
  unfold Rdiv. ring.
Qed.

Lemma raw_spectrum_full (arg : option ConfigArg) (a : Analyzer) (wave : list R) :
  __init__ arg = Ok a ->
  Z.of_nat (length wave) = n_samples (config a) ->
  exists raw,
    compute_spectrum a wave false = Ok raw
    /\ length raw = Z.to_nat (n_samples (config a) / 2)
    /\ Forall (fun x => 0 <= x) raw.
Proof.
  intros Hinit Hlen.
  destruct (init_ok _ Hinit) as (Hn & _ & Hnf & Hnf1).
  assert (wave <> []) as Hne by (intros ->; simpl in Hlen; lia).
  eexists. split; [now apply compute_spectrum_raw|]. split.
  - rewrite raw_magnitude_length, length_map, length_seq by lia.
    rewrite Hnf. assert (n_samples (config a) / 2 <= n_samples (config a))%Z
      by (apply Z.div_le_upper_bound; lia). lia.
  - apply raw_magnitude_nonneg. lia.
Qed.

(** The normalized spectrum exists, has one value per retained bin and
    no value above one. *)
Lemma normalized_bounded (arg : option ConfigArg) (a : Analyzer) (wave : list R) :
  __init__ arg = Ok a ->
  Z.of_nat (length wave) = n_samples (config a) ->
  exists m,
    compute_spectrum a wave true = Ok m
    /\ length m = Z.to_nat (n_samples (config a) / 2)
    /\ Forall (fun x => x <= 1) m.
Proof.
  intros Hinit Hlen.
  destruct (init_ok _ Hinit) as (_ & _ & _ & Hnf1).
  assert (wave <> []) as Hne
      by (intros ->; destruct (init_ok _ Hinit) as (Hn & _); simpl in Hlen; lia).
  destruct (raw_spectrum_full arg wave Hinit Hlen) as (raw & Hraw & Hrl & Hpos).
  destruct (compute_spectrum_normalized a Hne Hnf1) as (raw' & mx & Hraw' & Hmx & Hm).
  rewrite Hraw in Hraw'. injection Hraw' as <-.
  eexists. split; [exact Hm|].
  pose proof (max_greatest _ Hmx) as [Hin Hub].
  rewrite Forall_forall in Hpos.
  destruct (Rlt_dec 0 mx) as [Hlt|Hnlt].
  - rewrite (Rltb_true Hlt). split; [now rewrite length_map|].
    apply Forall_map, Forall_forall. intros x Hx.
    apply Rmult_le_reg_r with mx; [assumption|].
    unfold Rdiv. rewrite Rmult_assoc, Rinv_l by lra.
    specialize (Hub x Hx). lra.
  - rewrite Rltb_false by lra. split; [exact Hrl|].
    apply Forall_forall. intros x Hx. specialize (Hub x Hx). lra.
Qed.

(** C7: in raw mode the spectrum is homogeneous,
    [compute_spectrum(c*wave, normalize=False)
     = c * compute_spectrum(wave, normalize=False)] for [c > 0]. *)
Theorem raw_spectrum_homogeneous (arg : option ConfigArg) (a : Analyzer)
  (wave : list R) (c : R) :
  __init__ arg = Ok a ->
  Z.of_nat (length wave) = n_samples (config a) ->
  0 < c ->
  exists raw,
    compute_spectrum a wave false = Ok raw
    /\ compute_spectrum a (scale c wave) false = Ok (scale c raw).
Proof.
  intros Hinit Hlen Hc.
  destruct (init_ok _ Hinit) as (Hn & _).
  assert (wave <> []) as Hne by (intros ->; simpl in Hlen; lia).
  assert (scale c wave <> []) as Hne'
      by (destruct wave; [contradiction | discriminate]).
  eexists. split; [now apply compute_spectrum_raw|].
  rewrite compute_spectrum_raw by assumption.
  f_equal. apply raw_magnitude_scale. lra.
Qed.

(** C2, amended: for a wave of [n_samples] samples the normalized
    spectrum has [n_samples // 2] values, all in [0, 1]; when the largest
    raw magnitude is positive every raw value is divided by it and the
    largest value of the result is 1; when it is 0 the raw spectrum,
    all zeros, is returned as it is. *)
Theorem normalized_spectrum_range (arg : option ConfigArg) (a : Analyzer)
  (wave : list R) :
  __init__ arg = Ok a ->
  Z.of_nat (length wave) = n_samples (config a) ->
  exists raw mx m,
    compute_spectrum a wave false = Ok raw
    /\ Np.max raw = Ok mx
    /\ compute_spectrum a wave true = Ok m
    /\ length m = Z.to_nat (n_samples (config a) / 2)
    /\ Forall (fun x => 0 <= x <= 1) m
    /\ 0 <= mx
    /\ (0 < mx -> m = map (fun x => x / mx) raw /\ Np.max m = Ok 1)
    /\ (mx = 0 -> m = raw /\ Forall (fun x => x = 0) m).
Proof.
  intros Hinit Hlen.
  destruct (init_ok _ Hinit) as (Hn & _ & Hnf & Hnf1).
  assert (wave <> []) as Hne by (intros ->; simpl in Hlen; lia).
  destruct (compute_spectrum_normalized a Hne Hnf1) as (raw & mx & Hraw & Hmx & Hm).
  exists raw, mx. eexists. split; [exact Hraw|]. split; [exact Hmx|].
  split; [exact Hm|].
  assert (Forall (fun x => 0 <= x) raw) as Hpos.
  { rewrite compute_spectrum_raw in Hraw by assumption.
    injection Hraw as <-. apply raw_magnitude_nonneg. lia. }
  assert (length raw = Z.to_nat (n_samples (config a) / 2)) as Hrl.
  { rewrite compute_spectrum_raw in Hraw by assumption.
    injection Hraw as <-.
    rewrite raw_magnitude_length, length_map, length_seq by lia.
    rewrite Hnf. assert (n_samples (config a) / 2 <= n_samples (config a))%Z
      by (apply Z.div_le_upper_bound; lia). lia. }
  pose proof (max_greatest _ Hmx) as [Hin Hub].
  rewrite Forall_forall in Hpos.
  assert (0 <= mx) as Hmx0 by (now apply Hpos).
  destruct (Rlt_dec 0 mx) as [Hlt|Hnlt].
  - rewrite (Rltb_true Hlt).
    split; [now rewrite length_map|]. split.
    { apply Forall_map, Forall_forall. intros x Hx. split.
      - apply Rmult_le_pos; [now apply Hpos|].
        now apply Rlt_le, Rinv_0_lt_compat.
      - apply Rmult_le_reg_r with mx; [assumption|].
        unfold Rdiv. rewrite Rmult_assoc, Rinv_l by lra.
        specialize (Hub x Hx). lra. }
    split; [exact Hmx0|]. split.
    + intros _. split; [reflexivity|].
      apply greatest_max, greatest_normalized; [now split | assumption].
    + intros E. lra.
  - rewrite Rltb_false by lra.
    assert (Forall (fun x => x = 0) raw) as Hz.
    { apply Forall_forall. intros x Hx.
      specialize (Hub x Hx). specialize (Hpos x Hx). lra. }
    split; [exact Hrl|]. split.
    { apply Forall_forall. intros x Hx.
      rewrite Forall_forall in Hz. rewrite (Hz x Hx). lra. }
    split; [exact Hmx0|]. split; [intros Hlt; contradiction|].
    intros _. now split.
Qed.

End Spectrum.

(** ** Bandwidth: claim C3 *)

Section Bandwidth.

Import WaveformAnalyzer.

Lemma any_false_all (mask : list bool) :
  Np.any mask = false -> forall k, (k < length mask)%nat -> nth_error mask k = Some false.
Proof.
  unfold Np.any. induction mask as [|b mask IH]; intros H k Hk; [simpl in Hk; lia|].
  simpl in H. apply orb_false_iff in H. destruct H as [-> H].
  destruct k as [|k]; [reflexivity|]. simpl. apply IH; [assumption|]. simpl in Hk. lia.
Qed.

Lemma first_true_exists (mask : list bool) :
  Np.any mask = true ->
  exists k, nth_error mask k = Some true
            /\ forall k', (k' < k)%nat -> nth_error mask k' = Some false.
Proof.
  unfold Np.any. induction mask as [|b mask IH]; intros H; [discriminate|].
  destruct b.
  - exists 0%nat. split; [reflexivity|]. intros k' Hk'. lia.
  - simpl in H. destruct (IH H) as (k & Hk & Hbefore).
    exists (S k). split; [exact Hk|].
    intros [|k'] Hk'; [reflexivity|]. simpl. apply Hbefore. lia.
Qed.

Lemma last_true_exists (mask : list bool) :
  Np.any mask = true ->
  exists k, nth_error mask k = Some true
            /\ forall k', (k < k')%nat -> (k' < length mask)%nat ->
                          nth_error mask k' = Some false.
Proof.
  induction mask as [|b mask IH]; intros H; [discriminate|].
  destruct (Np.any mask) eqn:Hrest.
  - destruct (IH eq_refl) as (k & Hk & Hafter).
    exists (S k). split; [exact Hk|].
    intros [|k'] Hlt Hlen; [lia|]. simpl. apply Hafter; [lia | simpl in Hlen; lia].
  - unfold Np.any in *. simpl in H. rewrite Hrest, orb_false_r in H. subst b.
    exists 0%nat. split; [reflexivity|].
    intros [|k'] Hlt Hlen; [lia|]. simpl.
    apply any_false_all; [exact Hrest | simpl in Hlen; lia].
Qed.

Lemma where_from_all_false (i : nat) (mask : list bool) :
  (forall k, (k < length mask)%nat -> nth_error mask k = Some false) ->
  Np.where_from i mask = [].
Proof.
  revert i. induction mask as [|b mask IH]; intros i H; [reflexivity|].
  assert (b = false) as -> by (specialize (H 0%nat ltac:(simpl; lia)); now injection H).
  simpl. apply IH. intros k Hk. apply (H (S k)). simpl. lia.
Qed.

Lemma where_from_first (i : nat) (mask : list bool) (k : nat) :
  nth_error mask k = Some true ->
  (forall k', (k' < k)%nat -> nth_error mask k' = Some false) ->
  exists rest, Np.where_from i mask = (i + k)%nat :: rest.
Proof.
  revert i mask. induction k as [|k IH]; intros i mask Hk Hbefore.
  - destruct mask as [|b mask]; [discriminate|]. injection Hk as ->.
    simpl. rewrite Nat.add_0_r. eexists; reflexivity.
  - destruct mask as [|b mask]; [discriminate|].
    assert (b = false) as -> by (specialize (Hbefore 0%nat ltac:(lia)); now injection Hbefore).
    simpl. replace (i + S k)%nat with (S i + k)%nat by lia.
    apply IH; [exact Hk|]. intros k' Hk'. apply (Hbefore (S k')). lia.
Qed.

Lemma where_from_last (i : nat) (mask : list bool) (k : nat) :
  nth_error mask k = Some true ->
  (forall k', (k < k')%nat -> (k' < length mask)%nat -> nth_error mask k' = Some false) ->
  exists init, Np.where_from i mask = init ++ [(i + k)%nat].
Proof.
  revert i mask. induction k as [|k IH]; intros i mask Hk Hafter.
  - destruct mask as [|b mask]; [discriminate|]. injection Hk as ->.
    simpl. rewrite where_from_all_false.
    + exists []. now rewrite Nat.add_0_r.
    + intros k Hlen. apply (Hafter (S k)); [lia | simpl; lia].
  - destruct mask as [|b mask]; [discriminate|].
    simpl in Hk.
    destruct (IH (S i) mask Hk) as [init Hinit].
    { intros k' Hlt Hlen. apply (Hafter (S k')); [lia | simpl; lia]. }
    replace (i + S k)%nat with (S i + k)%nat by lia.
    simpl. rewrite Hinit. destruct b.
    + exists (i :: init). reflexivity.
    + exists init. reflexivity.
Qed.

Lemma index_last_app {A : Type} (init : list A) (x : A) :
  Py.index_last (init ++ [x]) = Ok x.
Proof.
  unfold Py.index_last, Py.index.
  rewrite length_app. simpl length.
  replace (length init + 1 - 1)%nat with (length init) by lia.
  rewrite nth_error_app2 by lia. now rewrite Nat.sub_diag.
Qed.

Lemma mask_nth_true (threshold : R) (l : list R) (k : nat) :
  nth_error (map (fun x => Rleb threshold x) l) k = Some true <->
  (k < length l)%nat /\ threshold <= nth k l 0.
Proof.
  rewrite nth_error_map. split.
  - intros H. destruct (nth_error l k) as [x|] eqn:E; [|discriminate].
    assert (k < length l)%nat as Hk by (apply nth_error_Some; congruence).
    split; [exact Hk|]. rewrite (nth_error_nth _ _ 0 E).
    injection H as H. now apply Rleb_spec.
  - intros [Hk Hle]. rewrite (nth_error_nth' l 0 Hk). simpl. f_equal.
    now apply Rleb_true.
Qed.

Lemma mask_nth_false (threshold : R) (l : list R) (k : nat) :
  nth_error (map (fun x => Rleb threshold x) l) k = Some false ->
  nth k l 0 < threshold.
Proof.
  rewrite nth_error_map. intros H.
  destruct (nth_error l k) as [x|] eqn:E; [|discriminate].
  rewrite (nth_error_nth _ _ 0 E). injection H as H.
  unfold Rleb in H. destruct (Rle_dec threshold x); [discriminate | lra].
Qed.

(** The two outcomes of the search for the bins that reach the threshold. *)
Lemma reaching_bins (threshold : R) (examined : list R) :
  let mask := map (fun x => Rleb threshold x) examined in
  (Np.any mask = false /\ Forall (fun x => x < threshold) examined)
  \/ (Np.any mask = true
      /\ exists i j,
           Py.index (Np.where_ mask) 0 = Ok i
           /\ Py.index_last (Np.where_ mask) = Ok j
           /\ first_reaching threshold examined i
           /\ last_reaching threshold examined j
           /\ (i <= j)%nat).
Proof.
  intros mask. destruct (Np.any mask) eqn:Hany; [right | left].
  - split; [reflexivity|].
    destruct (first_true_exists _ Hany) as (i & Hi & Hbefore).
    destruct (last_true_exists _ Hany) as (j & Hj & Hafter).
    exists i, j.
    destruct (where_from_first 0 _ Hi Hbefore) as [rest Hrest].
    destruct (where_from_last 0 _ Hj Hafter) as [init Hinit].
    unfold Np.where_. split; [now rewrite Hrest|].
    split; [rewrite Hinit; apply index_last_app|].
    pose proof (proj1 (mask_nth_true _ _ _) Hi) as [Hil Hir].
    pose proof (proj1 (mask_nth_true _ _ _) Hj) as [Hjl Hjr].
    split; [|split].
    + split; [exact Hil|]. split; [exact Hir|].
      intros i' Hi'. apply mask_nth_false. now apply Hbefore.
    + split; [exact Hjl|]. split; [exact Hjr|].
      intros j' Hj' Hlen. apply mask_nth_false. apply Hafter; [exact Hj'|].
      subst mask. now rewrite length_map.
    + destruct (le_lt_dec i j) as [Hle|Hlt]; [exact Hle|].
      specialize (Hbefore j Hlt). congruence.
  - split; [reflexivity|]. apply Forall_forall. intros x Hx.
    apply In_nth with (d := 0) in Hx. destruct Hx as (k & Hk & <-).
    apply mask_nth_false. apply any_false_all; [exact Hany|].
    subst mask. now rewrite length_map.
Qed.

Lemma slice_incl {A : Type} (l : list A) (a b : nat) (x : A) :
  In x (Py.slice l a b) -> In x l.
Proof.
  unfold Py.slice. intros H.
  rewrite <- (firstn_skipn b l). apply in_or_app. left.
  rewrite <- (firstn_skipn a (firstn b l)). apply in_or_app. now right.
Qed.

(** C3: for a wave of [n_samples] samples, [compute_bandwidth] examines
    the normalized magnitudes at raw indices 1 to [len(freq_positive)]; it
    returns [(0, 0, 0)] exactly when none of them reaches the threshold,
    which is always so for the threshold 1.1; otherwise it returns the
    frequency of the first bin that reaches it, the frequency of the last
    one and their difference, the first not above the second. *)
Theorem bandwidth_span (arg : option ConfigArg) (a : Analyzer)
  (wave : list R) (threshold : R) :
  valid_config (effective_config arg) ->
  __init__ arg = Ok a ->
  Z.of_nat (length wave) = n_samples (config a) ->
  exists m examined r,
    compute_spectrum a wave true = Ok m
    /\ examined = Py.slice m 1 (length (freq_positive a) + 1)
    /\ length examined = length (freq_positive a)
    /\ compute_bandwidth a wave threshold = Ok r
    /\ (r = (0, 0, 0) <-> Forall (fun x => x < threshold) examined)
    /\ (threshold = 11 / 10 -> r = (0, 0, 0))
    /\ (Exists (fun x => threshold <= x) examined ->
        exists i j,
          first_reaching threshold examined i
          /\ last_reaching threshold examined j
          /\ r = (nth i (freq_positive a) 0, nth j (freq_positive a) 0,
                  nth j (freq_positive a) 0 - nth i (freq_positive a) 0)
          /\ nth i (freq_positive a) 0 <= nth j (freq_positive a) 0).
Proof.
  intros Hv Hinit Hlen.
  destruct (normalized_bounded arg wave Hinit Hlen) as (m & Hm & Hml & Hrange).
  destruct (init_valid arg Hv Hinit)
    as (val & m' & Hval & Hm1 & Em & _ & _ & _ & _ & _ & Hfp).
  set (examined := Py.slice m 1 (length (freq_positive a) + 1)).
  assert (length examined = length (freq_positive a)) as Hel.
  { subst examined. rewrite slice_length, Hml, Hfp, bins_length. lia. }
  assert (forall x, In x examined -> x <= 1) as Hle1.
  { intros x Hx. apply slice_incl in Hx.
    rewrite Forall_forall in Hrange. now apply Hrange. }
  exists m, examined.
  unfold compute_bandwidth. rewrite Hm. cbn [bind]. fold examined.
  destruct (reaching_bins threshold examined)
    as [[Hany Hall] | (Hany & i & j & Hi & Hj & Hfirst & Hlast & Hij)].
  - rewrite Hany. cbn [negb]. eexists.
    split; [reflexivity|]. split; [reflexivity|]. split; [exact Hel|].
    split; [reflexivity|]. split; [tauto|]. split; [reflexivity|].
    intros Hex. apply Exists_exists in Hex. destruct Hex as (x & Hx & Hxt).
    rewrite Forall_forall in Hall. specialize (Hall x Hx). lra.
  - rewrite Hany. cbn [negb]. rewrite Hi, Hj. cbn [bind].
    destruct Hfirst as (Hil & Hit & Hib). destruct Hlast as (Hjl & Hjt & Hja).
    rewrite (index_nth 0 (freq_positive a) (i := i)) by lia.
    rewrite (index_nth 0 (freq_positive a) (i := j)) by lia.
    cbn [bind]. eexists.
    split; [reflexivity|]. split; [reflexivity|]. split; [exact Hel|].
    split; [reflexivity|].
    assert (0 < nth i (freq_positive a) 0) as Hpos.
    { rewrite Hfp. apply bins_positive; try lia; try assumption.
      rewrite Hfp, bins_length in Hel. lia. }
    assert (In (nth i examined 0) examined) as Hin by (now apply nth_In).
    split; [|split].
    + split.
      * intros [= E _ _]. lra.
      * intros Hall. rewrite Forall_forall in Hall.
        specialize (Hall _ Hin). lra.
    + intros ->. specialize (Hle1 _ Hin). lra.
    + intros _. exists i, j.
      split; [now repeat split|]. split; [now repeat split|].
      split; [reflexivity|].
      rewrite Hfp. apply bins_ascending; try assumption.
      rewrite Hfp, bins_length in Hel. lia.
Qed.

End Bandwidth.

(** ** Energy and statistics: claim C9 *)

Section Statistics.

Import WaveformAnalyzer.

Local Open Scope string_scope.

Lemma fold_plus_total (l : list R) (acc : R) :
  fold_left Rplus l acc = acc + total l.
Proof.
  revert acc. induction l as [|x l IH]; intros acc; simpl; [ring|].
  rewrite IH. ring.
Qed.

Lemma sum_total (l : list R) : Np.sum l = total l.
Proof. unfold Np.sum. rewrite fold_plus_total. ring. Qed.

Lemma mean_arithmetic (l : list R) : Np.mean l = arithmetic_mean l.
Proof. unfold Np.mean, arithmetic_mean. now rewrite sum_total. Qed.

Lemma std_population (l : list R) : Np.std l = population_std l.
Proof.
  unfold Np.std, population_std. cbv zeta.
  rewrite !mean_arithmetic. do 2 f_equal.
  apply map_ext. intros x. ring.
Qed.

Lemma fold_min_le_init (l : list R) (x : R) : fold_left Rmin l x <= x.
Proof.
  revert x. induction l as [|y l IH]; intros x; [simpl; lra|].
  simpl. eapply Rle_trans; [apply IH | apply Rmin_l].
Qed.

Lemma fold_min_lower (l : list R) (x y : R) :
  In y l -> fold_left Rmin l x <= y.
Proof.
  revert x. induction l as [|z l IH]; intros x Hin; [contradiction|].
  simpl. destruct Hin as [->|Hin].
  - eapply Rle_trans; [apply fold_min_le_init | apply Rmin_r].
  - now apply IH.
Qed.

Lemma fold_min_in (l : list R) (x : R) : In (fold_left Rmin l x) (x :: l).
Proof.
  revert x. induction l as [|y l IH]; intros x; [now left|].
  simpl fold_left. destruct (IH (Rmin x y)) as [E|Hin].
  - unfold Rmin in E at 1. destruct (Rle_dec x y).
    + left. exact E.
    + right; left. exact E.
  - right; right. exact Hin.
Qed.

Lemma min_least (l : list R) (mn : R) : Np.min l = Ok mn -> least mn l.
Proof.
  destruct l as [|x l]; [discriminate|]. simpl. intros [= <-]. split.
  - apply fold_min_in.
  - intros y [<-|Hy]; [apply fold_min_le_init | now apply fold_min_lower].
Qed.

(** C9: [compute_energy] is the sum of the squared amplitudes times [dt];
    on a non-empty wave [compute_statistics] returns a dict with exactly
    the keys mean, std, min, max, peak_to_peak, rms and energy, holding the
    arithmetic mean, the population standard deviation, the least and the
    greatest amplitude, their difference, the square root of the mean of
    the squared amplitudes and [compute_energy(wave)]. *)
Theorem statistics_summary (a : Analyzer) (wave : list R) :
  wave <> [] ->
  compute_energy a wave = total (map (fun x => x ^ 2) wave) * dt a
  /\ exists stats mn mx,
      compute_statistics a wave = Ok stats
      /\ map fst stats
         = ["mean"; "std"; "min"; "max"; "peak_to_peak"; "rms"; "energy"]
      /\ lookup "mean" stats = Some (arithmetic_mean wave)
      /\ lookup "std" stats = Some (population_std wave)
      /\ lookup "min" stats = Some mn /\ least mn wave
      /\ lookup "max" stats = Some mx /\ greatest mx wave
      /\ lookup "peak_to_peak" stats = Some (mx - mn)
      /\ lookup "rms" stats = Some (root_mean_square wave)
      /\ lookup "energy" stats = Some (compute_energy a wave).
Proof.
  intros Hne. split; [unfold compute_energy; now rewrite sum_total|].
  unfold compute_statistics.
  destruct (Np.min wave) as [mn|e] eqn:Hmin;
    [|destruct wave; [contradiction | discriminate]].
  destruct (Np.max wave) as [mx|e] eqn:Hmax;
    [|destruct wave; [contradiction | discriminate]].
  cbn [bind]. eexists; exists mn, mx.
  split; [reflexivity|]. split; [reflexivity|].
  split; [cbn; now rewrite mean_arithmetic|].
  split; [cbn; now rewrite std_population|].
  split; [reflexivity|]. split; [now apply min_least|].
  split; [reflexivity|]. split; [now apply max_greatest|].
  split; [reflexivity|].
  split; [cbn; unfold root_mean_square; now rewrite mean_arithmetic|].
  reflexivity.
Qed.

End Statistics.

(** ** Peak detection and ranking: claims C4 and C10 *)

Section Peaks.

Import WaveformAnalyzer.

Lemma scan_ahead_spec (fuel : nat) (x : list R) (v : R) (i i_max : nat) :
  (i <= Scipy.scan_ahead fuel x v i i_max)%nat
  /\ ((i <= i_max)%nat -> (Scipy.scan_ahead fuel x v i i_max <= i_max)%nat)
  /\ forall k, (i <= k)%nat -> (k < Scipy.scan_ahead fuel x v i i_max)%nat ->
               nth k x 0 = v.
Proof.
  revert i. induction fuel as [|fuel IH]; intros i; simpl.
  - repeat split; intros; lia.
  - destruct (i <? i_max)%nat eqn:Hlt; simpl.
    + apply Nat.ltb_lt in Hlt.
      destruct (Reqb (nth i x 0) v) eqn:Heq.
      * apply Reqb_spec in Heq.
        destruct (IH (S i)) as (H1 & H2 & H3).
        split; [lia|]. split; [intros _; apply H2; lia|].
        intros k Hk1 Hk2. destruct (Nat.eq_dec k i) as [->|Hne]; [exact Heq|].
        apply H3; lia.
      * repeat split; intros; lia.
    + repeat split; intros; lia.
Qed.

(** With fuel for every remaining position the inner loop stops by its own
    condition. *)
Lemma scan_ahead_exit (fuel : nat) (x : list R) (v : R) (i i_max : nat) :
  (i_max - i <= fuel)%nat ->
  let r := Scipy.scan_ahead fuel x v i i_max in
  ((r <? i_max)%nat && Reqb (nth r x 0) v) = false.
Proof.
  revert i. induction fuel as [|fuel IH]; intros i Hf; simpl.
  - replace (i <? i_max)%nat with false by (symmetry; apply Nat.ltb_ge; lia).
    reflexivity.
  - destruct ((i <? i_max)%nat && Reqb (nth i x 0) v) eqn:Hc.
    + apply IH. lia.
    + exact Hc.
Qed.

(** With fuel for every remaining position the outer loop does not depend
    on the fuel: it stops by its own condition. *)
Lemma maxima_loop_fuel (fuel1 fuel2 : nat) (x : list R) (i i_max : nat) :
  (i_max - i <= fuel1)%nat -> (i_max - i <= fuel2)%nat ->
  Scipy.maxima_loop fuel1 x i i_max = Scipy.maxima_loop fuel2 x i i_max.
Proof.
  revert fuel2 i. induction fuel1 as [|fuel1 IH]; intros fuel2 i H1 H2.
  - destruct fuel2 as [|fuel2]; [reflexivity|]. simpl.
    now replace (i <? i_max)%nat with false by (symmetry; apply Nat.ltb_ge; lia).
  - destruct fuel2 as [|fuel2]; simpl.
    + now replace (i <? i_max)%nat with false by (symmetry; apply Nat.ltb_ge; lia).
    + destruct (i <? i_max)%nat eqn:Hlt; [|reflexivity].
      apply Nat.ltb_lt in Hlt.
      pose proof (scan_ahead_spec (length x) x (nth i x 0) (i + 1) i_max)
        as (Hs & _).
      destruct (Rltb (nth (i - 1) x 0) (nth i x 0)); [|apply IH; lia].
      destruct (Rltb _ _); [f_equal|]; apply IH; lia.
Qed.

Lemma maxima_loop_sound (fuel : nat) (x : list R) (i i_max p : nat) :
  (1 <= i)%nat -> (i_max < length x)%nat ->
  In p (Scipy.maxima_loop fuel x i i_max) ->
  plateau_peak x p /\ (i <= p)%nat.
Proof.
  revert i. induction fuel as [|fuel IH]; intros i Hi Hmax Hin; [contradiction|].
  cbn [Scipy.maxima_loop] in Hin.
  destruct (i <? i_max)%nat eqn:Hlt; [|contradiction].
  apply Nat.ltb_lt in Hlt.
  destruct (Rltb (nth (i - 1) x 0) (nth i x 0)) eqn:Hup.
  - pose proof (scan_ahead_spec (length x) x (nth i x 0) (i + 1) i_max)
      as (Hs1 & Hs2 & Hs3).
    specialize (Hs2 ltac:(lia)).
    set (r := Scipy.scan_ahead (length x) x (nth i x 0) (i + 1) i_max) in *.
    destruct (Rltb (nth r x 0) (nth i x 0)) eqn:Hdown.
    + cbn [In] in Hin. destruct Hin as [<-|Hin].
      * split.
        { exists i, (r - 1)%nat.
          apply Rltb_spec in Hup, Hdown.
          split; [lia|]. split; [lia|]. split; [lia|].
          split; [reflexivity|]. split.
          { intros k Hk1 Hk2. destruct (Nat.eq_dec k i) as [->|Hne]; [reflexivity|].
            apply Hs3; lia. }
          split; [exact Hup|].
          replace (r - 1 + 1)%nat with r by lia. exact Hdown. }
        { apply Nat.div_le_lower_bound; lia. }
      * destruct (IH (r + 1)%nat ltac:(lia) Hmax Hin) as [Hp Hle].
        split; [exact Hp | lia].
    + destruct (IH (i + 1)%nat ltac:(lia) Hmax Hin) as [Hp Hle].
      split; [exact Hp | lia].
  - destruct (IH (i + 1)%nat ltac:(lia) Hmax Hin) as [Hp Hle].
    split; [exact Hp | lia].
Qed.

(** The fuel given by [local_maxima_1d] is enough: more fuel changes
    nothing. *)
Lemma local_maxima_fuel (x : list R) (fuel : nat) :
  (length x <= fuel)%nat ->
  Scipy.maxima_loop fuel x 1 (length x - 1) = Scipy.local_maxima_1d x.
Proof.
  intros Hf. unfold Scipy.local_maxima_1d. apply maxima_loop_fuel; lia.
Qed.

Lemma local_maxima_sound (x : list R) (p : nat) :
  In p (Scipy.local_maxima_1d x) -> plateau_peak x p.
Proof.
  unfold Scipy.local_maxima_1d. intros Hin.
  destruct x as [|x0 x]; [contradiction|].
  eapply maxima_loop_sound; [| |exact Hin]; [lia | simpl; lia].
Qed.

Lemma find_peaks_sound (x : list R) (height : R) (p : nat) :
  In p (Scipy.find_peaks x height) ->
  plateau_peak x p /\ height <= nth p x 0.
Proof.
  unfold Scipy.find_peaks. intros Hin. apply filter_In in Hin.
  destruct Hin as [Hin Hh]. split; [now apply local_maxima_sound|].
  now apply Rleb_spec.
Qed.

Lemma plateau_peak_local_maximum (x : list R) (p : nat) :
  plateau_peak x p -> local_maximum x p.
Proof.
  intros (l & r & Hl & Hlr & Hr & -> & Heq & Hbefore & Hafter).
  assert (l <= (l + r) / 2)%nat as Hlo by (apply Nat.div_le_lower_bound; lia).
  assert ((l + r) / 2 <= r)%nat as Hhi by (apply Nat.Div0.div_le_upper_bound; lia).
  set (p := ((l + r) / 2)%nat) in *.
  assert (nth p x 0 = nth l x 0) as Ep by (apply Heq; lia).
  split; [lia|]. split; [lia|]. rewrite Ep. split.
  - destruct (Nat.eq_dec p l) as [E|Hne].
    + rewrite E. lra.
    + rewrite (Heq (p - 1)%nat) by lia. lra.
  - destruct (Nat.eq_dec p r) as [E|Hne].
    + rewrite E. lra.
    + rewrite (Heq (p + 1)%nat) by lia. lra.
Qed.

Lemma insert_idx_perm (a : list R) (i : nat) (s : list nat) :
  Permutation (Np.insert_idx a i s) (i :: s).
Proof.
  induction s as [|j s IH]; simpl; [reflexivity|].
  destruct (Rltb (nth i a 0) (nth j a 0)); [reflexivity|].
  rewrite IH. apply perm_swap.
Qed.

Lemma fold_insert_perm (a : list R) (l acc : list nat) :
  Permutation (fold_left (fun acc i => Np.insert_idx a i acc) l acc) (l ++ acc).
Proof.
  revert acc. induction l as [|i l IH]; intros acc; simpl; [reflexivity|].
  rewrite IH, insert_idx_perm. symmetry. apply Permutation_middle.
Qed.

Lemma argsort_perm (a : list R) :
  Permutation (Np.argsort a) (seq 0 (length a)).
Proof. unfold Np.argsort. rewrite fold_insert_perm. now rewrite app_nil_r. Qed.

Lemma argsort_length (a : list R) : length (Np.argsort a) = length a.
Proof. now rewrite (Permutation_length (argsort_perm a)), length_seq. Qed.

Lemma argsort_in_range (a : list R) (s : nat) :
  In s (Np.argsort a) -> (s < length a)%nat.
Proof.
  intros H. apply (Permutation_in _ (argsort_perm a)) in H.
  apply in_seq in H. lia.
Qed.

(** The values at the positions [s], in the order of [s]. *)
Lemma insert_idx_sorted (a : list R) (i : nat) (s : list nat) :
  Sorted Rle (Py.take 0 a s) -> Sorted Rle (Py.take 0 a (Np.insert_idx a i s)).
Proof.
  unfold Py.take. induction s as [|j s IH]; intros Hs; simpl.
  - repeat constructor.
  - destruct (Rltb (nth i a 0) (nth j a 0)) eqn:Hlt.
    + apply Rltb_spec in Hlt. simpl. constructor; [exact Hs|].
      constructor. lra.
    + simpl in Hs. inversion Hs as [|x l Hs' Hhd]; subst.
      simpl. constructor; [now apply IH|].
      assert (nth j a 0 <= nth i a 0) as Hji.
      { unfold Rltb in Hlt. destruct (Rlt_dec (nth i a 0) (nth j a 0)); [discriminate | lra]. }
      destruct s as [|k s]; simpl; [now constructor|].
      destruct (Rltb (nth i a 0) (nth k a 0)); simpl; constructor; [exact Hji|].
      inversion Hhd; assumption.
Qed.

Lemma fold_insert_sorted (a : list R) (l acc : list nat) :
  Sorted Rle (Py.take 0 a acc) ->
  Sorted Rle (Py.take 0 a (fold_left (fun acc i => Np.insert_idx a i acc) l acc)).
Proof.
  revert acc. induction l as [|i l IH]; intros acc Hs; simpl; [exact Hs|].
  apply IH. now apply insert_idx_sorted.
Qed.

Lemma argsort_sorted (a : list R) : Sorted Rle (Py.take 0 a (Np.argsort a)).
Proof. unfold Np.argsort. apply fold_insert_sorted. constructor. Qed.

Lemma sorted_ascending (l : list R) : Sorted Rle l -> ascending l.
Proof.
  intros Hs. apply Sorted_StronglySorted in Hs; [|intros x y z; apply Rle_trans].
  induction Hs as [|x l Hs IH Hall]; intros i j Hij Hj; [simpl in Hj; lia|].
  destruct j as [|j]; [replace i with 0%nat by lia; lra|].
  destruct i as [|i].
  - simpl. rewrite Forall_forall in Hall. apply Hall. apply nth_In. simpl in Hj. lia.
  - simpl. apply IH; [lia | simpl in Hj; lia].
Qed.

Lemma ascending_rev (l : list R) : ascending l -> descending (rev l).
Proof.
  intros Ha i j Hij Hj. rewrite length_rev in Hj.
  rewrite !rev_nth by lia. apply Ha; lia.
Qed.

Lemma descending_firstn (n : nat) (l : list R) :
  descending l -> descending (firstn n l).
Proof.
  intros Hd i j Hij Hj. rewrite length_firstn in Hj.
  rewrite !nth_firstn.
  replace (i <? n)%nat with true by (symmetry; apply Nat.ltb_lt; lia).
  replace (j <? n)%nat with true by (symmetry; apply Nat.ltb_lt; lia).
  apply Hd; lia.
Qed.

Lemma descending_slice_to (n : Z) (l : list R) :
  descending l -> descending (Py.slice_to l n).
Proof. unfold Py.slice_to. destruct (n <? 0)%Z; apply descending_firstn. Qed.

Lemma descending_distinct (l : list R) :
  descending l -> NoDup l -> strictly_descending l.
Proof.
  intros Hd Hnd i j Hij Hj.
  destruct (Rle_lt_or_eq_dec _ _ (Hd i j ltac:(lia) Hj)) as [Hlt|Heq]; [exact Hlt|].
  rewrite (NoDup_nth l 0) in Hnd.
  specialize (Hnd j i Hj ltac:(lia) Heq). lia.
Qed.

Lemma firstn_incl {A : Type} (k : nat) (l : list A) (x : A) :
  In x (firstn k l) -> In x l.
Proof.
  intros H. rewrite <- (firstn_skipn k l). apply in_or_app. now left.
Qed.

Lemma slice_to_incl {A : Type} (l : list A) (n : Z) (x : A) :
  In x (Py.slice_to l n) -> In x l.
Proof. unfold Py.slice_to. destruct (n <? 0)%Z; apply firstn_incl. Qed.

Lemma slice_to_length_le {A : Type} (l : list A) (n : Z) :
  (0 <= n)%Z -> (Z.of_nat (length (Py.slice_to l n)) <= n)%Z.
Proof.
  intros Hn. rewrite slice_to_nonneg by assumption.
  rewrite length_firstn. lia.
Qed.

(** What [ranked_peaks] returns: detected peaks only, and at most
    [n_peaks] of them, the magnitudes in descending order. *)
Lemma ranked_peaks_spec (sr : list R) (n_peaks : Z) (height : R) :
  let idx := ranked_peaks sr n_peaks height in
  Forall (fun p => In p (Scipy.find_peaks sr height)) idx
  /\ descending (Py.take 0 sr idx)
  /\ ((0 <= n_peaks)%Z -> (Z.of_nat (length idx) <= n_peaks)%Z).
Proof.
  unfold ranked_peaks. cbv zeta.
  set (peaks := Scipy.find_peaks sr height).
  set (vals := Py.take 0 sr peaks).
  set (si := Py.slice_to (rev (Np.argsort vals)) n_peaks).
  assert (forall s, In s si -> (s < length peaks)%nat) as Hrange.
  { intros s Hs. subst si. apply slice_to_incl in Hs.
    apply in_rev, argsort_in_range in Hs.
    subst vals. unfold Py.take in Hs. now rewrite length_map in Hs. }
  split; [|split].
  - unfold Py.take. apply Forall_map, Forall_forall. intros s Hs.
    apply nth_In. now apply Hrange.
  - assert (Py.take 0 sr (Py.take 0%nat peaks si)
            = Py.slice_to (rev (Py.take 0 vals (Np.argsort vals))) n_peaks) as ->.
    { transitivity (Py.take 0 vals si).
      - unfold Py.take. rewrite map_map. apply map_ext_in. intros s Hs.
        symmetry. apply (nth_map_in (fun i => nth i sr 0)). now apply Hrange.
      - subst si. unfold Py.take. now rewrite <- map_rev, slice_to_map. }
    apply descending_slice_to, ascending_rev, sorted_ascending, argsort_sorted.
  - intros Hn. unfold Py.take. rewrite length_map.
    subst si. now apply slice_to_length_le.
Qed.

Lemma ranked_peaks_empty (n_peaks : Z) (height : R) :
  ranked_peaks [] n_peaks height = [].
Proof.
  unfold ranked_peaks. cbn. unfold Py.slice_to.
  destruct (n_peaks <? 0)%Z; now rewrite firstn_nil.
Qed.

Lemma spectrum_range_length (a : Analyzer) (m : list R) (min_freq : R)
  (max_freq : option R) :
  (length (spectrum_range a m min_freq max_freq)
   <= length (freq_range a min_freq max_freq))%nat.
Proof. unfold spectrum_range. rewrite slice_length. lia. Qed.

(** [find_multiple_peaks] once the spectrum is known: the frequencies and
    magnitudes at the ranked peak positions. *)
Lemma find_multiple_peaks_ranked (a : Analyzer) (wave m : list R)
  (n_peaks : Z) (min_freq : R) (max_freq : option R) (height : R) :
  compute_spectrum a wave true = Ok m ->
  find_multiple_peaks a wave n_peaks min_freq max_freq height
  = Ok (Py.take 0 (freq_range a min_freq max_freq)
          (ranked_peaks (spectrum_range a m min_freq max_freq) n_peaks height),
        Py.take 0 (spectrum_range a m min_freq max_freq)
          (ranked_peaks (spectrum_range a m min_freq max_freq) n_peaks height)).
Proof.
  intros Hm. unfold find_multiple_peaks. rewrite Hm. cbn [bind].
  destruct (length (freq_range a min_freq max_freq) =? 0)%nat eqn:E;
    [|reflexivity].
  apply Nat.eqb_eq in E.
  pose proof (spectrum_range_length a m min_freq max_freq) as Hle.
  destruct (spectrum_range a m min_freq max_freq); [|simpl in Hle; lia].
  now rewrite ranked_peaks_empty.
Qed.

(** What holds of claim C4 (the pairing of the frequencies with the
    magnitudes is the part that fails, see [multiple_peaks_one_bin_high]):
    for a wave of [n_samples] samples and a count [n_peaks >= 0],
    [find_multiple_peaks] returns two sequences of the same length, at
    most [n_peaks]: the frequencies and the normalized magnitudes at
    positions of the restricted sub-range that the peak detection reports
    as local maxima with magnitude at least [height]; the magnitudes are
    in descending order, strictly when they are distinct; both sequences
    are empty when the sub-range is empty or no peak reaches [height]. *)
Lemma multiple_peaks_ranked (arg : option ConfigArg) (a : Analyzer)
  (wave : list R) (n_peaks : Z) (min_freq : R) (max_freq : option R)
  (height : R) :
  valid_config (effective_config arg) ->
  __init__ arg = Ok a ->
  Z.of_nat (length wave) = n_samples (config a) ->
  (0 <= n_peaks)%Z ->
  exists m fr sr fs ms idx,
    compute_spectrum a wave true = Ok m
    /\ fr = freq_range a min_freq max_freq
    /\ sr = spectrum_range a m min_freq max_freq
    /\ find_multiple_peaks a wave n_peaks min_freq max_freq height = Ok (fs, ms)
    /\ length fs = length ms
    /\ (Z.of_nat (length ms) <= n_peaks)%Z
    /\ fs = Py.take 0 fr idx
    /\ ms = Py.take 0 sr idx
    /\ Forall (fun p => (p < length fr)%nat /\ (p < length sr)%nat
                        /\ plateau_peak sr p /\ local_maximum sr p
                        /\ height <= nth p sr 0) idx
    /\ descending ms
    /\ (NoDup ms -> strictly_descending ms)
    /\ (fr = [] \/ (forall p, plateau_peak sr p -> nth p sr 0 < height) ->
        fs = [] /\ ms = []).
Proof.
  intros Hv Hinit Hlen Hn.
  destruct (normalized_bounded arg wave Hinit Hlen) as (m & Hm & _).
  set (fr := freq_range a min_freq max_freq).
  set (sr := spectrum_range a m min_freq max_freq).
  set (idx := ranked_peaks sr n_peaks height).
  destruct (ranked_peaks_spec sr n_peaks height) as (Hin & Hdesc & Hcount).
  fold idx in Hin, Hdesc, Hcount.
  assert (Forall (fun p => (p < length fr)%nat /\ (p < length sr)%nat
                            /\ plateau_peak sr p /\ local_maximum sr p
                            /\ height <= nth p sr 0) idx) as Hpeaks.
  { rewrite Forall_forall in *. intros p Hp.
    destruct (find_peaks_sound _ _ _ (Hin p Hp)) as [Hpp Hh].
    pose proof (plateau_peak_local_maximum Hpp) as Hlm.
    pose proof (spectrum_range_length a m min_freq max_freq) as Hle.
    fold sr fr in Hle. pose proof Hlm as (H0 & H1 & _).
    split; [lia|]. split; [lia|]. split; [exact Hpp|]. split; [exact Hlm|].
    exact Hh. }
  exists m, fr, sr, (Py.take 0 fr idx), (Py.take 0 sr idx), idx.
  split; [exact Hm|]. split; [reflexivity|]. split; [reflexivity|].
  split; [now apply find_multiple_peaks_ranked|].
  split; [unfold Py.take; now rewrite !length_map|].
  split; [unfold Py.take; rewrite length_map; now apply Hcount|].
  split; [reflexivity|]. split; [reflexivity|].
  split; [exact Hpeaks|]. split; [exact Hdesc|].
  split; [now apply descending_distinct|].
  intros Hnone.
  assert (idx = []) as ->; [|now split].
  destruct idx as [|p idx']; [reflexivity|].
  apply Forall_inv in Hpeaks.
  destruct Hpeaks as (Hpf & Hps & Hpp & _ & Hh).
  destruct Hnone as [Hempty | Hnone].
  - rewrite Hempty in Hpf. simpl in Hpf. lia.
  - specialize (Hnone p Hpp). lra.
Qed.

(** C10, amended: the first and the last position of the restricted
    sub-range are never reported; every reported position is the middle,
    rounded down, of a run of equal magnitudes that is strictly above the
    magnitude just before and just after the run, so its magnitude is not
    below either neighbour (and strictly above both when the run has one
    element). *)
Theorem reported_peaks_are_plateau_midpoints (arg : option ConfigArg)
  (a : Analyzer) (wave : list R) (n_peaks : Z) (min_freq : R)
  (max_freq : option R) (height : R) :
  valid_config (effective_config arg) ->
  __init__ arg = Ok a ->
  Z.of_nat (length wave) = n_samples (config a) ->
  exists m sr idx,
    compute_spectrum a wave true = Ok m
    /\ sr = spectrum_range a m min_freq max_freq
    /\ idx = ranked_peaks sr n_peaks height
    /\ find_multiple_peaks a wave n_peaks min_freq max_freq height
       = Ok (Py.take 0 (freq_range a min_freq max_freq) idx, Py.take 0 sr idx)
    /\ Forall (fun p => (0 < p)%nat /\ (p + 1 < length sr)%nat
                        /\ plateau_peak sr p
                        /\ nth (p - 1) sr 0 <= nth p sr 0
                        /\ nth (p + 1) sr 0 <= nth p sr 0) idx.
Proof.
  intros Hv Hinit Hlen.
  destruct (normalized_bounded arg wave Hinit Hlen) as (m & Hm & _).
  exists m. eexists. eexists.
  split; [exact Hm|]. split; [reflexivity|]. split; [reflexivity|].
  split; [now apply find_multiple_peaks_ranked|].
  destruct (ranked_peaks_spec (spectrum_range a m min_freq max_freq)
              n_peaks height) as (Hin & _).
  rewrite Forall_forall in *. intros p Hp.
  destruct (find_peaks_sound _ _ _ (Hin p Hp)) as [Hpp _].
  destruct (plateau_peak_local_maximum Hpp) as (H0 & H1 & H2 & H3).
  repeat split; assumption.
Qed.

End Peaks.

(** ** The dominant frequency: claim C1 *)

Section Dominant.

Import WaveformAnalyzer.

Lemma argmax_from_spec (l : list R) (best_i i : nat) (best : R) :
  (Np.argmax_from best_i best i l = best_i
   /\ forall k, (k < length l)%nat -> nth k l 0 <= best)
  \/ (exists k, (k < length l)%nat
        /\ Np.argmax_from best_i best i l = (i + k)%nat
        /\ best < nth k l 0
        /\ (forall k', (k' < length l)%nat -> nth k' l 0 <= nth k l 0)
        /\ (forall k', (k' < k)%nat -> nth k' l 0 < nth k l 0)).
Proof.
  revert best_i i best. induction l as [|x l IH]; intros best_i i best.
  - left. split; [reflexivity|]. intros k Hk. simpl in Hk. lia.
  - cbn [Np.argmax_from]. destruct (Rltb best x) eqn:Hlt.
    + apply Rltb_spec in Hlt. right.
      destruct (IH i (S i) x) as [[Hp Hall] | (k & Hk & Hp & Hbig & Hmax & Hfirst)].
      * exists 0%nat. split; [simpl; lia|]. split; [rewrite Hp; lia|].
        split; [exact Hlt|]. split.
        { intros [|k'] Hk'; simpl; [lra|]. apply Hall. simpl in Hk'. lia. }
        { intros k' Hk'. lia. }
      * exists (S k). split; [simpl; lia|]. split; [rewrite Hp; lia|].
        simpl. split; [lra|]. split.
        { intros [|k'] Hk'; [lra|]. apply Hmax. simpl in Hk'. lia. }
        { intros [|k'] Hk'; [exact Hbig|]. apply Hfirst. lia. }
    + assert (x <= best) as Hle.
      { unfold Rltb in Hlt. destruct (Rlt_dec best x); [discriminate | lra]. }
      destruct (IH best_i (S i) best) as [[Hp Hall] | (k & Hk & Hp & Hbig & Hmax & Hfirst)].
      * left. split; [exact Hp|].
        intros [|k'] Hk'; simpl; [exact Hle|]. apply Hall. simpl in Hk'. lia.
      * right. exists (S k). split; [simpl; lia|]. split; [rewrite Hp; lia|].
        simpl. split; [exact Hbig|]. split.
        { intros [|k'] Hk'; [lra|]. apply Hmax. simpl in Hk'. lia. }
        { intros [|k'] Hk'; [lra|]. apply Hfirst. lia. }
Qed.

(** [np.argmax]: a position of the largest value, the first one. *)
Lemma argmax_spec (l : list R) :
  l <> [] ->
  exists p, Np.argmax l = Ok p
    /\ (p < length l)%nat
    /\ (forall q, (q < length l)%nat -> nth q l 0 <= nth p l 0)
    /\ (forall q, (q < p)%nat -> nth q l 0 < nth p l 0).
Proof.
  destruct l as [|x l]; [contradiction|]. intros _.
  cbn [Np.argmax]. eexists. split; [reflexivity|].
  destruct (argmax_from_spec l 0 1 x) as [[-> Hall] | (k & Hk & -> & Hbig & Hmax & Hfirst)].
  - split; [simpl; lia|]. split.
    + intros [|q] Hq; simpl; [lra|]. apply Hall. simpl in Hq. lia.
    + intros q Hq. lia.
  - split; [simpl; lia|]. cbn [Nat.add nth]. split.
    + intros [|q] Hq; [lra|]. apply Hmax. simpl in Hq. lia.
    + intros [|q] Hq; [exact Hbig|]. apply Hfirst. lia.
Qed.

Lemma nth_tl {A : Type} (l : list A) (k : nat) (d : A) :
  nth k (tl l) d = nth (S k) l d.
Proof. destruct l; [destruct k; reflexivity | reflexivity]. Qed.

Lemma ascending_tail (x : R) (a : list R) : ascending (x :: a) -> ascending a.
Proof.
  intros H i j Hij Hj. apply (H (S i) (S j)); simpl; lia.
Qed.

(** [np.searchsorted] on an ascending array: the position that splits
    the array into the values below [v] and the values not below [v];
    there is one such position, so a binary search finds the same one. *)
Lemma searchsorted_spec (a : list R) (v : R) :
  (Np.searchsorted a v <= length a)%nat
  /\ (forall k, (k < Np.searchsorted a v)%nat -> nth k a 0 < v)
  /\ (ascending a ->
      forall k, (Np.searchsorted a v <= k)%nat -> (k < length a)%nat ->
                v <= nth k a 0).
Proof.
  induction a as [|x a IH]; simpl.
  - repeat split; intros; lia.
  - destruct IH as (H1 & H2 & H3).
    destruct (Rltb x v) eqn:Hlt.
    + apply Rltb_spec in Hlt. split; [lia|]. split.
      * intros [|k] Hk; [exact Hlt|]. apply H2. lia.
      * intros Hasc [|k] Hk Hlen; [lia|].
        apply H3; [now apply ascending_tail in Hasc | lia | lia].
    + assert (v <= x) as Hle.
      { unfold Rltb in Hlt. destruct (Rlt_dec x v); [discriminate | lra]. }
      split; [lia|]. split; [intros k Hk; lia|].
      intros Hasc k _ Hlen.
      specialize (Hasc 0%nat k ltac:(lia) Hlen). simpl in Hasc.
      destruct k; simpl in *; lra.
Qed.

(** The frequencies of the restricted sub-range are those of
    [freq_positive], from the position 1 on, that are at least [min_freq]
    and, when [max_freq] is given, below it. *)
Lemma freq_range_bounds (arg : option ConfigArg) (a : Analyzer)
  (min_freq : R) (max_freq : option R) (q : nat) :
  valid_config (effective_config arg) ->
  __init__ arg = Ok a ->
  (q < length (freq_range a min_freq max_freq))%nat ->
  nth q (freq_range a min_freq max_freq) 0
  = nth (min_idx a min_freq + q) (freq_positive a) 0
  /\ (1 <= min_idx a min_freq + q < length (freq_positive a))%nat
  /\ min_freq <= nth q (freq_range a min_freq max_freq) 0
  /\ (forall m, max_freq = Some m -> nth q (freq_range a min_freq max_freq) 0 < m).
Proof.
  intros Hv Hinit Hq.
  destruct (init_valid arg Hv Hinit)
    as (val & m & Hval & _ & _ & _ & _ & _ & _ & _ & Hfp).
  assert (ascending (freq_positive a)) as Hasc.
  { rewrite Hfp. intros i j Hij Hj. rewrite bins_length in Hj.
    now apply bins_ascending. }
  unfold freq_range in *. rewrite slice_length in Hq.
  rewrite slice_nth by lia.
  destruct (searchsorted_spec (freq_positive a) min_freq) as (_ & _ & Hge).
  split; [reflexivity|].
  assert (1 <= min_idx a min_freq)%nat as Hlo by (unfold min_idx; lia).
  assert (Np.searchsorted (freq_positive a) min_freq <= min_idx a min_freq)%nat
    as Hss by (unfold min_idx; lia).
  split; [lia|]. split.
  - apply Hge; [exact Hasc | lia | lia].
  - intros mf ->. cbn [max_idx] in Hq.
    destruct (searchsorted_spec (freq_positive a) mf) as (_ & Hlt & _).
    apply Hlt. lia.
Qed.

(** What [find_dominant_frequency] returns on a valid grid: the first
    largest magnitude among the raw bins [lo .. lo + len(freq_range) - 1],
    paired with the frequency of the bin one above the bin of that
    magnitude. *)
Lemma dominant_frequency_shape (arg : option ConfigArg) (a : Analyzer)
  (wave : list R) (min_freq : R) (max_freq : option R) :
  valid_config (effective_config arg) ->
  __init__ arg = Ok a ->
  Z.of_nat (length wave) = n_samples (config a) ->
  exists raw lo fr,
    compute_spectrum a wave false = Ok raw
    /\ lo = min_idx a min_freq
    /\ fr = freq_range a min_freq max_freq
    /\ (1 <= lo)%nat
    /\ (fr = [] -> find_dominant_frequency a wave min_freq max_freq = Ok (0, 0))
    /\ (fr <> [] ->
        exists p,
          (p < length fr)%nat
          /\ find_dominant_frequency a wave min_freq max_freq
             = Ok (nth (lo + p + 1) (freq a) 0, nth (lo + p) raw 0)
          /\ (forall q, (q < length fr)%nat ->
                        nth (lo + q) raw 0 <= nth (lo + p) raw 0)
          /\ (forall q, (q < p)%nat -> nth (lo + q) raw 0 < nth (lo + p) raw 0)).
Proof.
  intros Hv Hinit Hlen.
  destruct (raw_spectrum_full arg wave Hinit Hlen) as (raw & Hraw & Hrl & _).
  destruct (grid_tail arg Hv Hinit) as (Htl & Hfl & Hfpl).
  set (lo := min_idx a min_freq).
  set (fr := freq_range a min_freq max_freq).
  set (sr := spectrum_range a raw min_freq max_freq).
  assert (1 <= lo)%nat as Hlo by (subst lo; unfold min_idx; lia).
  assert (length fr = Nat.min (max_idx a max_freq) (length (freq_positive a)) - lo)%nat
    as Hfrl by (subst fr lo; unfold freq_range; apply slice_length).
  exists raw, lo, fr.
  split; [exact Hraw|]. split; [reflexivity|]. split; [reflexivity|].
  split; [exact Hlo|].
  unfold find_dominant_frequency. rewrite Hraw. cbn [bind]. fold fr sr.
  split.
  - intros ->. reflexivity.
  - intros Hne.
    assert (length fr <> 0)%nat as Hnz by (destruct fr; [contradiction | discriminate]).
    replace (length fr =? 0)%nat with false by (symmetry; now apply Nat.eqb_neq).
    assert (length sr = length fr) as Hsrl.
    { subst sr. unfold spectrum_range. fold lo fr. rewrite slice_length. lia. }
    assert (sr <> []) as Hsne by (intros E; rewrite E in Hsrl; simpl in Hsrl; lia).
    destruct (argmax_spec Hsne) as (p & Hp & Hpl & Hmax & Hfirst).
    rewrite Hp. cbn [bind].
    rewrite (index_nth 0 fr (i := p)) by lia.
    rewrite (index_nth 0 sr (i := p)) by lia. cbn [bind].
    assert (forall q, (q < length fr)%nat -> nth q sr 0 = nth (lo + q) raw 0) as Hsr.
    { intros q Hq. subst sr. unfold spectrum_range. fold lo fr.
      apply slice_nth. lia. }
    assert (nth p fr 0 = nth (lo + p + 1) (freq a) 0) as Hfr.
    { subst fr. unfold freq_range. fold lo. rewrite slice_nth by lia.
      rewrite Htl, nth_tl. f_equal. lia. }
    exists p. split; [lia|]. split; [now rewrite Hfr, Hsr by lia|]. split.
    + intros q Hq. rewrite <- !Hsr by lia. apply Hmax. lia.
    + intros q Hq. rewrite <- !Hsr by lia. now apply Hfirst.
Qed.

End Dominant.

(** ** Runs on concrete waves *)

Section Runs.

Import WaveformAnalyzer Inputs.

Lemma quarter_split (p : nat) :
  INR p * (PI / 2) = INR (p mod 4) * (PI / 2) + 2 * INR (p / 4) * PI.
Proof.
  rewrite (Nat.div_mod_eq p 4) at 1.
  rewrite plus_INR, mult_INR. simpl (INR 4). field.
Qed.

Lemma cos_quarter (p : nat) : cos (INR p * (PI / 2)) = cosq p.
Proof.
  rewrite quarter_split, cos_period. unfold cosq.
  pose proof (Nat.mod_upper_bound p 4 ltac:(lia)) as Hb.
  destruct (p mod 4)%nat as [|[|[|[|r]]]]; try lia; simpl INR.
  - rewrite Rmult_0_l. apply cos_0.
  - rewrite Rmult_1_l. apply cos_PI2.
  - replace ((1 + 1) * (PI / 2)) with PI by field. apply cos_PI.
  - replace ((1 + 1 + 1) * (PI / 2)) with (3 * (PI / 2)) by field.
    apply cos_3PI2.
Qed.

Lemma sin_quarter (p : nat) : sin (INR p * (PI / 2)) = sinq p.
Proof.
  rewrite quarter_split, sin_period. unfold sinq.
  pose proof (Nat.mod_upper_bound p 4 ltac:(lia)) as Hb.
  destruct (p mod 4)%nat as [|[|[|[|r]]]]; try lia; simpl INR.
  - rewrite Rmult_0_l. apply sin_0.
  - rewrite Rmult_1_l. apply sin_PI2.
  - replace ((1 + 1) * (PI / 2)) with PI by field. apply sin_PI.
  - replace ((1 + 1 + 1) * (PI / 2)) with (3 * (PI / 2)) by field.
    apply sin_3PI2.
Qed.

Lemma sixteenth_angle (k j q : nat) :
  (j = 4 * q)%nat ->
  2 * PI * INR (k * j) / INR 16 = INR (q * k) * (PI / 2).
Proof.
  intros ->. rewrite !mult_INR. simpl (INR 16). simpl (INR 4). field.
Qed.

Lemma fourth_angle (k j : nat) :
  2 * PI * INR (k * j) / INR 4 = INR (j * k) * (PI / 2).
Proof. rewrite !mult_INR. simpl (INR 4). field. Qed.

(** The transform of a wave of four samples, and of the same samples
    spread over sixteen positions. *)
Lemma dft_bin_four (a b c d : R) (k : nat) :
  Scipy.dft_bin [a; b; c; d] k
  = (a + b * cosq k + c * cosq (2 * k) + d * cosq (3 * k),
     - (b * sinq k + c * sinq (2 * k) + d * sinq (3 * k))).
Proof.
  unfold Scipy.dft_bin. cbn [length Scipy.dft_sum].
  rewrite !fourth_angle, !cos_quarter, !sin_quarter.
  replace (1 * k)%nat with k by lia.
  replace (cosq (0 * k)) with 1 by reflexivity.
  replace (sinq (0 * k)) with 0 by reflexivity.
  f_equal; ring.
Qed.

Lemma dft_bin_sparse16 (a b c d : R) (k : nat) :
  Scipy.dft_bin (sparse16 a b c d) k
  = (a + b * cosq k + c * cosq (2 * k) + d * cosq (3 * k),
     - (b * sinq k + c * sinq (2 * k) + d * sinq (3 * k))).
Proof.
  unfold Scipy.dft_bin, sparse16. cbn [length Scipy.dft_sum].
  rewrite !Rmult_0_l.
  rewrite (@sixteenth_angle k 0 0), (@sixteenth_angle k 4 1),
    (@sixteenth_angle k 8 2), (@sixteenth_angle k 12 3) by reflexivity.
  rewrite !cos_quarter, !sin_quarter.
  replace (1 * k)%nat with k by lia.
  replace (cosq (0 * k)) with 1 by reflexivity.
  replace (sinq (0 * k)) with 0 by reflexivity.
  f_equal; ring.
Qed.

Lemma abs_eval (re im r : R) :
  0 <= r -> re * re + im * im = r * r -> Np.abs (re, im) = r.
Proof.
  intros Hr E. unfold Np.abs. cbn [fst snd]. rewrite E. now apply sqrt_square.
Qed.

Lemma list_eq_pointwise (l1 l2 : list R) : Forall2 eq l1 l2 -> l1 = l2.
Proof. induction 1; congruence. Qed.

(** Replace [cosq] and [sinq] at closed arguments by their values. *)
Ltac quarter_values :=
  repeat match goal with
    | |- context [cosq ?p] =>
        let v := eval cbv [cosq Nat.modulo Nat.divmod Nat.mul Nat.add Nat.sub fst snd]
                 in (cosq p) in
        change (cosq p) with v
    | |- context [sinq ?p] =>
        let v := eval cbv [sinq Nat.modulo Nat.divmod Nat.mul Nat.add Nat.sub fst snd]
                 in (sinq p) in
        change (sinq p) with v
    end.

(** One turn of each loop of the peak detection. *)
Lemma scan_ahead_step (fuel : nat) (x : list R) (v : R) (i_ahead i_max : nat) :
  Scipy.scan_ahead (S fuel) x v i_ahead i_max
  = if (i_ahead <? i_max)%nat && Reqb (nth i_ahead x 0) v
    then Scipy.scan_ahead fuel x v (S i_ahead) i_max
    else i_ahead.
Proof. reflexivity. Qed.

Lemma maxima_loop_step (fuel : nat) (x : list R) (i i_max : nat) :
  Scipy.maxima_loop (S fuel) x i i_max
  = if (i <? i_max)%nat then
      if Rltb (nth (i - 1) x 0) (nth i x 0) then
        let i_ahead := Scipy.scan_ahead (length x) x (nth i x 0) (i + 1) i_max in
        if Rltb (nth i_ahead x 0) (nth i x 0) then
          ((i + (i_ahead - 1)) / 2)%nat
            :: Scipy.maxima_loop fuel x (i_ahead + 1) i_max
        else Scipy.maxima_loop fuel x (i + 1) i_max
      else Scipy.maxima_loop fuel x (i + 1) i_max
    else [].
Proof. reflexivity. Qed.

Lemma maxima_loop_zero (x : list R) (i i_max : nat) :
  Scipy.maxima_loop 0 x i i_max = [].
Proof. reflexivity. Qed.

(** Run the index arithmetic on closed lists, deciding the comparisons. *)
Ltac evaluate :=
  repeat (cbn [bind Np.searchsorted Np.argmax Np.argmax_from Nat.max Py.slice
                 Py.index nth_error firstn skipn length Nat.add Nat.eqb
                 Np.where_ Np.where_from Np.any existsb map negb orb
                 Py.index_last Nat.sub Np.max fold_left nth
                 Nat.ltb Nat.leb andb filter Nat.div Nat.divmod
                 fst snd rev app Np.argsort Np.insert_idx seq Py.take];
          rdecide).

(** Run the peak detection on a closed list, one loop turn at a time. *)
Ltac find_maxima :=
  unfold Scipy.find_peaks, Scipy.local_maxima_1d;
  evaluate;
  repeat (first [ rewrite scan_ahead_step
                | rewrite maxima_loop_step
                | rewrite maxima_loop_zero ];
          evaluate).

(** The grids of the two configurations. *)
Lemma grid_sixteen :
  exists a, __init__ sixteen_samples = Ok a
    /\ n_samples (config a) = 16%Z
    /\ n_freq a = 8%Z
    /\ freq a = [0; 1; 2; 3; 4; 5; 6; 7]
    /\ freq_positive a = [1; 2; 3; 4; 5; 6; 7].
Proof.
  assert (valid_config (effective_config sixteen_samples)) as Hv
      by (split; simpl; [lra | lia]).
  destruct (init_closed_form (effective_config sixteen_samples) (proj2 Hv))
    as (a & Ha & Hc & _).
  exists a. split; [exact Ha|].
  destruct (init_valid sixteen_samples Hv Ha)
    as (val & m & _ & _ & Em & _ & Hnf & Hdt & Eval & Hf & Hfp).
  rewrite Hc in *. simpl in Em, Hnf, Hdt, Eval.
  assert (val = 1) as -> by (rewrite Eval, Hdt; field).
  change (Z.to_nat (16 / 2)) with 8%nat in Em. subst m.
  split; [reflexivity|]. split; [exact Hnf|].
  split; [rewrite Hf | rewrite Hfp]; unfold bins; simpl;
    repeat (f_equal; try lra).
Qed.

Lemma grid_four :
  exists a, __init__ four_samples = Ok a
    /\ n_samples (config a) = 4%Z
    /\ n_freq a = 2%Z
    /\ freq a = [0; 1]
    /\ freq_positive a = [1].
Proof.
  assert (valid_config (effective_config four_samples)) as Hv
      by (split; simpl; [lra | lia]).
  destruct (init_closed_form (effective_config four_samples) (proj2 Hv))
    as (a & Ha & Hc & _).
  exists a. split; [exact Ha|].
  destruct (init_valid four_samples Hv Ha)
    as (val & m & _ & _ & Em & _ & Hnf & Hdt & Eval & Hf & Hfp).
  rewrite Hc in *. simpl in Em, Hnf, Hdt, Eval.
  assert (val = 1) as -> by (rewrite Eval, Hdt; field).
  change (Z.to_nat (4 / 2)) with 2%nat in Em. subst m.
  split; [reflexivity|]. split; [exact Hnf|].
  split; [rewrite Hf | rewrite Hfp]; unfold bins; simpl;
    repeat (f_equal; try lra).
Qed.

(** Raw spectra. *)
Lemma raw_sparse16 (an : Analyzer) (a b c d : R) :
  n_samples (config an) = 16%Z -> n_freq an = 8%Z ->
  compute_spectrum an (sparse16 a b c d) false
  = Ok (map (fun k =>
               Np.abs (a + b * cosq k + c * cosq (2 * k) + d * cosq (3 * k),
                       - (b * sinq k + c * sinq (2 * k) + d * sinq (3 * k)))
               / 16)
            (seq 0 8)).
Proof.
  intros Hn Hnf. rewrite compute_spectrum_raw by discriminate.
  unfold raw_magnitude. rewrite Hn, Hnf, slice_to_map, map_map.
  f_equal.
  change (Py.slice_to (seq 0 (length (sparse16 a b c d))) 8) with (seq 0 8).
  apply map_ext. intros k. now rewrite dft_bin_sparse16.
Qed.

Lemma raw_two_tone (an : Analyzer) :
  n_samples (config an) = 16%Z -> n_freq an = 8%Z ->
  compute_spectrum an two_tone false = Ok [0; 0; 1 / 4; 0; 0; 0; 1 / 4; 0].
Proof.
  intros Hn Hnf. unfold two_tone. rewrite raw_sparse16 by assumption.
  f_equal. cbn [map seq]. quarter_values.
  apply list_eq_pointwise.
  repeat constructor;
    first [ rewrite (@abs_eval _ _ 0) by lra | rewrite (@abs_eval _ _ 4) by lra ];
    lra.
Qed.

Lemma raw_plateau (an : Analyzer) :
  n_samples (config an) = 16%Z -> n_freq an = 8%Z ->
  compute_spectrum an plateau false
  = Ok [3 / 16; 3 / 16; 1 / 16; 3 / 16; 3 / 16; 3 / 16; 1 / 16; 3 / 16].
Proof.
  intros Hn Hnf. unfold plateau. rewrite raw_sparse16 by assumption.
  f_equal. cbn [map seq]. quarter_values.
  apply list_eq_pointwise.
  repeat constructor;
    first [ rewrite (@abs_eval _ _ 3) by lra | rewrite (@abs_eval _ _ 1) by lra ];
    lra.
Qed.

Lemma raw_alternating (an : Analyzer) (n : Z) :
  n_samples (config an) = n -> (n_freq an = 2%Z \/ n_freq an = 8%Z) ->
  compute_spectrum an alternating false
  = Ok (firstn (Z.to_nat (n_freq an)) [0 / IZR n; 0 / IZR n; 4 / IZR n; 0 / IZR n]).
Proof.
  intros Hn Hnf. unfold alternating.
  rewrite compute_spectrum_raw by discriminate.
  unfold raw_magnitude. rewrite Hn, slice_to_map, map_map.
  f_equal. rewrite slice_to_nonneg by (destruct Hnf as [-> | ->]; lia).
  rewrite <- firstn_map. f_equal.
  cbn [length seq map]. rewrite !dft_bin_four. quarter_values.
  apply list_eq_pointwise.
  repeat constructor;
    first [ rewrite (@abs_eval _ _ 0) by lra | rewrite (@abs_eval _ _ 4) by lra ];
    reflexivity.
Qed.

Lemma normalized_from_raw (a : Analyzer) (wave raw : list R) (mx : R) :
  compute_spectrum a wave false = Ok raw ->
  greatest mx raw ->
  compute_spectrum a wave true
  = Ok (if Rltb 0 mx then map (fun x => x / mx) raw else raw).
Proof.
  unfold compute_spectrum. destruct (Scipy.fft wave) as [s|e]; [|discriminate].
  cbn [bind]. intros [= ->] Hg. rewrite (greatest_max Hg). cbn [bind].
  destruct (Rltb 0 mx); reflexivity.
Qed.

Lemma greatest_first (x : R) (l : list R) :
  Forall (fun y => y <= x) l -> greatest x (x :: l).
Proof.
  intros H. split; [now left|]. intros y [<-|Hy]; [lra|].
  rewrite Forall_forall in H. now apply H.
Qed.

Lemma normalized_plateau (an : Analyzer) :
  n_samples (config an) = 16%Z -> n_freq an = 8%Z ->
  compute_spectrum an plateau true = Ok [1; 1; 1 / 3; 1; 1; 1; 1 / 3; 1].
Proof.
  intros Hn Hnf.
  rewrite (@normalized_from_raw an plateau _ (3 / 16) (raw_plateau an Hn Hnf)).
  - rdecide. f_equal. cbn [map]. apply list_eq_pointwise.
    repeat constructor; field.
  - apply greatest_first. repeat constructor; lra.
Qed.

Lemma valid_sixteen : valid_config (effective_config sixteen_samples).
Proof. split; simpl; [lra | lia]. Qed.

Lemma valid_four : valid_config (effective_config four_samples).
Proof. split; simpl; [lra | lia]. Qed.

Lemma normalized_alternating_four (an : Analyzer) :
  n_samples (config an) = 4%Z -> n_freq an = 2%Z ->
  compute_spectrum an alternating true = Ok [0; 0].
Proof.
  intros Hn Hnf.
  pose proof (@raw_alternating an 4%Z Hn (or_introl Hnf)) as Hraw.
  rewrite Hnf in Hraw. change (Z.to_nat 2) with 2%nat in Hraw.
  cbn [firstn] in Hraw.
  rewrite (@normalized_from_raw an alternating _ (0 / 4) Hraw).
  - rdecide. f_equal. apply list_eq_pointwise. repeat constructor; lra.
  - apply greatest_first. repeat constructor; lra.
Qed.

Lemma normalized_alternating_sixteen (an : Analyzer) :
  n_samples (config an) = 16%Z -> n_freq an = 8%Z ->
  compute_spectrum an alternating false = Ok [0 / 16; 0 / 16; 4 / 16; 0 / 16]
  /\ compute_spectrum an alternating true = Ok [0; 0; 1; 0].
Proof.
  intros Hn Hnf.
  pose proof (@raw_alternating an 16%Z Hn (or_intror Hnf)) as Hraw.
  rewrite Hnf in Hraw. change (Z.to_nat 8) with 8%nat in Hraw.
  cbn [firstn] in Hraw. split; [exact Hraw|].
  rewrite (@normalized_from_raw an alternating _ (4 / 16) Hraw).
  - rdecide. f_equal. cbn [map]. apply list_eq_pointwise.
    repeat constructor; field.
  - split; [right; right; left; reflexivity|].
    intros y [<-|[<-|[<-|[<-|[]]]]]; lra.
Qed.

(** C1, where the code departs from it: on the grid whose bins are 0, 1,
    ..., 7 Hz, the wave [two_tone] has the raw spectrum 1/4 at 2 Hz and at
    6 Hz and 0 elsewhere; with the default arguments
    [find_dominant_frequency] returns [(3, 1/4)], the magnitude of the
    2 Hz bin paired with the frequency of the bin above it, where the
    magnitude is 0. *)
Theorem dominant_frequency_one_bin_high :
  exists a,
    __init__ sixteen_samples = Ok a
    /\ Z.of_nat (length two_tone) = n_samples (config a)
    /\ freq a = [0; 1; 2; 3; 4; 5; 6; 7]
    /\ compute_spectrum a two_tone false = Ok [0; 0; 1 / 4; 0; 0; 0; 1 / 4; 0]
    /\ find_dominant_frequency a two_tone 1 None = Ok (3, 1 / 4).
Proof.
  destruct grid_sixteen as (a & Ha & Hn & Hnf & Hf & Hfp).
  exists a. split; [exact Ha|]. split; [rewrite Hn; reflexivity|].
  split; [exact Hf|]. split; [now apply raw_two_tone|].
  unfold find_dominant_frequency. rewrite raw_two_tone by assumption.
  unfold spectrum_range, freq_range, min_idx, max_idx. rewrite Hfp.
  evaluate. reflexivity.
Qed.

(** C2 as stated fails: the wave 1, -1, 1, -1 on a grid of four samples
    is not zero, yet its normalized spectrum is [0, 0], whose largest
    value is 0 and not 1. *)
Lemma alternating_wave_has_zero_spectrum :
  exists a,
    __init__ four_samples = Ok a
    /\ Z.of_nat (length alternating) = n_samples (config a)
    /\ nonzero_wave alternating
    /\ compute_spectrum a alternating true = Ok [0; 0]
    /\ Np.max [0; 0] = Ok 0
    /\ Ok 0 <> Ok 1.
Proof.
  destruct grid_four as (a & Ha & Hn & Hnf & _).
  exists a. split; [exact Ha|]. split; [rewrite Hn; reflexivity|].
  split; [exists 1; split; [now left | lra]|].
  split; [now apply normalized_alternating_four|].
  split; [apply greatest_max, greatest_first; repeat constructor; lra|].
  intros [= E]. lra.
Qed.

(** C5 as stated fails: a wave of four samples on a grid of sixteen is
    not rejected; its four transform magnitudes are returned. *)
Lemma short_wave_is_accepted :
  exists a,
    __init__ sixteen_samples = Ok a
    /\ Z.of_nat (length alternating) <> n_samples (config a)
    /\ compute_spectrum a alternating true = Ok [0; 0; 1; 0]
    /\ ~ (exists e, compute_spectrum a alternating true = Raise e).
Proof.
  destruct grid_sixteen as (a & Ha & Hn & Hnf & _).
  destruct (normalized_alternating_sixteen a Hn Hnf) as [_ Hm].
  exists a. split; [exact Ha|]. split; [rewrite Hn; simpl; lia|].
  split; [exact Hm|]. intros [e He]. rewrite Hm in He. discriminate.
Qed.

Lemma ranges_sixteen (a : Analyzer) (m0 m1 m2 m3 m4 m5 m6 m7 : R) :
  freq_positive a = [1; 2; 3; 4; 5; 6; 7] ->
  freq_range a 1 None = [2; 3; 4; 5; 6; 7]
  /\ spectrum_range a [m0; m1; m2; m3; m4; m5; m6; m7] 1 None
     = [m1; m2; m3; m4; m5; m6].
Proof.
  intros Hfp.
  unfold spectrum_range, freq_range, min_idx, max_idx. rewrite Hfp.
  evaluate. split; reflexivity.
Qed.

(** C10 as stated fails: in the normalized spectrum of [plateau] the
    sub-range is [1, 1/3, 1, 1, 1, 1/3]; the position 3 is reported (the
    middle of the run of ones at 2..4) although its value equals that of
    both neighbours. *)
Lemma plateau_middle_is_reported :
  exists a m sr,
    __init__ sixteen_samples = Ok a
    /\ Z.of_nat (length plateau) = n_samples (config a)
    /\ compute_spectrum a plateau true = Ok m
    /\ sr = spectrum_range a m 1 None
    /\ sr = [1; 1 / 3; 1; 1; 1; 1 / 3]
    /\ ranked_peaks sr 3 (1 / 10) = [3%nat]
    /\ find_multiple_peaks a plateau 3 1 None (1 / 10) = Ok ([5], [1])
    /\ ~ strict_local_maximum sr 3.
Proof.
  destruct grid_sixteen as (a & Ha & Hn & Hnf & Hf & Hfp).
  pose proof (normalized_plateau a Hn Hnf) as Hm.
  destruct (@ranges_sixteen a 1 1 (1 / 3) 1 1 1 (1 / 3) 1 Hfp) as [Hfr Hsr].
  assert (ranked_peaks [1; 1 / 3; 1; 1; 1; 1 / 3] 3 (1 / 10) = [3%nat]) as Hrp.
  { unfold ranked_peaks. rewrite slice_to_nonneg by lia.
    change (Z.to_nat 3) with 3%nat. find_maxima. reflexivity. }
  exists a. eexists. eexists. split; [exact Ha|].
  split; [rewrite Hn; reflexivity|]. split; [exact Hm|].
  split; [reflexivity|]. rewrite Hsr. split; [reflexivity|].
  split; [exact Hrp|]. split.
  - rewrite (@find_multiple_peaks_ranked a plateau _ 3 1 None (1 / 10) Hm).
    rewrite Hsr, Hfr, Hrp. reflexivity.
  - intros (_ & _ & Hlt & _). cbn [nth Nat.sub Nat.add] in Hlt. lra.
Qed.

Lemma normalized_two_tone (an : Analyzer) :
  n_samples (config an) = 16%Z -> n_freq an = 8%Z ->
  compute_spectrum an two_tone true = Ok [0; 0; 1; 0; 0; 0; 1; 0].
Proof.
  intros Hn Hnf.
  rewrite (@normalized_from_raw an two_tone _ (1 / 4) (raw_two_tone an Hn Hnf)).
  - rdecide. f_equal. cbn [map]. apply list_eq_pointwise.
    repeat constructor; field.
  - split; [right; right; left; reflexivity|].
    intros y [<-|[<-|[<-|[<-|[<-|[<-|[<-|[<-|[]]]]]]]]]; lra.
Qed.

(** C4, where the code departs from it: on the grid whose bins are 0, 1,
    ..., 7 Hz the normalized spectrum of [two_tone] is 1 at 2 Hz and at
    6 Hz and 0 elsewhere.  With the default arguments
    [find_multiple_peaks] examines the magnitudes of the bins 1 to 6 and
    pairs them with the frequencies 2 to 7 Hz: it returns [([3], [1])],
    the magnitude of the 2 Hz bin under the frequency 3 Hz, where the
    spectrum is 0; the returned sequences are not parallel, and the peak
    at 6 Hz, the last magnitude examined, is not reported at all. *)
Theorem multiple_peaks_one_bin_high :
  exists a m sr,
    __init__ sixteen_samples = Ok a
    /\ Z.of_nat (length two_tone) = n_samples (config a)
    /\ freq a = [0; 1; 2; 3; 4; 5; 6; 7]
    /\ compute_spectrum a two_tone true = Ok m
    /\ m = [0; 0; 1; 0; 0; 0; 1; 0]
    /\ freq_range a 1 None = [2; 3; 4; 5; 6; 7]
    /\ sr = spectrum_range a m 1 None
    /\ sr = [0; 1; 0; 0; 0; 1]
    /\ find_multiple_peaks a two_tone 3 1 None (1 / 10) = Ok ([3], [1])
    /\ nth 3 m 0 = 0
    /\ nth 2 m 0 = 1.
Proof.
  destruct grid_sixteen as (a & Ha & Hn & Hnf & Hf & Hfp).
  pose proof (normalized_two_tone a Hn Hnf) as Hm.
  destruct (@ranges_sixteen a 0 0 1 0 0 0 1 0 Hfp) as [Hfr Hsr].
  assert (ranked_peaks [0; 1; 0; 0; 0; 1] 3 (1 / 10) = [1%nat]) as Hrp.
  { unfold ranked_peaks. rewrite slice_to_nonneg by lia.
    change (Z.to_nat 3) with 3%nat. find_maxima. reflexivity. }
  exists a. eexists. eexists. split; [exact Ha|].
  split; [rewrite Hn; reflexivity|]. split; [exact Hf|].
  split; [exact Hm|]. split; [reflexivity|]. split; [exact Hfr|].
  split; [reflexivity|]. split; [exact Hsr|]. split.
  - rewrite (@find_multiple_peaks_ranked a two_tone _ 3 1 None (1 / 10) Hm).
    rewrite Hsr, Hfr, Hrp. reflexivity.
  - split; reflexivity.
Qed.

(** Instances of the theorems above on the concrete grids and waves. *)

Lemma raw_spectrum_homogeneous_witness :
  exists a,
    __init__ sixteen_samples = Ok a
    /\ Z.of_nat (length two_tone) = n_samples (config a)
    /\ 0 < 2
    /\ exists raw,
         compute_spectrum a two_tone false = Ok raw
         /\ compute_spectrum a (scale 2 two_tone) false = Ok (scale 2 raw).
Proof.
  destruct grid_sixteen as (a & Ha & Hn & _).
  assert (Z.of_nat (length two_tone) = n_samples (config a)) as Hlen
      by (rewrite Hn; reflexivity).
  assert (0 < 2) as Hc by lra.
  exists a. split; [exact Ha|]. split; [exact Hlen|]. split; [exact Hc|].
  exact (@raw_spectrum_homogeneous sixteen_samples a two_tone 2 Ha Hlen Hc).
Defined.

Lemma normalized_spectrum_range_witness :
  exists a,
    __init__ sixteen_samples = Ok a
    /\ Z.of_nat (length two_tone) = n_samples (config a)
    /\ exists raw mx m,
         compute_spectrum a two_tone false = Ok raw
         /\ Np.max raw = Ok mx
         /\ compute_spectrum a two_tone true = Ok m
         /\ length m = Z.to_nat (n_samples (config a) / 2)
         /\ Forall (fun x => 0 <= x <= 1) m
         /\ 0 <= mx
         /\ (0 < mx -> m = map (fun x => x / mx) raw /\ Np.max m = Ok 1)
         /\ (mx = 0 -> m = raw /\ Forall (fun x => x = 0) m).
Proof.
  destruct grid_sixteen as (a & Ha & Hn & _).
  assert (Z.of_nat (length two_tone) = n_samples (config a)) as Hlen
      by (rewrite Hn; reflexivity).
  exists a. split; [exact Ha|]. split; [exact Hlen|].
  exact (@normalized_spectrum_range sixteen_samples a two_tone Ha Hlen).
Defined.

Lemma bandwidth_span_witness :
  valid_config (effective_config sixteen_samples)
  /\ exists a,
       __init__ sixteen_samples = Ok a
       /\ Z.of_nat (length two_tone) = n_samples (config a)
       /\ exists m examined r,
            compute_spectrum a two_tone true = Ok m
            /\ examined = Py.slice m 1 (length (freq_positive a) + 1)
            /\ length examined = length (freq_positive a)
            /\ compute_bandwidth a two_tone (4 / 5) = Ok r
            /\ (r = (0, 0, 0) <-> Forall (fun x => x < 4 / 5) examined)
            /\ (4 / 5 = 11 / 10 -> r = (0, 0, 0))
            /\ (Exists (fun x => 4 / 5 <= x) examined ->
                exists i j,
                  first_reaching (4 / 5) examined i
                  /\ last_reaching (4 / 5) examined j
                  /\ r = (nth i (freq_positive a) 0, nth j (freq_positive a) 0,
                          nth j (freq_positive a) 0 - nth i (freq_positive a) 0)
                  /\ nth i (freq_positive a) 0 <= nth j (freq_positive a) 0).
Proof.
  split; [exact valid_sixteen|].
  destruct grid_sixteen as (a & Ha & Hn & _).
  assert (Z.of_nat (length two_tone) = n_samples (config a)) as Hlen
      by (rewrite Hn; reflexivity).
  exists a. split; [exact Ha|]. split; [exact Hlen|].
  exact (@bandwidth_span sixteen_samples a two_tone (4 / 5) valid_sixteen Ha Hlen).
Defined.

Lemma statistics_summary_witness :
  alternating <> []
  /\ exists a,
       compute_energy a alternating
       = total (map (fun x => x ^ 2) alternating) * dt a
       /\ exists stats mn mx,
            compute_statistics a alternating = Ok stats
            /\ map fst stats
               = ["mean"; "std"; "min"; "max"; "peak_to_peak"; "rms"; "energy"]%string
            /\ lookup "mean" stats = Some (arithmetic_mean alternating)
            /\ lookup "std" stats = Some (population_std alternating)
            /\ lookup "min" stats = Some mn /\ least mn alternating
            /\ lookup "max" stats = Some mx /\ greatest mx alternating
            /\ lookup "peak_to_peak" stats = Some (mx - mn)
            /\ lookup "rms" stats = Some (root_mean_square alternating)
            /\ lookup "energy" stats = Some (compute_energy a alternating).
Proof.
  assert (alternating <> []) as Hne by discriminate.
  split; [exact Hne|].
  destruct grid_four as (a & _).
  exists a. exact (@statistics_summary a alternating Hne).
Defined.

Lemma reported_peaks_are_plateau_midpoints_witness :
  valid_config (effective_config sixteen_samples)
  /\ exists a,
       __init__ sixteen_samples = Ok a
       /\ Z.of_nat (length plateau) = n_samples (config a)
       /\ exists m sr idx,
            compute_spectrum a plateau true = Ok m
            /\ sr = spectrum_range a m 1 None
            /\ idx = ranked_peaks sr 3 (1 / 10)
            /\ find_multiple_peaks a plateau 3 1 None (1 / 10)
               = Ok (Py.take 0 (freq_range a 1 None) idx, Py.take 0 sr idx)
            /\ Forall (fun p => (0 < p)%nat /\ (p + 1 < length sr)%nat
                                /\ plateau_peak sr p
                                /\ nth (p - 1) sr 0 <= nth p sr 0
                                /\ nth (p + 1) sr 0 <= nth p sr 0) idx.
Proof.
  split; [exact valid_sixteen|].
  destruct grid_sixteen as (a & Ha & Hn & _).
  assert (Z.of_nat (length plateau) = n_samples (config a)) as Hlen
      by (rewrite Hn; reflexivity).
  exists a. split; [exact Ha|]. split; [exact Hlen|].
  exact (@reported_peaks_are_plateau_midpoints sixteen_samples a plateau 3 1
           None (1 / 10) valid_sixteen Ha Hlen).
Defined.

End Runs.

(** * Further properties

    Properties of the waveforms, of the analyzer beyond the claims above,
    and of the two together; claim C5 is settled here, with the methods
    built on [compute_spectrum]. *)

(** ** The waveforms of [WaveformGenerator] *)

Section Shapes.

Import WaveformGenerator.

Lemma assign_map (t : list R) (g : R -> R) (mask : R -> bool) (f : R -> R) :
  assign t (map g t) mask f = map (fun x => if mask x then f x else g x) t.
Proof. induction t as [|x t IH]; simpl; [reflexivity|]. now rewrite IH. Qed.

Lemma assign_zeros (t : list R) (mask : R -> bool) (f : R -> R) :
  assign t (zeros_like t) mask f = map (fun x => if mask x then f x else 0) t.
Proof. unfold zeros_like. apply assign_map. Qed.

Lemma samplewise_map (P : R -> R -> Prop) (g : R -> R) (t : list R) :
  (forall x, P x (g x)) -> samplewise P t (map g t).
Proof.
  intros H. split; [apply length_map|].
  intros i Hi. rewrite (nth_map_in g t 0) by assumption. apply H.
Qed.

Lemma closed_spec (lo hi x : R) : closed lo hi x = true <-> lo <= x <= hi.
Proof.
  unfold closed. rewrite andb_true_iff, !Rleb_spec. tauto.
Qed.

Lemma half_open_spec (lo hi x : R) : half_open lo hi x = true <-> lo <= x < hi.
Proof.
  unfold half_open. rewrite andb_true_iff, Rleb_spec, Rltb_spec. tauto.
Qed.

Lemma left_open_spec (lo hi x : R) : left_open lo hi x = true <-> lo < x <= hi.
Proof.
  unfold left_open. rewrite andb_true_iff, Rleb_spec, Rltb_spec. tauto.
Qed.

Lemma closed_false (lo hi x : R) : closed lo hi x = false -> x < lo \/ hi < x.
Proof.
  unfold closed. rewrite andb_false_iff. unfold Rleb.
  destruct (Rle_dec lo x), (Rle_dec x hi); intros [H|H];
    try discriminate; lra.
Qed.

Lemma half_open_false (lo hi x : R) :
  half_open lo hi x = false -> x < lo \/ hi <= x.
Proof.
  unfold half_open. rewrite andb_false_iff. unfold Rleb, Rltb.
  destruct (Rle_dec lo x), (Rlt_dec x hi); intros [H|H];
    try discriminate; lra.
Qed.

Lemma left_open_false (lo hi x : R) :
  left_open lo hi x = false -> x <= lo \/ hi < x.
Proof.
  unfold left_open. rewrite andb_false_iff. unfold Rleb, Rltb.
  destruct (Rlt_dec lo x), (Rle_dec x hi); intros [H|H];
    try discriminate; lra.
Qed.

(** Split on the masks of the goal, keeping the bounds as hypotheses. *)
Ltac masks :=
  repeat match goal with
    | |- context [closed ?lo ?hi ?x] =>
        let H := fresh "Hm" in
        destruct (closed lo hi x) eqn:H;
        [ apply closed_spec in H | apply closed_false in H; destruct H ]
    | |- context [half_open ?lo ?hi ?x] =>
        let H := fresh "Hm" in
        destruct (half_open lo hi x) eqn:H;
        [ apply half_open_spec in H | apply half_open_false in H; destruct H ]
    | |- context [left_open ?lo ?hi ?x] =>
        let H := fresh "Hm" in
        destruct (left_open lo hi x) eqn:H;
        [ apply left_open_spec in H | apply left_open_false in H; destruct H ]
    end.

Lemma half_sine_pointwise (g : Generator) (t : list R) (width : R) :
  half_sine_wave t width
  = map (fun x => if closed 0 width x then sin (PI * x / width) else 0) t.
Proof. unfold half_sine_wave. apply assign_zeros. Qed.

Lemma square_pointwise (t : list R) (width : R) :
  square_wave t width = map (fun x => if closed 0 width x then 1 else 0) t.
Proof. unfold square_wave. apply assign_zeros. Qed.

Lemma triangle_pointwise (t : list R) (width : R) :
  triangle_wave t width
  = map (fun x => if left_open (width / 2) width x then 2 - 2 * x / width
                  else if closed 0 (width / 2) x then 2 * x / width else 0) t.
Proof.
  unfold triangle_wave. cbv zeta. rewrite assign_zeros. apply assign_map.
Qed.

Ltac ratio x w r :=
  replace (2 * x / w) with (2 * (x / w)) by (unfold Rdiv; ring);
  set (r := x / w);
  assert (x = r * w) by (unfold r; field; lra);
  clearbody r.

(** One sample of the triangle, at the time [x]. *)
Lemma triangle_values (width x : R) :
  0 < width ->
  let y := if left_open (width / 2) width x then 2 - 2 * x / width
           else if closed 0 (width / 2) x then 2 * x / width else 0 in
  0 <= y <= 1
  /\ (x <= 0 \/ width <= x -> y = 0)
  /\ (x = width / 2 -> y = 1).
Proof.
  intros Hw. cbv zeta. ratio x width r.
  masks; (split; [nra|]); (split; [intros [?|?]; nra | intros ?; nra]).
Qed.

(** X3: for a positive width every sample of [triangle_wave] lies in
    [0, 1]; it is 0 at the times [t <= 0] and [t >= width] and 1 at the
    time [width / 2]. *)
Theorem triangle_wave_shape (t : list R) (width : R) :
  0 < width ->
  samplewise (fun x y => 0 <= y <= 1
                         /\ (x <= 0 \/ width <= x -> y = 0)
                         /\ (x = width / 2 -> y = 1))
             t (triangle_wave t width).
Proof.
  intros Hw. rewrite triangle_pointwise.
  apply samplewise_map. intros x.
  apply (@triangle_values width x Hw).
Qed.

Lemma differential_pointwise (g : Generator) (t : list R) (width : R) :
  let d := time_delay (config g) in
  let p := width * pulse_ratio (config g) in
  differential_pulse g t width
  = map (fun x =>
           if half_open (0 + d + p + 2 * d + p) (0 + d + p + 2 * d + p + d) x
           then -1 * (0 + d + p + 2 * d + p + d - x) / d
           else if half_open (0 + d + p + 2 * d) (0 + d + p + 2 * d + p) x
           then -1
           else if half_open (0 + d + p) (0 + d + p + 2 * d) x
           then 1 - (x - (0 + d + p)) / d
           else if half_open (0 + d) (0 + d + p) x
           then 1
           else if half_open 0 (0 + d) x
           then (x - 0) / d
           else 0) t.
Proof.
  intros d p. unfold differential_pulse. cbv zeta. fold d p.
  rewrite assign_zeros, !assign_map. reflexivity.
Qed.

Lemma exp_nonpos_le_1 (z : R) : z <= 0 -> exp z <= 1.
Proof.
  intros [Hlt | ->]; [|rewrite exp_0; lra].
  rewrite <- exp_0. now apply Rlt_le, exp_increasing.
Qed.

(** X7: for a width other than 0, [gaussian_pulse] returns one sample
    per time, each in [0, 1], and the sample at the time [width / 2] is 1.
    (Over the reals no sample is 0; the program rounds the far tails to 0,
    so the lower bound is stated as it holds of both.) *)
Theorem gaussian_pulse_shape (t : list R) (width : R) :
  width <> 0 ->
  samplewise (fun x y => 0 <= y <= 1 /\ (x = width / 2 -> y = 1))
             t (gaussian_pulse t width).
Proof.
  intros Hw. unfold gaussian_pulse. cbv zeta.
  apply samplewise_map. intros x.
  assert (0 < 2 * (width / 6) ^ 2) as Hs by nra.
  split; [split; [apply Rlt_le, exp_pos|]|].
  - apply exp_nonpos_le_1.
    pose proof (Rinv_0_lt_compat _ Hs) as Hi.
    pose proof (pow2_ge_0 (x - width / 2)) as Hq.
    unfold Rdiv at 1. nra.
  - intros ->. replace (- (width / 2 - width / 2) ^ 2 / (2 * (width / 6) ^ 2)) with 0.
    + apply exp_0.
    + unfold Rdiv. ring.
Qed.

End Shapes.

(** ** The time axis *)

Section TimeAxis.

Import WaveformAnalyzer.

Lemma set_last_nth {A : Type} (l : list A) (x d : A) (i : nat) :
  (i < length l)%nat ->
  nth i (Py.set_last l x) d = if (S i =? length l)%nat then x else nth i l d.
Proof.
  intros Hi. destruct (S i =? length l)%nat eqn:E.
  - apply Nat.eqb_eq in E.
    assert (l <> []) as Hne by (intros ->; simpl in Hi; lia).
    pose proof (set_last_last x Hne) as H.
    replace (length l - 1)%nat with i in H by lia.
    now apply nth_error_nth.
  - apply Nat.eqb_neq in E.
    pose proof (@set_last_nth_error _ l x i ltac:(lia)) as H.
    assert (i < length (Py.set_last l x))%nat as Hi' by (now rewrite set_last_length).
    rewrite (nth_error_nth' _ d Hi'), (nth_error_nth' _ d Hi) in H.
    now injection H.
Qed.

Lemma linspace_uniform (stop : R) (num : Z) :
  (2 <= num)%Z ->
  exists l, Np.linspace 0 stop num = Ok l
    /\ length l = Z.to_nat num
    /\ forall i, (i < Z.to_nat num)%nat ->
                 nth i l 0 = INR i * (stop / IZR (num - 1)).
Proof.
  intros Hn. unfold Np.linspace.
  replace (num <? 0)%Z with false by (symmetry; apply Z.ltb_ge; lia).
  replace (0 <? num - 1)%Z with true by (symmetry; apply Z.ltb_lt; lia).
  replace (1 <? num)%Z with true by (symmetry; apply Z.ltb_lt; lia).
  eexists. split; [reflexivity|].
  set (y := map _ _).
  assert (length y = Z.to_nat num) as Hlen
      by (subst y; now rewrite length_map, length_seq).
  split; [now rewrite set_last_length|].
  intros i Hi. rewrite set_last_nth by lia. rewrite Hlen.
  destruct (S i =? Z.to_nat num)%nat eqn:E.
  - apply Nat.eqb_eq in E.
    assert (INR i = IZR (num - 1)) as ->.
    { rewrite INR_IZR_INZ. f_equal. lia. }
    field. apply not_0_IZR. lia.
  - subst y. rewrite (nth_map_in _ _ 0%nat) by (rewrite length_seq; lia).
    rewrite seq_nth by lia. simpl. lra.
Qed.

(** The time axis of an instance, sample by sample. *)
Lemma time_grid (arg : option ConfigArg) (a : Analyzer) :
  __init__ arg = Ok a ->
  t a = map (fun i => INR i * dt a) (seq 0 (Z.to_nat (n_samples (config a))))
  /\ dt a * IZR (n_samples (config a) - 1) = t_max (config a).
Proof.
  intros Hinit.
  destruct (init_ok _ Hinit) as (Hn & Hc & _).
  rewrite Hc in Hn.
  destruct (linspace_uniform (t_max (effective_config arg)) Hn)
    as (l & Hl & Hlen & Hnth).
  unfold __init__, _init_time_freq_params in Hinit.
  rewrite Hl in Hinit. cbn [bind] in Hinit.
  rewrite (index_nth 0 l (i := 1)), (index_nth 0 l (i := 0)) in Hinit by lia.
  cbn [bind] in Hinit. injection Hinit as <-. cbn [t dt config].
  pose proof (Hnth 0%nat ltac:(lia)) as H0.
  pose proof (Hnth 1%nat ltac:(lia)) as H1.
  simpl (INR 0) in H0. simpl (INR 1) in H1. rewrite H0, H1.
  split.
  - apply (nth_ext _ _ 0 0).
    + now rewrite length_map, length_seq.
    + intros i Hi. rewrite Hlen in Hi. rewrite Hnth by assumption.
      rewrite (nth_map_in _ _ 0%nat) by (now rewrite length_seq).
      rewrite seq_nth by assumption. simpl. lra.
  - field. apply not_0_IZR. lia.
Qed.


End TimeAxis.

(** ** Polarity *)

Section Scaling.

Import WaveformAnalyzer.

Lemma greatest_scale (c mx : R) (l : list R) :
  0 <= c -> greatest mx l -> greatest (c * mx) (scale c l).
Proof.
  intros Hc [Hin Hub]. split.
  - unfold scale. apply in_map. exact Hin.
  - intros y Hy. unfold scale in Hy. apply in_map_iff in Hy.
    destruct Hy as (x & <- & Hx). apply Rmult_le_compat_l; [assumption|].
    now apply Hub.
Qed.

Lemma scale_nonempty (c : R) (wave : list R) : wave <> [] -> scale c wave <> [].
Proof. destruct wave; [contradiction | discriminate]. Qed.

Lemma abs_scale_any (c re im : R) :
  Np.abs (c * re, - (c * im)) = Rabs c * Np.abs (re, - im).
Proof.
  unfold Np.abs. cbn [fst snd].
  replace (c * re * (c * re) + - (c * im) * - (c * im))
    with (Rsqr c * (re * re + - im * - im)) by (unfold Rsqr; ring).
  rewrite sqrt_mult; [| apply Rle_0_sqr | nra].
  now rewrite sqrt_Rsqr_abs.
Qed.

Lemma raw_magnitude_scale_any (a : Analyzer) (c : R) (wave : list R) :
  raw_magnitude a (map (Scipy.dft_bin (scale c wave))
                       (seq 0 (length (scale c wave))))
  = scale (Rabs c)
      (raw_magnitude a (map (Scipy.dft_bin wave) (seq 0 (length wave)))).
Proof.
  unfold raw_magnitude.
  rewrite !slice_to_map. unfold scale at 3. rewrite !map_map.
  replace (length (scale c wave)) with (length wave)
    by (unfold scale; now rewrite length_map).
  apply map_ext. intros k. unfold Scipy.dft_bin.
  replace (length (scale c wave)) with (length wave)
    by (unfold scale; now rewrite length_map).
  rewrite !dft_sum_scale, abs_scale_any.
  unfold Rdiv. ring.
Qed.

Lemma raw_scale_any (a : Analyzer) (c : R) (wave raw : list R) :
  compute_spectrum a wave false = Ok raw ->
  compute_spectrum a (scale c wave) false = Ok (scale (Rabs c) raw).
Proof.
  intros Hraw. destruct wave as [|w0 wave']; [discriminate|].
  rewrite compute_spectrum_raw in * by discriminate.
  injection Hraw as <-. f_equal. apply raw_magnitude_scale_any.
Qed.

(** The normalized spectrum sees neither the gain nor the polarity. *)
Lemma normalized_scale_any (arg : option ConfigArg) (a : Analyzer)
  (wave : list R) (c : R) :
  __init__ arg = Ok a ->
  c <> 0 ->
  compute_spectrum a (scale c wave) true = compute_spectrum a wave true.
Proof.
  intros Hinit Hc.
  assert (0 < Rabs c) as Hac by (now apply Rabs_pos_lt).
  destruct wave as [|w0 wave']; [reflexivity|].
  set (wave := w0 :: wave').
  assert (wave <> []) as Hne by discriminate.
  destruct (init_ok _ Hinit) as (Hn & _ & _ & Hnf1).
  destruct (compute_spectrum_normalized a Hne Hnf1) as (raw & mx & Hraw & Hmx & Hm).
  rewrite Hm.
  pose proof (@raw_scale_any a c wave raw Hraw) as Hraw'.
  assert (greatest (Rabs c * mx) (scale (Rabs c) raw)) as Hg
      by (apply greatest_scale; [lra | now apply max_greatest]).
  assert (Forall (fun x => 0 <= x) raw) as Hpos.
  { rewrite compute_spectrum_raw in Hraw by assumption.
    injection Hraw as <-. apply raw_magnitude_nonneg. lia. }
  unfold compute_spectrum in Hraw' |- *.
  destruct (Scipy.fft (scale c wave)) as [s|e]; [|discriminate].
  cbn [bind] in *. injection Hraw' as ->.
  rewrite (greatest_max Hg). cbn [bind].
  destruct (Rlt_dec 0 mx) as [Hlt|Hnlt].
  - rewrite !Rltb_true by nra. f_equal. unfold scale. rewrite map_map.
    apply map_ext. intros x. field. lra.
  - rewrite !Rltb_false by nra. f_equal.
    pose proof (max_greatest _ Hmx) as [_ Hub].
    rewrite Forall_forall in Hpos.
    unfold scale. rewrite <- (map_id raw) at 2. apply map_ext_in.
    intros x Hx. specialize (Hub x Hx). specialize (Hpos x Hx).
    assert (x = 0) as -> by lra. ring.
Qed.

(** X10: reversing the polarity of the wave changes nothing the analyzer
    computes from its spectrum: [compute_spectrum] in both modes,
    [find_dominant_frequency], [find_multiple_peaks] and
    [compute_bandwidth] return for [-wave] what they return for [wave],
    and [compute_energy] too. *)
Theorem polarity_invariance (arg : option ConfigArg) (a : Analyzer)
  (wave : list R) :
  __init__ arg = Ok a ->
  (forall normalize,
     compute_spectrum a (map Ropp wave) normalize
     = compute_spectrum a wave normalize)
  /\ (forall min_freq max_freq,
        find_dominant_frequency a (map Ropp wave) min_freq max_freq
        = find_dominant_frequency a wave min_freq max_freq)
  /\ (forall n_peaks min_freq max_freq height,
        find_multiple_peaks a (map Ropp wave) n_peaks min_freq max_freq height
        = find_multiple_peaks a wave n_peaks min_freq max_freq height)
  /\ (forall threshold,
        compute_bandwidth a (map Ropp wave) threshold
        = compute_bandwidth a wave threshold)
  /\ compute_energy a (map Ropp wave) = compute_energy a wave.
Proof.
  intros Hinit.
  assert (map Ropp wave = scale (-1) wave) as ->
      by (unfold scale; apply map_ext; intros x; ring).
  assert (compute_spectrum a (scale (-1) wave) true
          = compute_spectrum a wave true) as Et
      by (apply (@normalized_scale_any arg a wave (-1) Hinit); lra).
  assert (compute_spectrum a (scale (-1) wave) false
          = compute_spectrum a wave false) as Ef.
  { destruct (compute_spectrum a wave false) as [raw|e] eqn:Hraw.
    - rewrite (@raw_scale_any a (-1) wave raw Hraw). f_equal.
      assert (Rabs (-1) = 1) as ->
          by (unfold Rabs; destruct (Rcase_abs (-1)); lra).
      unfold scale.
      rewrite <- (map_id raw) at 2. apply map_ext. intros x. ring.
    - destruct wave as [|w0 wave']; [rewrite <- Hraw; reflexivity|].
      rewrite compute_spectrum_raw in Hraw by discriminate. discriminate. }
  split; [intros [|]; assumption|].
  split; [intros min_freq max_freq; unfold find_dominant_frequency;
          now rewrite Ef|].
  split; [intros n_peaks min_freq max_freq height; unfold find_multiple_peaks;
          now rewrite Et|].
  split; [intros threshold; unfold compute_bandwidth; now rewrite Et|].
  unfold compute_energy, scale. rewrite map_map. do 2 f_equal.
  apply map_ext. intros x. ring.
Qed.

End Scaling.

(** ** Energy *)

Section Energy.

Import WaveformAnalyzer.







End Energy.

(** ** Relations between the statistics *)

Section StatisticsRelations.

Import WaveformAnalyzer.

Local Open Scope string_scope.







End StatisticsRelations.

(** ** The raw spectrum and the amplitudes *)

Section DirectCurrent.

Import WaveformAnalyzer.




End DirectCurrent.

Section Amplitude.

Import WaveformAnalyzer.





End Amplitude.

(** ** Waves of any length: claim C5 *)

Section Failures.

Import WaveformAnalyzer.

Lemma where_from_bound (i : nat) (mask : list bool) (k : nat) :
  In k (Np.where_from i mask) -> (i <= k < i + length mask)%nat.
Proof.
  revert i. induction mask as [|b mask IH]; intros i Hin; [contradiction|].
  cbn [Np.where_from] in Hin. cbn [length].
  destruct b.
  - destruct Hin as [<-|Hin]; [lia|]. apply IH in Hin. lia.
  - apply IH in Hin. lia.
Qed.

Lemma any_where_nonempty (mask : list bool) :
  Np.any mask = true -> Np.where_ mask <> [].
Proof.
  intros Hany. destruct (first_true_exists _ Hany) as (k & Hk & Hbefore).
  destruct (where_from_first 0 _ Hk Hbefore) as [rest Hrest].
  unfold Np.where_. rewrite Hrest. discriminate.
Qed.

(** [compute_bandwidth] once the spectrum is known: no index it builds
    is out of range, whatever the length of the spectrum. *)
Lemma compute_bandwidth_returns (a : Analyzer) (wave m : list R) (threshold : R) :
  compute_spectrum a wave true = Ok m ->
  exists r, compute_bandwidth a wave threshold = Ok r.
Proof.
  intros Hm. unfold compute_bandwidth. rewrite Hm. cbn [bind].
  set (examined := Py.slice m 1 (length (freq_positive a) + 1)).
  set (mask := map (fun x => Rleb threshold x) examined).
  destruct (Np.any mask) eqn:Hany; cbn [negb]; [|eexists; reflexivity].
  pose proof (any_where_nonempty _ Hany) as Hne.
  assert (forall k, In k (Np.where_ mask) -> (k < length (freq_positive a))%nat)
    as Hbound.
  { intros k Hk. apply where_from_bound in Hk.
    subst mask examined. rewrite length_map, slice_length in Hk. lia. }
  destruct (Np.where_ mask) as [|i0 rest] eqn:Ew; [contradiction|].
  cbn [Py.index nth_error bind].
  rewrite (index_nth 0 (freq_positive a) (i := i0))
    by (apply Hbound; now left).
  cbn [bind]. unfold Py.index_last.
  assert (length (i0 :: rest) - 1 < length (i0 :: rest))%nat as Hl
      by (simpl; lia).
  rewrite (index_nth 0%nat (i0 :: rest) Hl). cbn [bind].
  rewrite (index_nth 0 (freq_positive a)
             (i := nth (length (i0 :: rest) - 1) (i0 :: rest) 0%nat))
    by (apply Hbound, nth_In; exact Hl).
  cbn [bind]. eexists; reflexivity.
Qed.

Lemma raw_length_any (arg : option ConfigArg) (a : Analyzer) (wave : list R) :
  __init__ arg = Ok a ->
  length (raw_magnitude a (map (Scipy.dft_bin wave) (seq 0 (length wave))))
  = Nat.min (Z.to_nat (n_freq a)) (length wave).
Proof.
  intros Hinit. destruct (init_ok _ Hinit) as (_ & _ & _ & Hnf1).
  now rewrite raw_magnitude_length, length_map, length_seq by lia.
Qed.

Lemma freq_range_inside (arg : option ConfigArg) (a : Analyzer)
  (min_freq : R) (max_freq : option R) :
  valid_config (effective_config arg) ->
  __init__ arg = Ok a ->
  freq_range a min_freq max_freq <> [] ->
  (min_idx a min_freq < Z.to_nat (n_freq a))%nat.
Proof.
  intros Hv Hinit Hne.
  destruct (grid_tail arg Hv Hinit) as (_ & Hfl & Hfpl).
  destruct (init_ok _ Hinit) as (_ & _ & Hnf & _).
  assert (length (freq_range a min_freq max_freq) <> 0)%nat as Hl
      by (destruct (freq_range a min_freq max_freq); [contradiction | discriminate]).
  unfold freq_range in Hl. rewrite slice_length in Hl.
  rewrite Hnf. lia.
Qed.

(** [find_dominant_frequency] on a non-empty wave of any length. *)
Lemma dominant_frequency_on_any_wave (arg : option ConfigArg) (a : Analyzer)
  (wave : list R) (min_freq : R) (max_freq : option R) :
  valid_config (effective_config arg) ->
  __init__ arg = Ok a ->
  wave <> [] ->
  (freq_range a min_freq max_freq = [] ->
   find_dominant_frequency a wave min_freq max_freq = Ok (0, 0))
  /\ (freq_range a min_freq max_freq <> [] ->
      (length wave <= min_idx a min_freq)%nat ->
      find_dominant_frequency a wave min_freq max_freq = Raise ValueError)
  /\ (freq_range a min_freq max_freq <> [] ->
      (min_idx a min_freq < length wave)%nat ->
      exists r, find_dominant_frequency a wave min_freq max_freq = Ok r).
Proof.
  intros Hv Hinit Hne.
  pose proof (compute_spectrum_raw a Hne) as Hraw.
  pose proof (raw_length_any arg wave Hinit) as Hrl.
  set (raw := raw_magnitude a (map (Scipy.dft_bin wave) (seq 0 (length wave))))
    in *.
  unfold find_dominant_frequency. rewrite Hraw. cbn [bind].
  set (fr := freq_range a min_freq max_freq).
  set (sr := spectrum_range a raw min_freq max_freq).
  assert (length sr
          = Nat.min (min_idx a min_freq + length fr) (length raw)
            - min_idx a min_freq)%nat as Hsl
      by (subst sr fr; unfold spectrum_range; apply slice_length).
  split; [intros ->; reflexivity|].
  split.
  - intros Hfr Hshort.
    replace (length fr =? 0)%nat with false
      by (symmetry; apply Nat.eqb_neq; destruct fr; [contradiction | discriminate]).
    assert (sr = []) as -> by (destruct sr; [reflexivity | simpl in Hsl; lia]).
    reflexivity.
  - intros Hfr Hlong.
    pose proof (freq_range_inside arg min_freq max_freq Hv Hinit Hfr) as Hin.
    assert (length fr <> 0)%nat as Hfl
        by (destruct fr; [contradiction | discriminate]).
    replace (length fr =? 0)%nat with false
      by (symmetry; now apply Nat.eqb_neq).
    assert (sr <> []) as Hsne.
    { intros E. rewrite E in Hsl. simpl in Hsl. lia. }
    destruct (argmax_spec Hsne) as (p & Hp & Hpl & _).
    rewrite Hp. cbn [bind].
    rewrite (index_nth 0 fr (i := p)) by lia.
    rewrite (index_nth 0 sr (i := p)) by lia.
    cbn [bind]. eexists; reflexivity.
Qed.

(** C5, amended: no analysis call compares the length of the wave with
    [n_samples], and none raises a length-mismatch error.  On every
    non-empty wave, whatever its length, [compute_spectrum] returns
    [min(len(wave), n_samples // 2)] magnitudes, those of the transform of
    the wave as given divided by [n_samples], and [find_multiple_peaks] and
    [compute_bandwidth] return normally; on a valid grid
    [find_dominant_frequency] returns [(0, 0)] when the frequency
    sub-range is empty, raises [ValueError] (from [np.argmax] on an empty
    slice) when the sub-range is not empty and the wave has at most
    [min_idx] samples, and returns normally otherwise.  The empty wave
    makes the four of them raise [ValueError], in the transform. *)
Theorem compute_spectrum_any_length (arg : option ConfigArg) (a : Analyzer)
  (wave : list R) (normalize : bool) (n_peaks : Z) (min_freq : R)
  (max_freq : option R) (height threshold : R) :
  __init__ arg = Ok a ->
  (wave <> [] ->
   (exists m,
      compute_spectrum a wave normalize = Ok m
      /\ length m
         = Nat.min (length wave) (Z.to_nat (n_samples (config a) / 2))
      /\ compute_spectrum a wave false
         = Ok (raw_magnitude a (map (Scipy.dft_bin wave) (seq 0 (length wave)))))
   /\ (exists r,
         find_multiple_peaks a wave n_peaks min_freq max_freq height = Ok r)
   /\ (exists r, compute_bandwidth a wave threshold = Ok r)
   /\ (valid_config (effective_config arg) ->
       (freq_range a min_freq max_freq = [] ->
        find_dominant_frequency a wave min_freq max_freq = Ok (0, 0))
       /\ (freq_range a min_freq max_freq <> [] ->
           (length wave <= min_idx a min_freq)%nat ->
           find_dominant_frequency a wave min_freq max_freq = Raise ValueError)
       /\ (freq_range a min_freq max_freq <> [] ->
           (min_idx a min_freq < length wave)%nat ->
           exists r, find_dominant_frequency a wave min_freq max_freq = Ok r)))
  /\ (wave = [] ->
      compute_spectrum a wave normalize = Raise ValueError
      /\ find_dominant_frequency a wave min_freq max_freq = Raise ValueError
      /\ find_multiple_peaks a wave n_peaks min_freq max_freq height
         = Raise ValueError
      /\ compute_bandwidth a wave threshold = Raise ValueError).
Proof.
  intros Hinit.
  destruct (init_ok _ Hinit) as (Hn & _ & Hnf & Hnf1).
  split; [|intros ->; repeat split; reflexivity].
  intros Hne.
  destruct (compute_spectrum_normalized a Hne Hnf1)
    as (raw & mx & Hraw & Hmx & Hm).
  assert (length raw
          = Nat.min (length wave) (Z.to_nat (n_samples (config a) / 2))) as Hrl.
  { rewrite compute_spectrum_raw in Hraw by assumption.
    injection Hraw as <-.
    rewrite raw_magnitude_length, length_map, length_seq by lia.
    rewrite Hnf. lia. }
  split.
  { destruct normalize.
    - eexists. split; [exact Hm|]. split; [|now apply compute_spectrum_raw].
      destruct (Rltb 0 mx); [now rewrite length_map | exact Hrl].
    - exists raw. split; [exact Hraw|]. split; [exact Hrl|].
      now apply compute_spectrum_raw. }
  split; [eexists; apply (@find_multiple_peaks_ranked a wave _ n_peaks min_freq
                             max_freq height Hm)|].
  split; [apply (@compute_bandwidth_returns a wave _ threshold Hm)|].
  intros Hv.
  exact (@dominant_frequency_on_any_wave arg a wave min_freq max_freq
           Hv Hinit Hne).
Qed.

(** X16: which waves the methods reject, on a valid grid.  The empty
    wave makes [find_dominant_frequency], [find_multiple_peaks],
    [compute_bandwidth] and [compute_statistics] raise [ValueError].  On a
    non-empty wave of any length the last three return normally;
    [find_dominant_frequency] returns [(0, 0)] when the frequency sub-range
    is empty, raises [ValueError] (from [np.argmax] on an empty array) when
    the sub-range is not empty and the wave has at most [min_idx] samples,
    and returns normally otherwise. *)
Theorem wave_length_failures (arg : option ConfigArg) (a : Analyzer)
  (wave : list R) (n_peaks : Z) (min_freq : R) (max_freq : option R)
  (height threshold : R) :
  valid_config (effective_config arg) ->
  __init__ arg = Ok a ->
  (wave = [] ->
   find_dominant_frequency a wave min_freq max_freq = Raise ValueError
   /\ find_multiple_peaks a wave n_peaks min_freq max_freq height = Raise ValueError
   /\ compute_bandwidth a wave threshold = Raise ValueError
   /\ compute_statistics a wave = Raise ValueError)
  /\ (wave <> [] ->
      (exists r, find_multiple_peaks a wave n_peaks min_freq max_freq height = Ok r)
      /\ (exists r, compute_bandwidth a wave threshold = Ok r)
      /\ (exists s, compute_statistics a wave = Ok s)
      /\ (freq_range a min_freq max_freq = [] ->
          find_dominant_frequency a wave min_freq max_freq = Ok (0, 0))
      /\ (freq_range a min_freq max_freq <> [] ->
          (length wave <= min_idx a min_freq)%nat ->
          find_dominant_frequency a wave min_freq max_freq = Raise ValueError)
      /\ (freq_range a min_freq max_freq <> [] ->
          (min_idx a min_freq < length wave)%nat ->
          exists r, find_dominant_frequency a wave min_freq max_freq = Ok r)).
Proof.
  intros Hv Hinit. split; [intros ->; repeat split; reflexivity|].
  intros Hne.
  destruct (init_ok _ Hinit) as (_ & _ & _ & Hnf1).
  destruct (compute_spectrum_normalized a Hne Hnf1)
    as (raw & mx & Hraw & Hmx & Hm).
  split; [eexists; apply (@find_multiple_peaks_ranked a wave _ n_peaks min_freq max_freq height Hm)|].
  split; [apply (@compute_bandwidth_returns a wave _ threshold Hm)|].
  split.
  { unfold compute_statistics. destruct wave as [|x w]; [contradiction|].
    cbn [Np.min Np.max bind]. eexists; reflexivity. }
  pose proof Hraw as Hraw'.
  rewrite compute_spectrum_raw in Hraw' by assumption. injection Hraw' as Eraw.
  pose proof (raw_length_any arg wave Hinit) as Hrl. rewrite Eraw in Hrl.
  unfold find_dominant_frequency. rewrite Hraw. cbn [bind].
  set (fr := freq_range a min_freq max_freq).
  set (sr := spectrum_range a raw min_freq max_freq).
  assert (length sr
          = Nat.min (min_idx a min_freq + length fr) (length raw)
            - min_idx a min_freq)%nat as Hsl
      by (subst sr fr; unfold spectrum_range; apply slice_length).
  split; [intros ->; reflexivity|].
  split.
  - intros Hfr Hshort.
    replace (length fr =? 0)%nat with false
      by (symmetry; apply Nat.eqb_neq; destruct fr; [contradiction | discriminate]).
    assert (sr = []) as -> by (destruct sr; [reflexivity | simpl in Hsl; lia]).
    reflexivity.
  - intros Hfr Hlong.
    pose proof (freq_range_inside arg min_freq max_freq Hv Hinit Hfr) as Hin.
    assert (length fr <> 0)%nat as Hfl
        by (destruct fr; [contradiction | discriminate]).
    replace (length fr =? 0)%nat with false
      by (symmetry; now apply Nat.eqb_neq).
    assert (sr <> []) as Hsne.
    { intros E. rewrite E in Hsl. simpl in Hsl. lia. }
    destruct (argmax_spec Hsne) as (p & Hp & Hpl & _).
    rewrite Hp. cbn [bind].
    rewrite (index_nth 0 fr (i := p)) by lia.
    rewrite (index_nth 0 sr (i := p)) by lia.
    cbn [bind]. eexists; reflexivity.
Qed.

End Failures.

(** ** The wave of zeros *)

Section Silence.

Import WaveformAnalyzer.

Lemma dft_sum_zero (f : R -> R) (N k : nat) (w : list R) (j : nat) :
  Forall (fun x => x = 0) w -> Scipy.dft_sum f N k w j = 0.
Proof.
  intros Hz. revert j. induction Hz as [|x w Hx _ IH]; intros j; [reflexivity|].
  cbn [Scipy.dft_sum]. rewrite IH, Hx. ring.
Qed.

Lemma raw_magnitude_zero (a : Analyzer) (wave : list R) :
  Forall (fun x => x = 0) wave ->
  Forall (fun x => x = 0)
    (raw_magnitude a (map (Scipy.dft_bin wave) (seq 0 (length wave)))).
Proof.
  intros Hz. unfold raw_magnitude. apply Forall_map, Forall_forall.
  intros c Hc. apply slice_to_incl, in_map_iff in Hc.
  destruct Hc as (k & <- & _). unfold Scipy.dft_bin, Np.abs. cbn [fst snd].
  rewrite !dft_sum_zero by assumption.
  replace (0 * 0 + - 0 * - 0) with 0 by ring.
  rewrite sqrt_0. unfold Rdiv. ring.
Qed.

Lemma all_zero_nth (l : list R) (k : nat) :
  Forall (fun x => x = 0) l -> nth k l 0 = 0.
Proof.
  intros Hz. destruct (Nat.lt_ge_cases k (length l)) as [Hk|Hk].
  - rewrite Forall_forall in Hz. apply Hz. now apply nth_In.
  - now apply nth_overflow.
Qed.

Lemma all_zero_slice (l : list R) (i j : nat) :
  Forall (fun x => x = 0) l -> Forall (fun x => x = 0) (Py.slice l i j).
Proof.
  intros Hz. rewrite Forall_forall in *. intros x Hx.
  apply Hz. eapply slice_incl. exact Hx.
Qed.

(** A sequence of equal values has no peak. *)
Lemma find_peaks_flat (x : list R) (height : R) :
  Forall (fun v => v = 0) x -> Scipy.find_peaks x height = [].
Proof.
  intros Hz. destruct (Scipy.find_peaks x height) as [|p ps] eqn:E; [reflexivity|].
  assert (In p (Scipy.find_peaks x height)) as Hin by (rewrite E; now left).
  apply find_peaks_sound in Hin.
  destruct Hin as [(l & r & _ & _ & _ & _ & _ & Hlt & _) _].
  rewrite !all_zero_nth in Hlt by assumption. lra.
Qed.

Lemma max_all_zero (l : list R) (mx : R) :
  Forall (fun x => x = 0) l -> Np.max l = Ok mx -> mx = 0.
Proof.
  intros Hz Hmx. apply max_greatest in Hmx. destruct Hmx as [Hin _].
  rewrite Forall_forall in Hz. now apply Hz.
Qed.

Lemma ranked_peaks_none (sr : list R) (n_peaks : Z) (height : R) :
  Scipy.find_peaks sr height = [] -> ranked_peaks sr n_peaks height = [].
Proof.
  intros E. unfold ranked_peaks. cbv zeta. rewrite E.
  unfold Py.take. cbn [map length]. unfold Np.argsort. cbn [length seq fold_left rev].
  assert (Py.slice_to (@nil nat) n_peaks = []) as ->.
  { unfold Py.slice_to. destruct (n_peaks <? 0)%Z; apply firstn_nil. }
  reflexivity.
Qed.

(** X17: a non-empty wave of zeros has a spectrum of zeros, returned
    without normalization (no division by the largest magnitude 0); its
    bandwidth is [(0, 0, 0)] for every positive threshold, it has no peak
    whatever the height, and its energy is 0. *)
Theorem silent_wave (arg : option ConfigArg) (a : Analyzer)
  (wave : list R) (n_peaks : Z) (min_freq : R) (max_freq : option R)
  (height threshold : R) :
  __init__ arg = Ok a ->
  wave <> [] ->
  Forall (fun x => x = 0) wave ->
  exists m,
    compute_spectrum a wave false = Ok m
    /\ compute_spectrum a wave true = Ok m
    /\ Forall (fun x => x = 0) m
    /\ (0 < threshold -> compute_bandwidth a wave threshold = Ok (0, 0, 0))
    /\ find_multiple_peaks a wave n_peaks min_freq max_freq height = Ok ([], [])
    /\ compute_energy a wave = 0.
Proof.
  intros Hinit Hne Hz.
  destruct (init_ok _ Hinit) as (_ & _ & _ & Hnf1).
  destruct (compute_spectrum_normalized a Hne Hnf1)
    as (raw & mx & Hraw & Hmx & Hm).
  assert (Forall (fun x => x = 0) raw) as Hrz.
  { rewrite compute_spectrum_raw in Hraw by assumption.
    injection Hraw as <-. now apply raw_magnitude_zero. }
  rewrite (max_all_zero Hrz Hmx), Rltb_false in Hm by lra.
  exists raw. split; [exact Hraw|]. split; [exact Hm|]. split; [exact Hrz|].
  split; [|split].
  - intros Hth. unfold compute_bandwidth. rewrite Hm. cbn [bind].
    destruct (reaching_bins threshold
                (Py.slice raw 1 (length (freq_positive a) + 1)))
      as [[Hany _] | (_ & i & _ & _ & _ & (Hi & Hge & _) & _)].
    + rewrite Hany. reflexivity.
    + rewrite all_zero_nth in Hge by now apply all_zero_slice. lra.
  - rewrite (@find_multiple_peaks_ranked a wave raw n_peaks min_freq max_freq
               height Hm).
    rewrite ranked_peaks_none
      by (apply find_peaks_flat; unfold spectrum_range; now apply all_zero_slice).
    reflexivity.
  - unfold compute_energy. rewrite sum_total.
    assert (total (map (fun x => x ^ 2) wave) = 0) as ->; [|ring].
    clear -Hz. induction Hz as [|x w Hx _ IH]; [reflexivity|].
    cbn [map total]. rewrite IH, Hx. ring.
Qed.

End Silence.

(** ** The bandwidth as a function of the threshold *)

Section BandwidthThreshold.

Import WaveformAnalyzer.

(** The normalized spectrum has no negative value. *)
Lemma normalized_nonneg (arg : option ConfigArg) (a : Analyzer) (wave : list R) :
  __init__ arg = Ok a ->
  Z.of_nat (length wave) = n_samples (config a) ->
  exists m,
    compute_spectrum a wave true = Ok m
    /\ length m = Z.to_nat (n_samples (config a) / 2)
    /\ Forall (fun x => 0 <= x) m.
Proof.
  intros Hinit Hlen.
  destruct (init_ok _ Hinit) as (Hn & _ & _ & Hnf1).
  assert (wave <> []) as Hne by (intros ->; simpl in Hlen; lia).
  destruct (raw_spectrum_full arg wave Hinit Hlen) as (raw & Hraw & Hrl & Hpos).
  destruct (compute_spectrum_normalized a Hne Hnf1) as (raw' & mx & Hraw' & Hmx & Hm).
  rewrite Hraw in Hraw'. injection Hraw' as <-.
  eexists. split; [exact Hm|].
  destruct (Rlt_dec 0 mx) as [Hlt|Hnlt].
  - rewrite (Rltb_true Hlt). split; [now rewrite length_map|].
    apply Forall_map. rewrite Forall_forall in *. intros x Hx.
    apply Rmult_le_pos; [now apply Hpos|].
    now apply Rlt_le, Rinv_0_lt_compat.
  - rewrite Rltb_false by lra. now split.
Qed.

(** The two outcomes of [compute_bandwidth] on a wave of [n_samples]
    samples. *)
Lemma bandwidth_cases (arg : option ConfigArg) (a : Analyzer)
  (wave : list R) (threshold : R) :
  valid_config (effective_config arg) ->
  __init__ arg = Ok a ->
  Z.of_nat (length wave) = n_samples (config a) ->
  exists m,
    compute_spectrum a wave true = Ok m
    /\ length (Py.slice m 1 (length (freq_positive a) + 1))
       = length (freq_positive a)
    /\ Forall (fun x => 0 <= x) (Py.slice m 1 (length (freq_positive a) + 1))
    /\ ((Forall (fun x => x < threshold)
           (Py.slice m 1 (length (freq_positive a) + 1))
         /\ compute_bandwidth a wave threshold = Ok (0, 0, 0))
        \/ exists i j,
             first_reaching threshold
               (Py.slice m 1 (length (freq_positive a) + 1)) i
             /\ last_reaching threshold
                  (Py.slice m 1 (length (freq_positive a) + 1)) j
             /\ (i <= j)%nat
             /\ compute_bandwidth a wave threshold
                = Ok (nth i (freq_positive a) 0, nth j (freq_positive a) 0,
                      nth j (freq_positive a) 0 - nth i (freq_positive a) 0)).
Proof.
  intros Hv Hinit Hlen.
  destruct (normalized_nonneg arg wave Hinit Hlen) as (m & Hm & Hml & Hpos).
  destruct (init_valid arg Hv Hinit)
    as (val & m' & Hval & Hm1 & Em & _ & _ & _ & _ & _ & Hfp).
  set (examined := Py.slice m 1 (length (freq_positive a) + 1)).
  assert (length examined = length (freq_positive a)) as Hel.
  { subst examined. rewrite slice_length, Hml, Hfp, bins_length. lia. }
  exists m. split; [exact Hm|]. split; [exact Hel|]. split.
  { rewrite Forall_forall in *. intros x Hx. apply Hpos.
    eapply slice_incl. exact Hx. }
  unfold compute_bandwidth. rewrite Hm. cbn [bind]. fold examined.
  destruct (reaching_bins threshold examined)
    as [[Hany Hall] | (Hany & i & j & Hi & Hj & Hfirst & Hlast & Hij)].
  - left. rewrite Hany. now split.
  - right. exists i, j. rewrite Hany. cbn [negb]. rewrite Hi, Hj. cbn [bind].
    pose proof Hfirst as (Hil & _). pose proof Hlast as (Hjl & _).
    rewrite (index_nth 0 (freq_positive a) (i := i)) by lia.
    rewrite (index_nth 0 (freq_positive a) (i := j)) by lia.
    cbn [bind]. repeat split; try assumption; apply Hfirst || apply Hlast.
Qed.

Lemma freq_positive_order (arg : option ConfigArg) (a : Analyzer) (i j : nat) :
  valid_config (effective_config arg) ->
  __init__ arg = Ok a ->
  (i <= j)%nat -> (j < length (freq_positive a))%nat ->
  0 < nth i (freq_positive a) 0 <= nth j (freq_positive a) 0.
Proof.
  intros Hv Hinit Hij Hj.
  destruct (init_valid arg Hv Hinit)
    as (val & m' & Hval & Hm1 & Em & _ & _ & _ & _ & _ & Hfp).
  rewrite Hfp in *. rewrite bins_length in Hj. split.
  - apply bins_positive; try assumption; lia.
  - apply bins_ascending; assumption.
Qed.

(** X18: with a threshold [<= 0] and at least 4 samples per wave,
    [compute_bandwidth] returns the whole positive band: from
    [freq_positive[0] = freq[1]] to the last retained frequency. *)
Theorem bandwidth_of_nonpositive_threshold (arg : option ConfigArg)
  (a : Analyzer) (wave : list R) (threshold : R) :
  valid_config (effective_config arg) ->
  __init__ arg = Ok a ->
  Z.of_nat (length wave) = n_samples (config a) ->
  threshold <= 0 ->
  (4 <= n_samples (config a))%Z ->
  exists low high,
    compute_bandwidth a wave threshold = Ok (low, high, high - low)
    /\ low = nth 0 (freq_positive a) 0
    /\ low = nth 1 (freq a) 0
    /\ high = nth (length (freq_positive a) - 1) (freq_positive a) 0
    /\ high = nth (length (freq a) - 1) (freq a) 0
    /\ 0 < low <= high.
Proof.
  intros Hv Hinit Hlen Hth Hn4.
  set (last := (length (freq_positive a) - 1)%nat).
  exists (nth 0 (freq_positive a) 0), (nth last (freq_positive a) 0).
  cut (compute_bandwidth a wave threshold
       = Ok (nth 0 (freq_positive a) 0, nth last (freq_positive a) 0,
             nth last (freq_positive a) 0 - nth 0 (freq_positive a) 0)
       /\ nth 0 (freq_positive a) 0 = nth 1 (freq a) 0
       /\ nth last (freq_positive a) 0 = nth (length (freq a) - 1) (freq a) 0).
  { intros (H1 & H2 & H3). repeat split; try assumption; try reflexivity;
      apply (@freq_positive_order arg a 0%nat last Hv Hinit); subst last;
      destruct (grid_tail arg Hv Hinit) as (_ & Hfl & Hfpl);
      assert (2 <= n_samples (config a) / 2)%Z
        by (apply Z.div_le_lower_bound; lia); lia. }
  destruct (grid_tail arg Hv Hinit) as (Htl & Hfl & Hfpl).
  assert (2 <= n_samples (config a) / 2)%Z as Hhalf
      by (apply Z.div_le_lower_bound; lia).
  assert (1 <= length (freq_positive a))%nat as Hfp1 by lia.
  destruct (bandwidth_cases arg wave threshold Hv Hinit Hlen)
    as (m & Hm & Hel & Hpos & [[Hall _] | (i & j & Hfirst & Hlast & Hij & Hbw)]).
  - exfalso. rewrite Forall_forall in *.
    set (examined := Py.slice m 1 (length (freq_positive a) + 1)) in *.
    assert (In (nth 0 examined 0) examined) as Hin by (apply nth_In; lia).
    specialize (Hall _ Hin). specialize (Hpos _ Hin). lra.
  - set (examined := Py.slice m 1 (length (freq_positive a) + 1)) in *.
    rewrite Forall_forall in Hpos.
    assert (forall k, (k < length examined)%nat -> threshold <= nth k examined 0)
      as Hall.
    { intros k Hk. specialize (Hpos _ (nth_In examined 0 Hk)). lra. }
    destruct Hfirst as (Hil & _ & Hbefore).
    destruct Hlast as (Hjl & _ & Hafter).
    assert (i = 0)%nat as ->.
    { destruct i as [|i]; [reflexivity|].
      specialize (Hbefore 0%nat ltac:(lia)). specialize (Hall 0%nat ltac:(lia)). lra. }
    assert (j = last) as ->.
    { subst last. destruct (Nat.eq_dec j (length (freq_positive a) - 1)) as [E|Hne];
        [exact E|].
      specialize (Hafter (length examined - 1)%nat ltac:(lia) ltac:(lia)).
      specialize (Hall (length examined - 1)%nat ltac:(lia)). lra. }
    split; [exact Hbw|]. rewrite Htl, !nth_tl. split; [reflexivity|].
    f_equal. subst last. lia.
Qed.

(** X19: raising the threshold never widens the band.  For
    [th1 <= th2] the bandwidths are non-negative, the one of [th2] is not
    above the one of [th1], and unless [th2] gives [(0, 0, 0)] its band lies
    inside the band of [th1]. *)
Theorem bandwidth_monotone (arg : option ConfigArg) (a : Analyzer)
  (wave : list R) (th1 th2 : R) :
  valid_config (effective_config arg) ->
  __init__ arg = Ok a ->
  Z.of_nat (length wave) = n_samples (config a) ->
  th1 <= th2 ->
  exists lo1 hi1 bw1 lo2 hi2 bw2,
    compute_bandwidth a wave th1 = Ok (lo1, hi1, bw1)
    /\ compute_bandwidth a wave th2 = Ok (lo2, hi2, bw2)
    /\ 0 <= bw1 /\ 0 <= bw2 /\ bw2 <= bw1
    /\ ((lo2, hi2, bw2) = (0, 0, 0)
        \/ (0 < lo1 /\ lo1 <= lo2 /\ lo2 <= hi2 /\ hi2 <= hi1)).
Proof.
  intros Hv Hinit Hlen Hth.
  destruct (bandwidth_cases arg wave th1 Hv Hinit Hlen)
    as (m & Hm & Hel & Hpos & H1).
  destruct (bandwidth_cases arg wave th2 Hv Hinit Hlen)
    as (m' & Hm' & _ & _ & H2).
  rewrite Hm in Hm'. injection Hm' as <-.
  set (examined := Py.slice m 1 (length (freq_positive a) + 1)) in *.
  destruct H2 as [[Hall2 Hbw2] | (i2 & j2 & Hf2 & Hl2 & Hij2 & Hbw2)].
  - destruct H1 as [[Hall1 Hbw1] | (i1 & j1 & Hf1 & Hl1 & Hij1 & Hbw1)].
    + exists 0, 0, 0, 0, 0, 0. repeat split; try assumption; try lra. now left.
    + do 3 eexists. exists 0, 0, 0.
      split; [exact Hbw1|]. split; [exact Hbw2|].
      destruct Hl1 as (Hj1 & _).
      pose proof (freq_positive_order arg Hv Hinit Hij1 ltac:(lia)) as Ho.
      repeat split; try lra. now left.
  - destruct Hf2 as (Hi2 & Hge2 & Hbefore2). destruct Hl2 as (Hj2 & Hge2' & Hafter2).
    destruct H1 as [[Hall1 Hbw1] | (i1 & j1 & Hf1 & Hl1 & Hij1 & Hbw1)].
    + exfalso. rewrite Forall_forall in Hall1.
      specialize (Hall1 _ (nth_In examined 0 Hi2)). lra.
    + destruct Hf1 as (Hi1 & Hge1 & Hbefore1).
      destruct Hl1 as (Hj1 & Hge1' & Hafter1).
      assert (i1 <= i2)%nat as Hii.
      { destruct (le_lt_dec i1 i2) as [H|H]; [exact H|].
        specialize (Hbefore1 i2 H). lra. }
      assert (j2 <= j1)%nat as Hjj.
      { destruct (le_lt_dec j2 j1) as [H|H]; [exact H|].
        specialize (Hafter1 j2 H Hj2). lra. }
      do 6 eexists. split; [exact Hbw1|]. split; [exact Hbw2|].
      pose proof (freq_positive_order arg Hv Hinit Hii ltac:(lia)) as Ha.
      pose proof (freq_positive_order arg Hv Hinit Hij2 ltac:(lia)) as Hb.
      pose proof (freq_positive_order arg Hv Hinit Hjj ltac:(lia)) as Hc.
      split; [lra|]. split; [lra|]. split; [lra|]. right. lra.
Qed.

End BandwidthThreshold.

(** ** The number of peaks asked for *)

Section PeakCount.

Import WaveformAnalyzer.

Lemma take_slice_to {A : Type} (d : A) (l : list A) (idx : list nat) (n : Z) :
  Py.take d l (Py.slice_to idx n) = Py.slice_to (Py.take d l idx) n.
Proof. unfold Py.take. symmetry. apply slice_to_map. Qed.

Lemma slice_to_all {A : Type} (l : list A) (n : Z) :
  (Z.of_nat (length l) <= n)%Z -> Py.slice_to l n = l.
Proof.
  intros Hn. rewrite slice_to_nonneg by lia. apply firstn_all2. lia.
Qed.

(** X20: [n_peaks] only slices one ranking.  There are two sequences,
    the result for every [n_peaks] at least their length, such that every
    [n_peaks] returns their Python slices [[:n_peaks]]: the first
    [n_peaks] entries for [n_peaks >= 0], and for a negative [n_peaks = -k]
    all but the last [k] entries, without an error. *)
Theorem peak_count_is_a_slice (arg : option ConfigArg) (a : Analyzer)
  (wave : list R) (min_freq : R) (max_freq : option R) (height : R) :
  __init__ arg = Ok a ->
  wave <> [] ->
  exists fs ms,
    length fs = length ms
    /\ (forall n_peaks,
          find_multiple_peaks a wave n_peaks min_freq max_freq height
          = Ok (Py.slice_to fs n_peaks, Py.slice_to ms n_peaks))
    /\ (forall n_peaks, (Z.of_nat (length ms) <= n_peaks)%Z ->
          find_multiple_peaks a wave n_peaks min_freq max_freq height
          = Ok (fs, ms))
    /\ (forall k, (0 <= k)%Z ->
          find_multiple_peaks a wave k min_freq max_freq height
          = Ok (firstn (Z.to_nat k) fs, firstn (Z.to_nat k) ms))
    /\ (forall k, (0 < k)%Z ->
          find_multiple_peaks a wave (- k) min_freq max_freq height
          = Ok (firstn (length fs - Z.to_nat k) fs,
                firstn (length ms - Z.to_nat k) ms)).
Proof.
  intros Hinit Hne.
  destruct (init_ok _ Hinit) as (_ & _ & _ & Hnf1).
  destruct (compute_spectrum_normalized a Hne Hnf1)
    as (raw & mx & _ & _ & Hm).
  set (m := if Rltb 0 mx then map (fun x => x / mx) raw else raw) in Hm.
  set (fr := freq_range a min_freq max_freq).
  set (sr := spectrum_range a m min_freq max_freq).
  set (peaks := Scipy.find_peaks sr height).
  set (order := rev (Np.argsort (Py.take 0 sr peaks))).
  set (idx := Py.take 0%nat peaks order).
  assert (forall n, find_multiple_peaks a wave n min_freq max_freq height
                    = Ok (Py.slice_to (Py.take 0 fr idx) n,
                          Py.slice_to (Py.take 0 sr idx) n)) as Hall.
  { intros n.
    rewrite (@find_multiple_peaks_ranked a wave m n min_freq max_freq height Hm).
    fold fr sr. unfold ranked_peaks. cbv zeta. fold peaks order.
    now rewrite !take_slice_to. }
  exists (Py.take 0 fr idx), (Py.take 0 sr idx).
  split; [unfold Py.take; now rewrite !length_map|].
  split; [exact Hall|]. split; [|split].
  - intros n Hn. rewrite Hall. rewrite !slice_to_all; [reflexivity | exact Hn |].
    unfold Py.take in *. now rewrite length_map in *.
  - intros k Hk. rewrite Hall. now rewrite !slice_to_nonneg.
  - intros k Hk. rewrite Hall. unfold Py.slice_to.
    replace (- k <? 0)%Z with true by (symmetry; apply Z.ltb_lt; lia).
    now rewrite Z.opp_involutive.
Qed.

End PeakCount.

(** ** The dominant frequency and its bin *)

Section DominantBin.

Import WaveformAnalyzer.

(** X21: what [find_dominant_frequency] returns for every wave of
    [n_samples] samples on a valid grid.  The result is [(0, 0)] exactly
    when the frequency sub-range is empty.  Otherwise the magnitude is the
    largest raw magnitude among the bins [min_idx .. min_idx +
    len(freq_range) - 1], read at some bin [k], and the frequency is
    [freq[k + 1]], one bin spacing above the frequency of that bin; the
    frequency is at least [min_freq], below [max_freq] when one is given,
    and at least two bin spacings. *)
Theorem dominant_frequency_bin_offset (arg : option ConfigArg) (a : Analyzer)
  (wave : list R) (min_freq : R) (max_freq : option R) :
  valid_config (effective_config arg) ->
  __init__ arg = Ok a ->
  Z.of_nat (length wave) = n_samples (config a) ->
  exists raw spacing f v,
    compute_spectrum a wave false = Ok raw
    /\ spacing = 1 / (IZR (n_samples (config a)) * dt a)
    /\ 0 < spacing
    /\ find_dominant_frequency a wave min_freq max_freq = Ok (f, v)
    /\ ((f, v) = (0, 0) <-> freq_range a min_freq max_freq = [])
    /\ (freq_range a min_freq max_freq <> [] ->
        exists k,
          (min_idx a min_freq <= k)%nat
          /\ (k + 1 < length (freq a))%nat
          /\ v = nth k raw 0
          /\ f = nth (k + 1) (freq a) 0
          /\ f = nth k (freq a) 0 + spacing
          /\ 2 * spacing <= f
          /\ min_freq <= f
          /\ (forall top, max_freq = Some top -> f < top)
          /\ (forall q, (min_idx a min_freq <= q)%nat ->
                (q < min_idx a min_freq + length (freq_range a min_freq max_freq))%nat ->
                nth q raw 0 <= v)).
Proof.
  intros Hv Hinit Hlen.
  destruct (dominant_frequency_shape arg wave min_freq max_freq Hv Hinit Hlen)
    as (raw & lo & fr & Hraw & -> & -> & Hlo & Hempty & Hsome).
  destruct (init_valid arg Hv Hinit)
    as (val & m & Hval & Hm1 & Em & _ & _ & _ & Eval & Hf & Hfp).
  destruct (grid_tail arg Hv Hinit) as (Htl & Hfl & Hfpl).
  exists raw, val.
  destruct (freq_range a min_freq max_freq) as [|f0 fr'] eqn:Efr.
  - exists 0, 0. split; [exact Hraw|]. split; [exact Eval|].
    split; [exact Hval|]. split; [now apply Hempty|].
    split; [tauto|]. intros H. contradiction.
  - destruct (Hsome ltac:(discriminate)) as (p & Hp & Hres & Hmax & _).
    set (lo := min_idx a min_freq) in *.
    assert (p < length (freq_range a min_freq max_freq))%nat as Hp'
        by (rewrite Efr; exact Hp).
    destruct (freq_range_bounds arg min_freq max_freq Hv Hinit Hp')
      as (Hnth & Hrange & Hmin & Hmaxf).
    fold lo in Hnth, Hrange.
    assert (nth p (freq_range a min_freq max_freq) 0
            = nth (lo + p + 1) (freq a) 0) as Hfreq.
    { rewrite Hnth, Htl, nth_tl. f_equal. lia. }
    assert (lo + p + 1 < length (freq a))%nat as Hin by lia.
    assert (nth (lo + p + 1) (freq a) 0 = INR (lo + p + 1) * val) as E1.
    { rewrite Hf. rewrite Hf, bins_length in Hin.
      rewrite bins_nth by lia. f_equal. }
    assert (nth (lo + p) (freq a) 0 = INR (lo + p) * val) as E0.
    { rewrite Hf. rewrite Hf, bins_length in Hin.
      rewrite bins_nth by lia. f_equal. }
    do 2 eexists. split; [exact Hraw|]. split; [exact Eval|].
    split; [exact Hval|]. split; [exact Hres|].
    assert (2 * val <= nth (lo + p + 1) (freq a) 0) as Htwo.
    { rewrite E1. replace (lo + p + 1)%nat with (S (S (lo + p - 1))) by lia.
      rewrite !S_INR. pose proof (pos_INR (lo + p - 1)). nra. }
    split.
    { split; [|discriminate]. intros [= E _]. lra. }
    intros _. exists (lo + p)%nat.
    split; [lia|]. split; [exact Hin|]. split; [reflexivity|].
    split; [reflexivity|]. split.
    { rewrite E1, E0. rewrite plus_INR. simpl INR. ring. }
    split; [exact Htwo|]. rewrite <- Hfreq, <- Efr.
    split; [exact Hmin|]. split; [exact Hmaxf|].
    intros q Hq1 Hq2. replace q with (lo + (q - lo))%nat by lia.
    apply Hmax. cbn [length] in *. rewrite Efr in Hq2. cbn [length] in Hq2. lia.
Qed.

End DominantBin.

(** ** Every peak is reported *)

Section PeakCompleteness.

Import WaveformAnalyzer.

(** The outer loop reports the midpoint of every run it has not passed. *)
Lemma maxima_loop_complete (fuel : nat) (x : list R) (i l r : nat) :
  (1 <= i)%nat -> (i <= l)%nat -> (l <= r)%nat -> (r + 1 < length x)%nat ->
  (l - i < fuel)%nat ->
  (forall k, (l <= k)%nat -> (k <= r)%nat -> nth k x 0 = nth l x 0) ->
  nth (l - 1) x 0 < nth l x 0 ->
  nth (r + 1) x 0 < nth l x 0 ->
  In ((l + r) / 2)%nat (Scipy.maxima_loop fuel x i (length x - 1)).
Proof.
  intros Hi Hil Hlr Hr Hfuel Heq Hbefore Hafter.
  revert i Hi Hil Hfuel.
  induction fuel as [|fuel IH]; intros i Hi Hil Hfuel; [lia|].
  cbn [Scipy.maxima_loop].
  replace (i <? length x - 1)%nat with true
    by (symmetry; apply Nat.ltb_lt; lia).
  pose proof (scan_ahead_spec (length x) x (nth i x 0) (i + 1) (length x - 1))
    as (Hs1 & Hs2 & Hs3).
  specialize (Hs2 ltac:(lia)).
  pose proof (@scan_ahead_exit (length x) x (nth i x 0) (i + 1) (length x - 1)
                ltac:(lia)) as Hexit.
  cbv zeta in Hexit.
  set (s := Scipy.scan_ahead (length x) x (nth i x 0) (i + 1) (length x - 1)) in *.
  destruct (Nat.eq_dec i l) as [->|Hne].
  - rewrite (Rltb_true Hbefore).
    assert (s = r + 1)%nat as Es.
    { destruct (Nat.lt_trichotomy s (r + 1)) as [Hlt|[E|Hgt]]; [|exact E|].
      - exfalso.
        replace (s <? length x - 1)%nat with true in Hexit
          by (symmetry; apply Nat.ltb_lt; lia).
        rewrite (Reqb_true (Heq s ltac:(lia) ltac:(lia))) in Hexit.
        discriminate.
      - exfalso. specialize (Hs3 (r + 1)%nat ltac:(lia) Hgt). lra. }
    rewrite Es, (Rltb_true Hafter). left. f_equal. lia.
  - assert (forall j, (i < j)%nat -> (j <= l)%nat -> (l - j < fuel)%nat) as Hf
        by (intros; lia).
    destruct (Rltb (nth (i - 1) x 0) (nth i x 0)) eqn:Hup;
      [|apply IH; lia].
    destruct (Rltb (nth s x 0) (nth i x 0)) eqn:Hdown; [|apply IH; lia].
    apply Rltb_spec in Hdown. right.
    assert (s + 1 <= l)%nat as Hsl.
    { destruct (le_lt_dec (s + 1) l) as [H|H]; [exact H|]. exfalso.
      destruct (Nat.eq_dec l s) as [E|E].
      - subst s. rewrite <- E in Hdown.
        destruct (Nat.eq_dec (l - 1) i) as [E'|E'].
        + rewrite E' in Hbefore. lra.
        + rewrite (Hs3 (l - 1)%nat ltac:(lia) ltac:(lia)) in Hbefore. lra.
      - assert (nth l x 0 = nth i x 0) as E1 by (apply Hs3; lia).
        destruct (Nat.eq_dec (l - 1) i) as [E'|E'].
        + rewrite E' in Hbefore. lra.
        + rewrite (Hs3 (l - 1)%nat ltac:(lia) ltac:(lia)) in Hbefore. lra. }
    apply IH; lia.
Qed.

Lemma local_maxima_complete (x : list R) (p : nat) :
  plateau_peak x p -> In p (Scipy.local_maxima_1d x).
Proof.
  intros (l & r & Hl & Hlr & Hr & -> & Heq & Hbefore & Hafter).
  unfold Scipy.local_maxima_1d.
  apply maxima_loop_complete; try assumption; lia.
Qed.

(** The peak detection reports exactly the plateau midpoints that reach
    [height]. *)
Lemma find_peaks_exact (x : list R) (height : R) (p : nat) :
  In p (Scipy.find_peaks x height)
  <-> plateau_peak x p /\ height <= nth p x 0.
Proof.
  split; [apply find_peaks_sound|].
  intros [Hp Hh]. unfold Scipy.find_peaks. apply filter_In.
  split; [now apply local_maxima_complete | now apply Rleb_true].
Qed.

Lemma maxima_loop_count (fuel : nat) (x : list R) (i i_max : nat) :
  (length (Scipy.maxima_loop fuel x i i_max) <= fuel)%nat.
Proof.
  revert i. induction fuel as [|fuel IH]; intros i; [simpl; lia|].
  cbn [Scipy.maxima_loop].
  destruct (i <? i_max)%nat; [|simpl; lia].
  destruct (Rltb _ _).
  - cbv zeta. destruct (Rltb _ _).
    + cbn [length]. apply le_n_S, IH.
    + apply Nat.le_trans with fuel; [apply IH | lia].
  - apply Nat.le_trans with fuel; [apply IH | lia].
Qed.

Lemma find_peaks_count (x : list R) (height : R) :
  (length (Scipy.find_peaks x height) <= length x)%nat.
Proof.
  unfold Scipy.find_peaks, Scipy.local_maxima_1d.
  eapply Nat.le_trans; [apply filter_length_le | apply maxima_loop_count].
Qed.

Lemma ranked_peaks_all (sr : list R) (n_peaks : Z) (height : R) (p : nat) :
  (Z.of_nat (length sr) <= n_peaks)%Z ->
  In p (ranked_peaks sr n_peaks height) <-> In p (Scipy.find_peaks sr height).
Proof.
  intros Hn. split.
  - intros Hin. destruct (ranked_peaks_spec sr n_peaks height) as (Hall & _).
    rewrite Forall_forall in Hall. now apply Hall.
  - intros Hin. unfold ranked_peaks. cbv zeta.
    set (peaks := Scipy.find_peaks sr height) in *.
    set (vals := Py.take 0 sr peaks).
    assert (length vals = length peaks) as Hvl
        by (subst vals; unfold Py.take; apply length_map).
    pose proof (find_peaks_count sr height) as Hcount. fold peaks in Hcount.
    rewrite slice_to_all
      by (rewrite length_rev, argsort_length, Hvl; lia).
    apply In_nth with (d := 0%nat) in Hin. destruct Hin as (s & Hs & <-).
    unfold Py.take. apply in_map_iff. exists s. split; [reflexivity|].
    apply -> in_rev.
    apply (Permutation_in _ (Permutation_sym (argsort_perm vals))).
    apply in_seq. lia.
Qed.

Lemma maxima_loop_nodup (fuel : nat) (x : list R) (i i_max : nat) :
  (1 <= i)%nat -> (i_max < length x)%nat ->
  NoDup (Scipy.maxima_loop fuel x i i_max).
Proof.
  revert i. induction fuel as [|fuel IH]; intros i Hi Hmax; [constructor|].
  cbn [Scipy.maxima_loop].
  destruct (i <? i_max)%nat eqn:Hlt; [|constructor].
  apply Nat.ltb_lt in Hlt.
  destruct (Rltb (nth (i - 1) x 0) (nth i x 0)); [|apply IH; lia].
  pose proof (scan_ahead_spec (length x) x (nth i x 0) (i + 1) i_max)
    as (Hs1 & _).
  cbv zeta.
  set (s := Scipy.scan_ahead (length x) x (nth i x 0) (i + 1) i_max) in *.
  destruct (Rltb (nth s x 0) (nth i x 0)); [|apply IH; lia].
  constructor; [|apply IH; lia].
  intros Hin. apply maxima_loop_sound in Hin; [|lia|assumption].
  destruct Hin as [_ Hle].
  assert ((i + (s - 1)) / 2 <= s - 1)%nat
    by (apply Nat.Div0.div_le_upper_bound; lia).
  lia.
Qed.

Lemma find_peaks_nodup (x : list R) (height : R) :
  NoDup (Scipy.find_peaks x height).
Proof.
  unfold Scipy.find_peaks, Scipy.local_maxima_1d. apply NoDup_filter.
  destruct x as [|x0 x]; [constructor|].
  apply maxima_loop_nodup; simpl; lia.
Qed.

Lemma firstn_nodup {A : Type} (k : nat) (l : list A) :
  NoDup l -> NoDup (firstn k l).
Proof.
  intros H. rewrite <- (firstn_skipn k l) in H.
  now apply NoDup_app_remove_r in H.
Qed.

Lemma ranked_peaks_nodup (sr : list R) (n_peaks : Z) (height : R) :
  NoDup (ranked_peaks sr n_peaks height).
Proof.
  unfold ranked_peaks. cbv zeta.
  set (peaks := Scipy.find_peaks sr height).
  set (vals := Py.take 0 sr peaks).
  set (si := Py.slice_to (rev (Np.argsort vals)) n_peaks).
  assert (length vals = length peaks) as Hvl
      by (subst vals; unfold Py.take; apply length_map).
  assert (NoDup si) as Hnd.
  { subst si. unfold Py.slice_to. destruct (n_peaks <? 0)%Z;
      apply firstn_nodup, NoDup_rev;
      apply (Permutation_NoDup (Permutation_sym (argsort_perm vals)));
      apply seq_NoDup. }
  assert (forall s, In s si -> (s < length peaks)%nat) as Hrange.
  { intros s Hs. subst si. apply slice_to_incl in Hs.
    apply in_rev, argsort_in_range in Hs. lia. }
  unfold Py.take. clearbody si.
  induction Hnd as [|s si Hnotin Hnd IH]; [constructor|].
  cbn [map]. constructor.
  - intros Hin. apply in_map_iff in Hin. destruct Hin as (s' & E & Hs').
    apply (proj1 (NoDup_nth peaks 0%nat) (find_peaks_nodup sr height)) in E.
    + subst s'. contradiction.
    + apply Hrange. now right.
    + apply Hrange. now left.
  - apply IH. intros s' Hs'. apply Hrange. now right.
Qed.

(** X22: no peak is reported twice, and with [n_peaks] at least the
    length of the restricted spectrum none is left out: the reported
    positions are exactly the middles of the runs of equal magnitudes that
    are strictly above both neighbours of the run and reach [height]. *)
Theorem every_peak_is_reported (arg : option ConfigArg) (a : Analyzer)
  (wave : list R) (n_peaks : Z) (min_freq : R) (max_freq : option R)
  (height : R) :
  __init__ arg = Ok a ->
  wave <> [] ->
  exists m idx,
    compute_spectrum a wave true = Ok m
    /\ find_multiple_peaks a wave n_peaks min_freq max_freq height
       = Ok (Py.take 0 (freq_range a min_freq max_freq) idx,
             Py.take 0 (spectrum_range a m min_freq max_freq) idx)
    /\ NoDup idx
    /\ ((Z.of_nat (length (spectrum_range a m min_freq max_freq)) <= n_peaks)%Z ->
        forall p,
          In p idx
          <-> plateau_peak (spectrum_range a m min_freq max_freq) p
              /\ height <= nth p (spectrum_range a m min_freq max_freq) 0).
Proof.
  intros Hinit Hne.
  destruct (init_ok _ Hinit) as (_ & _ & _ & Hnf1).
  destruct (compute_spectrum_normalized a Hne Hnf1)
    as (raw & mx & _ & _ & Hm).
  eexists. eexists. split; [exact Hm|].
  split; [now apply find_multiple_peaks_ranked|].
  split; [apply ranked_peaks_nodup|].
  intros Hn p. rewrite ranked_peaks_all by exact Hn.
  apply find_peaks_exact.
Qed.

End PeakCompleteness.

(** ** Waveforms on the grid of the analyzer *)

Section OnTheGrid.

Import WaveformAnalyzer.

Local Open Scope string_scope.




Lemma floor_point (r : R) :
  0 <= r -> exists i, INR i <= r < INR i + 1.
Proof.
  intros Hr. destruct (archimed r) as [Hup Hlow].
  assert (0 <= up r - 1)%Z as Hz.
  { assert (0 < up r)%Z by (apply lt_IZR; lra). lia. }
  exists (Z.to_nat (up r - 1)).
  rewrite INR_IZR_INZ, Z2Nat.id by assumption.
  rewrite minus_IZR. lra.
Qed.

(** X24: the statistics of the triangle wave sampled on the time axis of
    the analyzer, for [0 < width <= 2 t_max]: the minimum is 0, the maximum
    lies in (1 - 2 dt / width, 1], and the peak-to-peak value is the
    maximum. *)
Theorem triangle_wave_statistics (arg : option ConfigArg) (a : Analyzer)
  (width : R) :
  valid_config (effective_config arg) ->
  __init__ arg = Ok a ->
  0 < width <= 2 * t_max (config a) ->
  exists stats mx ptp,
    compute_statistics a (WaveformGenerator.triangle_wave (t a) width) = Ok stats
    /\ lookup "min" stats = Some 0
    /\ lookup "max" stats = Some mx
    /\ lookup "peak_to_peak" stats = Some ptp
    /\ ptp = mx
    /\ 1 - 2 * dt a / width < mx <= 1.
Proof.
  intros Hv Hinit [Hw0 Hw1].
  destruct (time_grid arg Hinit) as [Ht Hdt].
  destruct (init_valid arg Hv Hinit)
    as (val & m & _ & _ & _ & Hc & _ & Edt & _).
  destruct (init_ok _ Hinit) as (Hn & _).
  assert (0 < t_max (config a)) as Htm by (rewrite Hc; apply Hv).
  assert (0 < dt a) as Hd.
  { rewrite Edt. apply Rdiv_lt_0_compat; [assumption | apply IZR_lt; lia]. }
  set (wave := WaveformGenerator.triangle_wave (t a) width).
  assert (samplewise (fun x y => 0 <= y <= 1
                                 /\ (x <= 0 \/ width <= x -> y = 0)
                                 /\ (x = width / 2 -> y = 1))
                     (t a) wave) as [Hlen Hshape].
  { subst wave. rewrite triangle_pointwise. apply samplewise_map.
    intros x. apply (@triangle_values width x Hw0). }
  assert (length (t a) = Z.to_nat (n_samples (config a))) as Htl
      by (rewrite Ht; now rewrite length_map, length_seq).
  assert (forall i, (i < length (t a))%nat -> nth i (t a) 0 = INR i * dt a) as Hti.
  { intros i Hi. rewrite Ht. rewrite Ht, length_map, length_seq in Hi.
    rewrite (nth_map_in _ _ 0%nat) by (now rewrite length_seq).
    now rewrite seq_nth by assumption. }
  unfold compute_statistics.
  destruct (Np.min wave) as [mn|e] eqn:Hmin;
    [|destruct wave; [simpl in Hlen; lia | discriminate]].
  destruct (Np.max wave) as [mx|e] eqn:Hmax;
    [|destruct wave; [simpl in Hlen; lia | discriminate]].
  cbn [bind]. apply min_least in Hmin. apply max_greatest in Hmax.
  destruct Hmin as [Hmin_in Hmin_le]. destruct Hmax as [Hmax_in Hmax_ge].
  assert (forall y, In y wave -> 0 <= y <= 1) as Hrange.
  { intros y Hy. apply In_nth with (d := 0) in Hy. destruct Hy as (i & Hi & <-).
    apply Hshape. lia. }
  assert (mn = 0) as ->.
  { assert (nth 0 wave 0 = 0) as E0.
    { apply (Hshape 0%nat ltac:(lia)). left. rewrite Hti by lia. simpl. lra. }
    assert (In (nth 0 wave 0) wave) as Hin0 by (apply nth_In; lia).
    specialize (Hmin_le _ Hin0). specialize (Hrange _ Hmin_in). lra. }
  do 3 eexists. split; [reflexivity|]. do 3 (split; [reflexivity|]).
  split; [ring|]. split; [|now apply Hrange].
  assert (0 <= width / (2 * dt a)) as Hr.
  { apply Rmult_le_pos; [lra|]. apply Rlt_le, Rinv_0_lt_compat. lra. }
  destruct (floor_point Hr) as (i & Hi1 & Hi2).
  assert (INR i * dt a <= width / 2 < INR i * dt a + dt a) as [Hx1 Hx2].
  { assert (width / 2 = width / (2 * dt a) * dt a) as -> by (field; lra).
    split; nra. }
  assert (i < length (t a))%nat as Hil.
  { rewrite Htl. apply INR_lt. rewrite (INR_IZR_INZ (Z.to_nat _)), Z2Nat.id by lia.
    assert (INR i * dt a <= dt a * IZR (n_samples (config a) - 1)) by lra.
    rewrite minus_IZR in *. nra. }
  assert (In (nth i wave 0) wave) as Hin by (apply nth_In; lia).
  apply Rlt_le_trans with (nth i wave 0); [|now apply Hmax_ge].
  subst wave. rewrite triangle_pointwise.
  rewrite (nth_map_in _ _ 0) by assumption. rewrite Hti by assumption.
  pose proof (pos_INR i) as Hi0.
  replace (WaveformGenerator.left_open (width / 2) width (INR i * dt a))
    with false
    by (symmetry; unfold WaveformGenerator.left_open;
        now rewrite (Rltb_false (x := width / 2) (y := INR i * dt a))).
  replace (WaveformGenerator.closed 0 (width / 2) (INR i * dt a)) with true
    by (symmetry; apply closed_spec; split; nra).
  apply Rmult_lt_reg_r with width; [assumption|].
  replace ((1 - 2 * dt a / width) * width) with (width - 2 * dt a)
    by (field; lra).
  replace (2 * (INR i * dt a) / width * width) with (2 * (INR i * dt a))
    by (field; lra).
  lra.
Qed.

Lemma generated_lengths (g : WaveformGenerator.Generator) (ts : list R)
  (width : R) (wave : list R) :
  In wave [ WaveformGenerator.half_sine_wave ts width;
            WaveformGenerator.differential_pulse g ts width;
            WaveformGenerator.square_wave ts width;
            WaveformGenerator.triangle_wave ts width;
            WaveformGenerator.gaussian_pulse ts width ] ->
  length wave = length ts.
Proof.
  intros [<-|[<-|[<-|[<-|[<-|[]]]]]].
  - rewrite half_sine_pointwise by exact g. apply length_map.
  - rewrite differential_pointwise. apply length_map.
  - rewrite square_pointwise. apply length_map.
  - rewrite triangle_pointwise. apply length_map.
  - unfold WaveformGenerator.gaussian_pulse. cbv zeta. apply length_map.
Qed.

(** X25: each of the five built-in waveforms sampled on the time axis of
    the analyzer has [n_samples] samples, whatever the width and the
    configuration of the generator, and every method of the analyzer
    returns normally on it, whatever its other arguments.  Only the number
    of samples enters: the statement does not depend on their values. *)
Theorem generated_wave_is_analyzable (arg : option ConfigArg) (a : Analyzer)
  (g : WaveformGenerator.Generator) (width : R) (wave : list R)
  (n_peaks : Z) (min_freq : R) (max_freq : option R) (height threshold : R)
  (normalize : bool) :
  valid_config (effective_config arg) ->
  __init__ arg = Ok a ->
  In wave [ WaveformGenerator.half_sine_wave (t a) width;
            WaveformGenerator.differential_pulse g (t a) width;
            WaveformGenerator.square_wave (t a) width;
            WaveformGenerator.triangle_wave (t a) width;
            WaveformGenerator.gaussian_pulse (t a) width ] ->
  Z.of_nat (length wave) = n_samples (config a)
  /\ (exists m, compute_spectrum a wave normalize = Ok m
                /\ length m = Z.to_nat (n_samples (config a) / 2))
  /\ (exists r, find_dominant_frequency a wave min_freq max_freq = Ok r)
  /\ (exists r, find_multiple_peaks a wave n_peaks min_freq max_freq height = Ok r)
  /\ (exists r, compute_bandwidth a wave threshold = Ok r)
  /\ (exists s, compute_statistics a wave = Ok s).
Proof.
  intros Hv Hinit Hin.
  destruct (time_grid arg Hinit) as [Ht _].
  destruct (init_ok _ Hinit) as (Hn & _).
  assert (Z.of_nat (length wave) = n_samples (config a)) as Hlen.
  { rewrite (@generated_lengths g (t a) width wave Hin), Ht, length_map, length_seq. lia. }
  split; [exact Hlen|].
  destruct (normalized_bounded arg wave Hinit Hlen) as (m & Hm & Hml & _).
  destruct (raw_spectrum_full arg wave Hinit Hlen) as (raw & Hraw & Hrl & _).
  split.
  { destruct normalize; eexists; split; eassumption. }
  split.
  { destruct (dominant_frequency_shape arg wave min_freq max_freq Hv Hinit Hlen)
      as (raw' & lo & fr & _ & _ & -> & _ & Hempty & Hsome).
    destruct (freq_range a min_freq max_freq) as [|f0 fr'] eqn:E.
    - eexists. now apply Hempty.
    - destruct (Hsome ltac:(discriminate)) as (p & _ & Hres & _).
      eexists. exact Hres. }
  split; [eexists; apply (@find_multiple_peaks_ranked a wave m n_peaks min_freq
                             max_freq height Hm)|].
  split; [apply (@compute_bandwidth_returns a wave m threshold Hm)|].
  unfold compute_statistics. destruct wave as [|x w]; [simpl in Hlen; lia|].
  cbn [Np.min Np.max bind]. eexists; reflexivity.
Qed.

End OnTheGrid.

(** ** The tables of [main.py] *)

Section Tables.

Import Main.

Local Open Scope string_scope.

Lemma dict_get_in {V : Type} (d : list (string * V)) (key : string) :
  dict_get d key <> None <-> In key (map fst d).
Proof.
  induction d as [|[k v] d IH]; cbn [dict_get map fst In].
  - split; [congruence | contradiction].
  - destruct (String.eqb_spec k key) as [E|E].
    + split; [intros _; now left | discriminate].
    + rewrite IH. split; [now right | intros [H|H]; [contradiction | exact H]].
Qed.

Lemma get_wave_func_domain (has_simpeg : bool) (wave_type : string) :
  get_wave_func has_simpeg wave_type <> None
  <-> In wave_type (compare_wave_types has_simpeg).
Proof.
  unfold get_wave_func. cbv zeta. rewrite dict_get_in.
  destruct has_simpeg; reflexivity.
Qed.

Lemma get_wave_name_domain (wave_type : string) :
  get_wave_name wave_type <> None <-> In wave_type wave_type_choices.
Proof. unfold get_wave_name. cbv zeta. now rewrite dict_get_in. Qed.

Lemma resolved_has_name (has_simpeg : bool) (wave_type : string) :
  get_wave_func has_simpeg wave_type <> None ->
  get_wave_name wave_type <> None.
Proof.
  rewrite get_wave_func_domain, get_wave_name_domain.
  destruct has_simpeg; cbn [compare_wave_types app];
    unfold wave_type_choices; cbn [In]; tauto.
Qed.

(** X26: [get_wave_func] resolves exactly the types that the compare
    mode lists, [get_wave_name] exactly the choices of [--wave_type], and
    every resolved type has a name; a choice of [--wave_type] is left
    unresolved exactly when it is one of the three SimPEG types and SimPEG
    is not installed. *)
Theorem wave_type_resolution (has_simpeg : bool) (wave_type : string) :
  (get_wave_func has_simpeg wave_type <> None
   <-> In wave_type (compare_wave_types has_simpeg))
  /\ (get_wave_name wave_type <> None <-> In wave_type wave_type_choices)
  /\ (get_wave_func has_simpeg wave_type <> None ->
      get_wave_name wave_type <> None)
  /\ (In wave_type wave_type_choices /\ get_wave_func has_simpeg wave_type = None
      <-> has_simpeg = false
          /\ In wave_type ["trapezoid"; "simpeg_diff"; "step_off"]).
Proof.
  split; [apply get_wave_func_domain|]. split; [apply get_wave_name_domain|].
  split; [apply resolved_has_name|].
  split.
  - intros [Hc Hnone].
    assert (~ In wave_type (compare_wave_types has_simpeg)) as Hnot
        by (rewrite <- get_wave_func_domain; congruence).
    destruct has_simpeg; cbn [compare_wave_types app] in Hnot;
      unfold wave_type_choices in Hc; cbn [In] in *; tauto.
  - intros [-> Hin]. split.
    + unfold wave_type_choices. cbn [In] in *. tauto.
    + cbn [In] in Hin. destruct Hin as [<-|[<-|[<-|[]]]]; reflexivity.
Qed.

Lemma collect_spec (has_simpeg : bool) (wave_types : list string)
  (funcs : list wave_method) (names : list (option string)) :
  exists funcs' names',
    collect has_simpeg wave_types funcs names = ((funcs ++ funcs')%list, (names ++ names')%list)
    /\ length funcs' = length names'
    /\ Forall (fun n => n <> None) names'
    /\ (Forall (fun w => get_wave_func has_simpeg w <> None) wave_types ->
        map Some funcs' = map (get_wave_func has_simpeg) wave_types
        /\ names' = map get_wave_name wave_types).
Proof.
  revert funcs names.
  induction wave_types as [|w ws IH]; intros funcs names.
  - exists [], []. cbn [collect]. rewrite !app_nil_r.
    repeat split; constructor.
  - cbn [collect].
    destruct (get_wave_func has_simpeg w) as [f|] eqn:Ef.
    + destruct (IH (funcs ++ [f])%list (names ++ [get_wave_name w])%list)
        as (fs & ns & Hc & Hl & Hall & Hfull).
      exists (f :: fs), (get_wave_name w :: ns).
      rewrite Hc, <- !app_assoc. split; [reflexivity|].
      split; [simpl; now rewrite Hl|]. split.
      * constructor; [|exact Hall].
        apply (@resolved_has_name has_simpeg w). congruence.
      * intros Hres. apply Forall_inv_tail in Hres.
        destruct (Hfull Hres) as [E1 E2].
        cbn [map]. rewrite Ef, E1, E2. now split.
    + destruct (IH funcs names) as (fs & ns & Hc & Hl & Hall & Hfull).
      exists fs, ns. split; [exact Hc|]. split; [exact Hl|].
      split; [exact Hall|]. intros Hres. apply Forall_inv in Hres. congruence.
Qed.

(** X27: the loop of the compare mode collects as many names as
    functions and no missing name ([None]); run on the list of the compare
    mode it skips nothing: one function and one name per type, in the order
    of the list. *)
Theorem compare_mode_collection (has_simpeg : bool) (wave_types : list string) :
  exists funcs names,
    collect has_simpeg wave_types [] [] = (funcs, names)
    /\ length funcs = length names
    /\ Forall (fun n => n <> None) names
    /\ (wave_types = compare_wave_types has_simpeg ->
        length funcs = length wave_types
        /\ map Some funcs = map (get_wave_func has_simpeg) wave_types
        /\ names = map get_wave_name wave_types).
Proof.
  destruct (collect_spec has_simpeg wave_types [] [])
    as (fs & ns & Hc & Hl & Hall & Hfull).
  exists fs, ns. split; [exact Hc|]. split; [exact Hl|]. split; [exact Hall|].
  intros ->.
  destruct Hfull as [E1 E2].
  { apply Forall_forall. intros w Hw. now apply get_wave_func_domain. }
  split; [|now split].
  apply (f_equal (@length _)) in E1. now rewrite !length_map in E1.
Qed.

End Tables.

(** ** Instances of the further properties and of claim C5 *)

Section Instances.

Import WaveformAnalyzer Inputs.

Lemma compute_spectrum_any_length_witness :
  exists a,
    __init__ sixteen_samples = Ok a
    /\ (alternating <> [] ->
        (exists m,
           compute_spectrum a alternating true = Ok m
           /\ length m
              = Nat.min (length alternating)
                        (Z.to_nat (n_samples (config a) / 2))
           /\ compute_spectrum a alternating false
              = Ok (raw_magnitude a (map (Scipy.dft_bin alternating)
                                         (seq 0 (length alternating)))))
        /\ (exists r,
              find_multiple_peaks a alternating 3 5 None (1 / 10) = Ok r)
        /\ (exists r, compute_bandwidth a alternating (4 / 5) = Ok r)
        /\ (valid_config (effective_config sixteen_samples) ->
            (freq_range a 5 None = [] ->
             find_dominant_frequency a alternating 5 None = Ok (0, 0))
            /\ (freq_range a 5 None <> [] ->
                (length alternating <= min_idx a 5)%nat ->
                find_dominant_frequency a alternating 5 None = Raise ValueError)
            /\ (freq_range a 5 None <> [] ->
                (min_idx a 5 < length alternating)%nat ->
                exists r, find_dominant_frequency a alternating 5 None = Ok r)))
    /\ (alternating = [] ->
        compute_spectrum a alternating true = Raise ValueError
        /\ find_dominant_frequency a alternating 5 None = Raise ValueError
        /\ find_multiple_peaks a alternating 3 5 None (1 / 10)
           = Raise ValueError
        /\ compute_bandwidth a alternating (4 / 5) = Raise ValueError).
Proof.
  destruct grid_sixteen as (a & Ha & _).
  exists a. split; [exact Ha|].
  exact (@compute_spectrum_any_length sixteen_samples a alternating true 3 5
           None (1 / 10) (4 / 5) Ha).
Defined.

Lemma triangle_wave_shape_witness :
  0 < 2
  /\ samplewise (fun x y => 0 <= y <= 1
                            /\ (x <= 0 \/ 2 <= x -> y = 0)
                            /\ (x = 2 / 2 -> y = 1))
                [0; 1; 3] (WaveformGenerator.triangle_wave [0; 1; 3] 2).
Proof.
  assert (0 < 2) as Hw by lra.
  split; [exact Hw|].
  exact (@triangle_wave_shape [0; 1; 3] 2 Hw).
Defined.

Lemma gaussian_pulse_shape_witness :
  2 <> 0
  /\ samplewise (fun x y => 0 <= y <= 1 /\ (x = 2 / 2 -> y = 1))
                [0; 1; 3] (WaveformGenerator.gaussian_pulse [0; 1; 3] 2).
Proof.
  assert (2 <> 0) as Hw by lra.
  split; [exact Hw|].
  exact (@gaussian_pulse_shape [0; 1; 3] 2 Hw).
Defined.


Lemma polarity_invariance_witness :
  exists a,
    __init__ sixteen_samples = Ok a
    /\ (forall normalize,
          compute_spectrum a (map Ropp two_tone) normalize
          = compute_spectrum a two_tone normalize)
    /\ (forall min_freq max_freq,
          find_dominant_frequency a (map Ropp two_tone) min_freq max_freq
          = find_dominant_frequency a two_tone min_freq max_freq)
    /\ (forall n_peaks min_freq max_freq height,
          find_multiple_peaks a (map Ropp two_tone) n_peaks min_freq max_freq
            height
          = find_multiple_peaks a two_tone n_peaks min_freq max_freq height)
    /\ (forall threshold,
          compute_bandwidth a (map Ropp two_tone) threshold
          = compute_bandwidth a two_tone threshold)
    /\ compute_energy a (map Ropp two_tone) = compute_energy a two_tone.
Proof.
  destruct grid_sixteen as (a & Ha & _).
  exists a. split; [exact Ha|].
  exact (@polarity_invariance sixteen_samples a two_tone Ha).
Defined.






Lemma wave_length_failures_witness :
  valid_config (effective_config sixteen_samples)
  /\ exists a,
       __init__ sixteen_samples = Ok a
       /\ (alternating = [] ->
           find_dominant_frequency a alternating 5 None = Raise ValueError
           /\ find_multiple_peaks a alternating 3 5 None (1 / 10) = Raise ValueError
           /\ compute_bandwidth a alternating (4 / 5) = Raise ValueError
           /\ compute_statistics a alternating = Raise ValueError)
       /\ (alternating <> [] ->
           (exists r, find_multiple_peaks a alternating 3 5 None (1 / 10) = Ok r)
           /\ (exists r, compute_bandwidth a alternating (4 / 5) = Ok r)
           /\ (exists s, compute_statistics a alternating = Ok s)
           /\ (freq_range a 5 None = [] ->
               find_dominant_frequency a alternating 5 None = Ok (0, 0))
           /\ (freq_range a 5 None <> [] ->
               (length alternating <= min_idx a 5)%nat ->
               find_dominant_frequency a alternating 5 None = Raise ValueError)
           /\ (freq_range a 5 None <> [] ->
               (min_idx a 5 < length alternating)%nat ->
               exists r, find_dominant_frequency a alternating 5 None = Ok r)).
Proof.
  split; [exact valid_sixteen|].
  destruct grid_sixteen as (a & Ha & _).
  exists a. split; [exact Ha|].
  exact (@wave_length_failures sixteen_samples a alternating 3 5 None (1 / 10)
           (4 / 5) valid_sixteen Ha).
Defined.

Lemma silent_wave_witness :
  [0; 0; 0; 0] <> []
  /\ Forall (fun x => x = 0) [0; 0; 0; 0]
  /\ exists a,
       __init__ four_samples = Ok a
       /\ exists m,
            compute_spectrum a [0; 0; 0; 0] false = Ok m
            /\ compute_spectrum a [0; 0; 0; 0] true = Ok m
            /\ Forall (fun x => x = 0) m
            /\ (0 < 4 / 5 -> compute_bandwidth a [0; 0; 0; 0] (4 / 5) = Ok (0, 0, 0))
            /\ find_multiple_peaks a [0; 0; 0; 0] 3 1 None (1 / 10) = Ok ([], [])
            /\ compute_energy a [0; 0; 0; 0] = 0.
Proof.
  assert ([0; 0; 0; 0] <> []) as Hne by discriminate.
  assert (Forall (fun x => x = 0) [0; 0; 0; 0]) as Hz
      by (repeat constructor).
  split; [exact Hne|]. split; [exact Hz|].
  destruct grid_four as (a & Ha & _).
  exists a. split; [exact Ha|].
  exact (@silent_wave four_samples a [0; 0; 0; 0] 3 1 None (1 / 10) (4 / 5)
           Ha Hne Hz).
Defined.

Lemma bandwidth_of_nonpositive_threshold_witness :
  valid_config (effective_config four_samples)
  /\ 0 <= 0
  /\ exists a,
       __init__ four_samples = Ok a
       /\ Z.of_nat (length alternating) = n_samples (config a)
       /\ (4 <= n_samples (config a))%Z
       /\ exists low high,
            compute_bandwidth a alternating 0 = Ok (low, high, high - low)
            /\ low = nth 0 (freq_positive a) 0
            /\ low = nth 1 (freq a) 0
            /\ high = nth (length (freq_positive a) - 1) (freq_positive a) 0
            /\ high = nth (length (freq a) - 1) (freq a) 0
            /\ 0 < low <= high.
Proof.
  split; [exact valid_four|].
  assert (0 <= 0) as Hth by lra.
  split; [exact Hth|].
  destruct grid_four as (a & Ha & Hn & _).
  assert (Z.of_nat (length alternating) = n_samples (config a)) as Hlen
      by (rewrite Hn; reflexivity).
  assert (4 <= n_samples (config a))%Z as Hn4 by (rewrite Hn; lia).
  exists a. split; [exact Ha|]. split; [exact Hlen|]. split; [exact Hn4|].
  exact (@bandwidth_of_nonpositive_threshold four_samples a alternating 0
           valid_four Ha Hlen Hth Hn4).
Defined.

Lemma bandwidth_monotone_witness :
  valid_config (effective_config sixteen_samples)
  /\ 1 / 2 <= 4 / 5
  /\ exists a,
       __init__ sixteen_samples = Ok a
       /\ Z.of_nat (length plateau) = n_samples (config a)
       /\ exists lo1 hi1 bw1 lo2 hi2 bw2,
            compute_bandwidth a plateau (1 / 2) = Ok (lo1, hi1, bw1)
            /\ compute_bandwidth a plateau (4 / 5) = Ok (lo2, hi2, bw2)
            /\ 0 <= bw1 /\ 0 <= bw2 /\ bw2 <= bw1
            /\ ((lo2, hi2, bw2) = (0, 0, 0)
                \/ (0 < lo1 /\ lo1 <= lo2 /\ lo2 <= hi2 /\ hi2 <= hi1)).
Proof.
  split; [exact valid_sixteen|].
  assert (1 / 2 <= 4 / 5) as Hth by lra.
  split; [exact Hth|].
  destruct grid_sixteen as (a & Ha & Hn & _).
  assert (Z.of_nat (length plateau) = n_samples (config a)) as Hlen
      by (rewrite Hn; reflexivity).
  exists a. split; [exact Ha|]. split; [exact Hlen|].
  exact (@bandwidth_monotone sixteen_samples a plateau (1 / 2) (4 / 5)
           valid_sixteen Ha Hlen Hth).
Defined.

Lemma peak_count_is_a_slice_witness :
  plateau <> []
  /\ exists a,
       __init__ sixteen_samples = Ok a
       /\ exists fs ms,
            length fs = length ms
            /\ (forall n_peaks,
                  find_multiple_peaks a plateau n_peaks 1 None (1 / 10)
                  = Ok (Py.slice_to fs n_peaks, Py.slice_to ms n_peaks))
            /\ (forall n_peaks, (Z.of_nat (length ms) <= n_peaks)%Z ->
                  find_multiple_peaks a plateau n_peaks 1 None (1 / 10)
                  = Ok (fs, ms))
            /\ (forall k, (0 <= k)%Z ->
                  find_multiple_peaks a plateau k 1 None (1 / 10)
                  = Ok (firstn (Z.to_nat k) fs, firstn (Z.to_nat k) ms))
            /\ (forall k, (0 < k)%Z ->
                  find_multiple_peaks a plateau (- k) 1 None (1 / 10)
                  = Ok (firstn (length fs - Z.to_nat k) fs,
                        firstn (length ms - Z.to_nat k) ms)).
Proof.
  assert (plateau <> []) as Hne by discriminate.
  split; [exact Hne|].
  destruct grid_sixteen as (a & Ha & _).
  exists a. split; [exact Ha|].
  exact (@peak_count_is_a_slice sixteen_samples a plateau 1 None (1 / 10)
           Ha Hne).
Defined.

Lemma dominant_frequency_bin_offset_witness :
  valid_config (effective_config sixteen_samples)
  /\ exists a,
       __init__ sixteen_samples = Ok a
       /\ Z.of_nat (length two_tone) = n_samples (config a)
       /\ exists raw spacing f v,
            compute_spectrum a two_tone false = Ok raw
            /\ spacing = 1 / (IZR (n_samples (config a)) * dt a)
            /\ 0 < spacing
            /\ find_dominant_frequency a two_tone 1 None = Ok (f, v)
            /\ ((f, v) = (0, 0) <-> freq_range a 1 None = [])
            /\ (freq_range a 1 None <> [] ->
                exists k,
                  (min_idx a 1 <= k)%nat
                  /\ (k + 1 < length (freq a))%nat
                  /\ v = nth k raw 0
                  /\ f = nth (k + 1) (freq a) 0
                  /\ f = nth k (freq a) 0 + spacing
                  /\ 2 * spacing <= f
                  /\ 1 <= f
                  /\ (forall top, @None R = Some top -> f < top)
                  /\ (forall q, (min_idx a 1 <= q)%nat ->
                        (q < min_idx a 1 + length (freq_range a 1 None))%nat ->
                        nth q raw 0 <= v)).
Proof.
  split; [exact valid_sixteen|].
  destruct grid_sixteen as (a & Ha & Hn & _).
  assert (Z.of_nat (length two_tone) = n_samples (config a)) as Hlen
      by (rewrite Hn; reflexivity).
  exists a. split; [exact Ha|]. split; [exact Hlen|].
  exact (@dominant_frequency_bin_offset sixteen_samples a two_tone 1 None
           valid_sixteen Ha Hlen).
Defined.

Lemma every_peak_is_reported_witness :
  plateau <> []
  /\ exists a,
       __init__ sixteen_samples = Ok a
       /\ exists m idx,
            compute_spectrum a plateau true = Ok m
            /\ find_multiple_peaks a plateau 8 1 None (1 / 10)
               = Ok (Py.take 0 (freq_range a 1 None) idx,
                     Py.take 0 (spectrum_range a m 1 None) idx)
            /\ NoDup idx
            /\ ((Z.of_nat (length (spectrum_range a m 1 None)) <= 8)%Z ->
                forall p,
                  In p idx
                  <-> plateau_peak (spectrum_range a m 1 None) p
                      /\ 1 / 10 <= nth p (spectrum_range a m 1 None) 0).
Proof.
  assert (plateau <> []) as Hne by discriminate.
  split; [exact Hne|].
  destruct grid_sixteen as (a & Ha & _).
  exists a. split; [exact Ha|].
  exact (@every_peak_is_reported sixteen_samples a plateau 8 1 None (1 / 10)
           Ha Hne).
Defined.


Lemma triangle_wave_statistics_witness :
  valid_config (effective_config four_samples)
  /\ exists a,
       __init__ four_samples = Ok a
       /\ 0 < 1 <= 2 * t_max (config a)
       /\ exists stats mx ptp,
            compute_statistics a (WaveformGenerator.triangle_wave (t a) 1)
            = Ok stats
            /\ lookup "min" stats = Some 0
            /\ lookup "max" stats = Some mx
            /\ lookup "peak_to_peak" stats = Some ptp
            /\ ptp = mx
            /\ 1 - 2 * dt a / 1 < mx <= 1.
Proof.
  split; [exact valid_four|].
  destruct grid_four as (a & Ha & _).
  assert (0 < 1 <= 2 * t_max (config a)) as Hw.
  { destruct (init_ok _ Ha) as (_ & Hc & _). rewrite Hc. simpl. lra. }
  exists a. split; [exact Ha|]. split; [exact Hw|].
  exact (@triangle_wave_statistics four_samples a 1 valid_four Ha Hw).
Defined.

Lemma generated_wave_is_analyzable_witness :
  valid_config (effective_config four_samples)
  /\ exists a,
       __init__ four_samples = Ok a
       /\ In (WaveformGenerator.differential_pulse
                (WaveformGenerator.__init__ None false) (t a) 1)
             [ WaveformGenerator.half_sine_wave (t a) 1;
               WaveformGenerator.differential_pulse
                 (WaveformGenerator.__init__ None false) (t a) 1;
               WaveformGenerator.square_wave (t a) 1;
               WaveformGenerator.triangle_wave (t a) 1;
               WaveformGenerator.gaussian_pulse (t a) 1 ]
       /\ Z.of_nat (length (WaveformGenerator.differential_pulse
                              (WaveformGenerator.__init__ None false) (t a) 1))
          = n_samples (config a)
       /\ (exists m,
             compute_spectrum a
               (WaveformGenerator.differential_pulse
                  (WaveformGenerator.__init__ None false) (t a) 1) true
             = Ok m
             /\ length m = Z.to_nat (n_samples (config a) / 2))
       /\ (exists r,
             find_dominant_frequency a
               (WaveformGenerator.differential_pulse
                  (WaveformGenerator.__init__ None false) (t a) 1) 1 None
             = Ok r)
       /\ (exists r,
             find_multiple_peaks a
               (WaveformGenerator.differential_pulse
                  (WaveformGenerator.__init__ None false) (t a) 1) 3 1 None
               (1 / 10)
             = Ok r)
       /\ (exists r,
             compute_bandwidth a
               (WaveformGenerator.differential_pulse
                  (WaveformGenerator.__init__ None false) (t a) 1) (4 / 5)
             = Ok r)
       /\ (exists s,
             compute_statistics a
               (WaveformGenerator.differential_pulse
                  (WaveformGenerator.__init__ None false) (t a) 1)
             = Ok s).
Proof.
  split; [exact valid_four|].
  destruct grid_four as (a & Ha & _).
  assert (In (WaveformGenerator.differential_pulse
                (WaveformGenerator.__init__ None false) (t a) 1)
             [ WaveformGenerator.half_sine_wave (t a) 1;
               WaveformGenerator.differential_pulse
                 (WaveformGenerator.__init__ None false) (t a) 1;
               WaveformGenerator.square_wave (t a) 1;
               WaveformGenerator.triangle_wave (t a) 1;
               WaveformGenerator.gaussian_pulse (t a) 1 ]) as Hin
      by (right; left; reflexivity).
  exists a. split; [exact Ha|]. split; [exact Hin|].
  exact (@generated_wave_is_analyzable four_samples a
           (WaveformGenerator.__init__ None false) 1
           (WaveformGenerator.differential_pulse
              (WaveformGenerator.__init__ None false) (t a) 1)
           3 1 None (1 / 10) (4 / 5) true valid_four Ha Hin).
Defined.

End Instances.
